(** * Call analysis pipeline: schemas, stage runners, record store, index

    A shallow embedding of the Python package [call_analysis_pipeline]:
    - [app/schemas.py]: the pydantic models of a call and of its five
      analysis facets, with [model_validate] and [model_dump(mode="json")];
    - [app/analysis_*.py]: the stage functions [analyze_*_for_call];
    - [app/analysis_runner.py]: [load_call], [save_call] and the five
      [run_*_for_all_calls] loops over [data/calls/*.json];
    - [app/storage.py]: [generate_call_id] and [save_call_analysis];
    - [app/vectorstore.py], [run_search_cli.py], [app/dashboard.py]: the index
      build, the search operation and its two callers.

    Conventions of the embedding.
    - A value produced by [json.loads] is a [json] term; a Python [dict] is an
      association list in insertion order ([dict_get], [dict_set]).
    - A file of [data/calls] is represented by the JSON document it holds:
      [json.dump] followed by [json.load] is taken to be the identity on
      documents.  The values of the [Dict[str, Any]] fields are JSON values
      (they come from [json.loads] or from [storage.build_call_metadata]).
    - Python [int] is [Z]; Python [float] is an IEEE-754 value [spec_float],
      carried around without arithmetic.
    - The parts of pydantic and of the [json] module that parse text (numeric
      strings, ISO dates, JSON text) are the fields of the class [PyLib].
    - The language model, the embedding service and standard input are
      functions supplied by the environment; every theorem quantifies over
      them. *)

From Stdlib Require Import ZArith Ascii String List Floats.SpecFloat.
From Stdlib Require Import DecimalString DecimalZ.
From stdpp Require Import base option list gmap strings sorting.

Local Open Scope Z_scope.

(** ** JSON values and Python dictionaries *)

#[local] Unset Elimination Schemes.

Inductive json :=
  | JNull
  | JBool (b : bool)
  | JInt (z : Z)
  | JFloat (f : spec_float)
  | JStr (s : string)
  | JArr (l : list json)
  | JObj (d : list (string * json)).

#[local] Set Elimination Schemes.

(** A [dict] with string keys, in insertion order. *)
Definition dict := list (string * json).

Fixpoint dict_get (k : string) (d : dict) : option json :=
  match d with
  | [] => None
  | (k', v) :: d' => if String.eqb k k' then Some v else dict_get k d'
  end.

(** [d[k] = v]: replaces the value of an existing key in place, appends a new
    key at the end. *)
Fixpoint dict_set (k : string) (v : json) (d : dict) : dict :=
  match d with
  | [] => [(k, v)]
  | (k', v') :: d' =>
      if String.eqb k k' then (k', v) :: d' else (k', v') :: dict_set k v d'
  end.

Definition as_dict (j : json) : option dict :=
  match j with JObj d => Some d | _ => None end.

(** ** Text-level library functions *)

(** [datetime.datetime] and [datetime.date]. *)
Class PyTime := {
  datetime : Type;
  date : Type
}.

Class PyLib `{PyTime} := {
  (** [json.loads]: [None] stands for [json.JSONDecodeError]. *)
  json_loads : string → option json;
  (** pydantic, lax mode: a numeric string given for an [int] or [float]. *)
  str_as_int : string → option Z;
  str_as_float : string → option spec_float;
  (** Validation of a date or time and its JSON-mode serialization (an
      ISO 8601 string). *)
  datetime_validate : json → option datetime;
  datetime_isoformat : datetime → string;
  datetime_roundtrip :
    ∀ d, datetime_validate (JStr (datetime_isoformat d)) = Some d;
  date_validate : json → option date;
  date_isoformat : date → string;
  date_roundtrip : ∀ d, date_validate (JStr (date_isoformat d)) = Some d
}.

(** ** Scalar validation (pydantic v2, lax mode, Python input) *)

(** The integer a float denotes when it has no fractional part. *)
Definition float_as_int (f : spec_float) : option Z :=
  match f with
  | S754_zero _ => Some 0
  | S754_finite s m e =>
      if 0 <=? e then Some (cond_Zopp s (Z.pos m * 2 ^ e))
      else if Z.pos m mod 2 ^ (- e) =? 0
           then Some (cond_Zopp s (Z.pos m / 2 ^ (- e)))
           else None
  | S754_infinity _ | S754_nan => None
  end.

(** Python [int(f)]: truncation toward zero; [nan] and infinities raise. *)
Definition float_trunc (f : spec_float) : option Z :=
  match f with
  | S754_zero _ => Some 0
  | S754_finite s m e =>
      if 0 <=? e then Some (cond_Zopp s (Z.pos m * 2 ^ e))
      else Some (cond_Zopp s (Z.pos m / 2 ^ (- e)))
  | S754_infinity _ | S754_nan => None
  end.

(** Python [float(z)] in binary64, round to nearest even; too large raises. *)
Definition int_as_float (z : Z) : option spec_float :=
  match binary_normalize 53 1024 z 0 false with
  | S754_infinity _ | S754_nan => None
  | f => Some f
  end.

Definition ascii_lower (c : ascii) : ascii :=
  let n := nat_of_ascii c in
  if (65 <=? n)%nat && (n <=? 90)%nat then ascii_of_nat (n + 32) else c.

Fixpoint str_lower (s : string) : string :=
  match s with
  | EmptyString => EmptyString
  | String c s' => String (ascii_lower c) (str_lower s')
  end.

Definition str_in (s : string) (l : list string) : bool :=
  existsb (String.eqb s) l.

Definition str_as_bool (s : string) : option bool :=
  let t := str_lower s in
  if str_in t ["1"; "on"; "t"; "true"; "y"; "yes"] then Some true
  else if str_in t ["0"; "off"; "f"; "false"; "n"; "no"] then Some false
  else None.

Definition validate_str (j : json) : option string :=
  match j with JStr s => Some s | _ => None end.

Definition validate_bool (j : json) : option bool :=
  match j with
  | JBool b => Some b
  | JInt 0 => Some false
  | JInt 1 => Some true
  | JFloat f =>
      match float_as_int f with
      | Some 0 => Some false
      | Some 1 => Some true
      | _ => None
      end
  | JStr s => str_as_bool s
  | _ => None
  end.

Section Validators.
Context `{PyLib}.

Definition validate_int (j : json) : option Z :=
  match j with
  | JInt z => Some z
  | JBool b => Some (if b then 1 else 0)
  | JFloat f => float_as_int f
  | JStr s => str_as_int s
  | _ => None
  end.

Definition validate_float (j : json) : option spec_float :=
  match j with
  | JFloat f => Some f
  | JInt z => int_as_float z
  | JBool b => int_as_float (if b then 1 else 0)
  | JStr s => str_as_float s
  | _ => None
  end.
End Validators.

(** [Optional[T]]: [null] is [None], anything else is validated as [T]. *)
Definition validate_optional {A} (v : json → option A) (j : json)
    : option (option A) :=
  match j with
  | JNull => Some None
  | _ => Some <$> v j
  end.

(** [List[T]]: only a JSON array, every element validated as [T]. *)
Definition validate_list {A} (v : json → option A) (j : json)
    : option (list A) :=
  match j with
  | JArr l => mapM v l
  | _ => None
  end.

(** [Dict[str, Any]]: only a JSON object, values kept as they are. *)
Definition validate_dict (j : json) : option dict := as_dict j.

(** A field declared [Field(...)]: required. *)
Definition required {A} (v : json → option A) (d : dict) (k : string)
    : option A :=
  dict_get k d ≫= v.

(** A field declared with [default=] or [default_factory=]: the default when
    the key is absent, validation of the value when it is present. *)
Definition defaulted {A} (v : json → option A) (dflt : A) (d : dict)
    (k : string) : option A :=
  match dict_get k d with
  | None => Some dflt
  | Some j => v j
  end.

(** [Optional[T] = Field(default=None)]. *)
Definition optional_field {A} (v : json → option A) (d : dict) (k : string)
    : option (option A) :=
  defaulted (validate_optional v) None d k.

Definition dump_optional {A} (f : A → json) (o : option A) : json :=
  match o with
  | None => JNull
  | Some x => f x
  end.

Definition dump_list {A} (f : A → json) (l : list A) : json := JArr (f <$> l).

(** ** Enumerations ([schemas.py]) *)

(** A [str] enumeration validates exactly the strings that are the value of
    one of its members, and serializes to that value. *)

Module SentimentLabel.
Inductive t := positive | neutral | negative.

Definition value (x : t) : string :=
  match x with
  | positive => "positive"
  | neutral => "neutral"
  | negative => "negative"
  end.

Definition members : list t := [positive; neutral; negative].

Definition validate (j : json) : option t :=
  match j with
  | JStr s => find (λ x, String.eqb s (value x)) members
  | _ => None
  end.

Definition dump (x : t) : json := JStr (value x).
End SentimentLabel.

Module RiskLevel.
Inductive t := low | medium | high | critical.

Definition value (x : t) : string :=
  match x with
  | low => "low"
  | medium => "medium"
  | high => "high"
  | critical => "critical"
  end.

Definition members : list t := [low; medium; high; critical].

Definition validate (j : json) : option t :=
  match j with
  | JStr s => find (λ x, String.eqb s (value x)) members
  | _ => None
  end.

Definition dump (x : t) : json := JStr (value x).
End RiskLevel.

Module ResolutionStatus.
Inductive t := resolved | partially_resolved | unresolved.

Definition value (x : t) : string :=
  match x with
  | resolved => "resolved"
  | partially_resolved => "partially_resolved"
  | unresolved => "unresolved"
  end.

Definition members : list t := [resolved; partially_resolved; unresolved].

Definition validate (j : json) : option t :=
  match j with
  | JStr s => find (λ x, String.eqb s (value x)) members
  | _ => None
  end.

Definition dump (x : t) : json := JStr (value x).
End ResolutionStatus.

(** ** The facet models ([schemas.py]) *)

(** Every model validates a JSON object only; keys that are not fields of the
    model are ignored (pydantic's default [extra='ignore']).
    [model_dump(mode="json")] writes every field, in declaration order. *)

Record SentimentSegment := {
  segment_label : string;
  start_second : option spec_float;
  end_second : option spec_float;
  segment_sentiment : SentimentLabel.t;
  segment_notes : option string
}.

Record SentimentAnalysis := {
  overall : SentimentLabel.t;
  score : option spec_float;
  emotion_tags : list string;
  sentiment_timeline : list SentimentSegment;
  sentiment_notes : option string
}.

Record IntentTopicsAnalysis := {
  primary_intent : option string;
  secondary_intents : list string;
  topics : list string;
  key_phrases : list string;
  intent_confidence : option spec_float;
  intent_notes : option string
}.

Record CallQualityScores := {
  greeting : option Z;
  listening_and_empathy : option Z;
  clarity_of_explanations : option Z;
  professionalism : option Z;
  script_adherence : option Z
}.

Record CallQualityAnalysis := {
  overall_quality_score : option Z;
  scores : CallQualityScores;
  strengths : list string;
  improvements : list string;
  quality_notes : option string
}.

Record PIIRedaction := {
  pii_type : string;
  original_value : option string;
  masked_value : option string
}.

Record ComplianceRiskAnalysis := {
  required_phrases_present : list string;
  missing_required_phrases : list string;
  forbidden_phrases_detected : list string;
  pii_detected : list PIIRedaction;
  risk_level : RiskLevel.t;
  compliance_notes : option string
}.

Record CustomMetrics := {
  appointment_booked : option bool;
  appointment_rescheduled : option bool;
  refund_requested : option bool;
  upsell_attempted : option bool;
  upsell_successful : option bool;
  extra : dict
}.

(** [CallQualityScores()], the [default_factory] of [scores]. *)
Definition CallQualityScores_default : CallQualityScores :=
  {| greeting := None; listening_and_empathy := None;
     clarity_of_explanations := None; professionalism := None;
     script_adherence := None |}.

Definition PIIRedaction_model_validate (j : json) : option PIIRedaction :=
  d ← as_dict j;
  t ← required validate_str d "type";
  o ← optional_field validate_str d "original_value";
  m ← optional_field validate_str d "masked_value";
  Some {| pii_type := t; original_value := o; masked_value := m |}.

Definition PIIRedaction_model_dump (p : PIIRedaction) : json :=
  JObj [("type", JStr (pii_type p));
        ("original_value", dump_optional JStr (original_value p));
        ("masked_value", dump_optional JStr (masked_value p))].

Definition ComplianceRiskAnalysis_model_validate (j : json)
    : option ComplianceRiskAnalysis :=
  d ← as_dict j;
  rp ← defaulted (validate_list validate_str) [] d "required_phrases_present";
  mp ← defaulted (validate_list validate_str) [] d "missing_required_phrases";
  fd ← defaulted (validate_list validate_str) [] d
         "forbidden_phrases_detected";
  pii ← defaulted (validate_list PIIRedaction_model_validate) [] d
          "pii_detected";
  rl ← defaulted RiskLevel.validate RiskLevel.low d "risk_level";
  n ← optional_field validate_str d "notes";
  Some {| required_phrases_present := rp; missing_required_phrases := mp;
          forbidden_phrases_detected := fd; pii_detected := pii;
          risk_level := rl; compliance_notes := n |}.

Definition ComplianceRiskAnalysis_model_dump (m : ComplianceRiskAnalysis)
    : json :=
  JObj [("required_phrases_present",
           dump_list JStr (required_phrases_present m));
        ("missing_required_phrases",
           dump_list JStr (missing_required_phrases m));
        ("forbidden_phrases_detected",
           dump_list JStr (forbidden_phrases_detected m));
        ("pii_detected", dump_list PIIRedaction_model_dump (pii_detected m));
        ("risk_level", RiskLevel.dump (risk_level m));
        ("notes", dump_optional JStr (compliance_notes m))].

Definition CustomMetrics_model_validate (j : json) : option CustomMetrics :=
  d ← as_dict j;
  ab ← optional_field validate_bool d "appointment_booked";
  ar ← optional_field validate_bool d "appointment_rescheduled";
  rr ← optional_field validate_bool d "refund_requested";
  ua ← optional_field validate_bool d "upsell_attempted";
  us ← optional_field validate_bool d "upsell_successful";
  ex ← defaulted validate_dict [] d "extra";
  Some {| appointment_booked := ab; appointment_rescheduled := ar;
          refund_requested := rr; upsell_attempted := ua;
          upsell_successful := us; extra := ex |}.

Definition CustomMetrics_model_dump (m : CustomMetrics) : json :=
  JObj [("appointment_booked", dump_optional JBool (appointment_booked m));
        ("appointment_rescheduled",
           dump_optional JBool (appointment_rescheduled m));
        ("refund_requested", dump_optional JBool (refund_requested m));
        ("upsell_attempted", dump_optional JBool (upsell_attempted m));
        ("upsell_successful", dump_optional JBool (upsell_successful m));
        ("extra", JObj (extra m))].

Section Models.
Context `{PyLib}.

Definition SentimentSegment_model_validate (j : json)
    : option SentimentSegment :=
  d ← as_dict j;
  l ← required validate_str d "segment_label";
  s ← optional_field validate_float d "start_second";
  e ← optional_field validate_float d "end_second";
  x ← required SentimentLabel.validate d "sentiment";
  n ← optional_field validate_str d "notes";
  Some {| segment_label := l; start_second := s; end_second := e;
          segment_sentiment := x; segment_notes := n |}.

Definition SentimentSegment_model_dump (m : SentimentSegment) : json :=
  JObj [("segment_label", JStr (segment_label m));
        ("start_second", dump_optional JFloat (start_second m));
        ("end_second", dump_optional JFloat (end_second m));
        ("sentiment", SentimentLabel.dump (segment_sentiment m));
        ("notes", dump_optional JStr (segment_notes m))].

Definition SentimentAnalysis_model_validate (j : json)
    : option SentimentAnalysis :=
  d ← as_dict j;
  o ← required SentimentLabel.validate d "overall";
  s ← optional_field validate_float d "score";
  t ← defaulted (validate_list validate_str) [] d "emotion_tags";
  tl ← defaulted (validate_list SentimentSegment_model_validate) [] d
         "sentiment_timeline";
  n ← optional_field validate_str d "notes";
  Some {| overall := o; score := s; emotion_tags := t;
          sentiment_timeline := tl; sentiment_notes := n |}.

Definition SentimentAnalysis_model_dump (m : SentimentAnalysis) : json :=
  JObj [("overall", SentimentLabel.dump (overall m));
        ("score", dump_optional JFloat (score m));
        ("emotion_tags", dump_list JStr (emotion_tags m));
        ("sentiment_timeline",
           dump_list SentimentSegment_model_dump (sentiment_timeline m));
        ("notes", dump_optional JStr (sentiment_notes m))].

Definition IntentTopicsAnalysis_model_validate (j : json)
    : option IntentTopicsAnalysis :=
  d ← as_dict j;
  p ← optional_field validate_str d "primary_intent";
  s ← defaulted (validate_list validate_str) [] d "secondary_intents";
  t ← defaulted (validate_list validate_str) [] d "topics";
  k ← defaulted (validate_list validate_str) [] d "key_phrases";
  c ← optional_field validate_float d "intent_confidence";
  n ← optional_field validate_str d "notes";
  Some {| primary_intent := p; secondary_intents := s; topics := t;
          key_phrases := k; intent_confidence := c; intent_notes := n |}.

Definition IntentTopicsAnalysis_model_dump (m : IntentTopicsAnalysis)
    : json :=
  JObj [("primary_intent", dump_optional JStr (primary_intent m));
        ("secondary_intents", dump_list JStr (secondary_intents m));
        ("topics", dump_list JStr (topics m));
        ("key_phrases", dump_list JStr (key_phrases m));
        ("intent_confidence", dump_optional JFloat (intent_confidence m));
        ("notes", dump_optional JStr (intent_notes m))].

Definition CallQualityScores_model_validate (j : json)
    : option CallQualityScores :=
  d ← as_dict j;
  g ← optional_field validate_int d "greeting";
  l ← optional_field validate_int d "listening_and_empathy";
  c ← optional_field validate_int d "clarity_of_explanations";
  p ← optional_field validate_int d "professionalism";
  s ← optional_field validate_int d "script_adherence";
  Some {| greeting := g; listening_and_empathy := l;
          clarity_of_explanations := c; professionalism := p;
          script_adherence := s |}.

Definition CallQualityScores_model_dump (m : CallQualityScores) : json :=
  JObj [("greeting", dump_optional JInt (greeting m));
        ("listening_and_empathy",
           dump_optional JInt (listening_and_empathy m));
        ("clarity_of_explanations",
           dump_optional JInt (clarity_of_explanations m));
        ("professionalism", dump_optional JInt (professionalism m));
        ("script_adherence", dump_optional JInt (script_adherence m))].

Definition CallQualityAnalysis_model_validate (j : json)
    : option CallQualityAnalysis :=
  d ← as_dict j;
  o ← optional_field validate_int d "overall_quality_score";
  sc ← defaulted CallQualityScores_model_validate CallQualityScores_default
         d "scores";
  st ← defaulted (validate_list validate_str) [] d "strengths";
  im ← defaulted (validate_list validate_str) [] d "improvements";
  n ← optional_field validate_str d "notes";
  Some {| overall_quality_score := o; scores := sc; strengths := st;
          improvements := im; quality_notes := n |}.

Definition CallQualityAnalysis_model_dump (m : CallQualityAnalysis)
    : json :=
  JObj [("overall_quality_score",
           dump_optional JInt (overall_quality_score m));
        ("scores", CallQualityScores_model_dump (scores m));
        ("strengths", dump_list JStr (strengths m));
        ("improvements", dump_list JStr (improvements m));
        ("notes", dump_optional JStr (quality_notes m))].

Record FollowupAction := {
  description : string;
  owner : option string;
  due_date : option date
}.

Record OutcomeFollowupAnalysis := {
  resolution_status : ResolutionStatus.t;
  final_outcome : option string;
  followup_actions : list FollowupAction;
  escalation_required : bool;
  escalation_reason : option string;
  outcome_notes : option string
}.

Definition dump_date (d : date) : json := JStr (date_isoformat d).
Definition dump_datetime (d : datetime) : json :=
  JStr (datetime_isoformat d).

Definition FollowupAction_model_validate (j : json)
    : option FollowupAction :=
  d ← as_dict j;
  ds ← required validate_str d "description";
  o ← optional_field validate_str d "owner";
  dd ← optional_field date_validate d "due_date";
  Some {| description := ds; owner := o; due_date := dd |}.

Definition FollowupAction_model_dump (m : FollowupAction) : json :=
  JObj [("description", JStr (description m));
        ("owner", dump_optional JStr (owner m));
        ("due_date", dump_optional dump_date (due_date m))].

Definition OutcomeFollowupAnalysis_model_validate (j : json)
    : option OutcomeFollowupAnalysis :=
  d ← as_dict j;
  rs ← defaulted ResolutionStatus.validate ResolutionStatus.unresolved d
         "resolution_status";
  fo ← optional_field validate_str d "final_outcome";
  fa ← defaulted (validate_list FollowupAction_model_validate) [] d
         "followup_actions";
  er ← defaulted validate_bool false d "escalation_required";
  rn ← optional_field validate_str d "escalation_reason";
  n ← optional_field validate_str d "notes";
  Some {| resolution_status := rs; final_outcome := fo;
          followup_actions := fa; escalation_required := er;
          escalation_reason := rn; outcome_notes := n |}.

Definition OutcomeFollowupAnalysis_model_dump
    (m : OutcomeFollowupAnalysis) : json :=
  JObj [("resolution_status", ResolutionStatus.dump (resolution_status m));
        ("final_outcome", dump_optional JStr (final_outcome m));
        ("followup_actions",
           dump_list FollowupAction_model_dump (followup_actions m));
        ("escalation_required", JBool (escalation_required m));
        ("escalation_reason", dump_optional JStr (escalation_reason m));
        ("notes", dump_optional JStr (outcome_notes m))].

(** *** Call metadata and the full per-call record *)

Record CallMetadata := {
  call_id : string;
  client_id : string;
  audio_file : string;
  call_start_time : option datetime;
  call_end_time : option datetime;
  duration_seconds : option spec_float;
  agent_name : option string;
  customer_phone : option string;
  extra_metadata : dict
}.

Definition CallMetadata_model_validate (j : json) : option CallMetadata :=
  d ← as_dict j;
  ci ← required validate_str d "call_id";
  cl ← required validate_str d "client_id";
  af ← required validate_str d "audio_file";
  st ← optional_field datetime_validate d "call_start_time";
  en ← optional_field datetime_validate d "call_end_time";
  du ← optional_field validate_float d "duration_seconds";
  an ← optional_field validate_str d "agent_name";
  cp ← optional_field validate_str d "customer_phone";
  ex ← defaulted validate_dict [] d "extra_metadata";
  Some {| call_id := ci; client_id := cl; audio_file := af;
          call_start_time := st; call_end_time := en;
          duration_seconds := du; agent_name := an; customer_phone := cp;
          extra_metadata := ex |}.

Definition CallMetadata_model_dump (m : CallMetadata) : json :=
  JObj [("call_id", JStr (call_id m));
        ("client_id", JStr (client_id m));
        ("audio_file", JStr (audio_file m));
        ("call_start_time", dump_optional dump_datetime (call_start_time m));
        ("call_end_time", dump_optional dump_datetime (call_end_time m));
        ("duration_seconds", dump_optional JFloat (duration_seconds m));
        ("agent_name", dump_optional JStr (agent_name m));
        ("customer_phone", dump_optional JStr (customer_phone m));
        ("extra_metadata", JObj (extra_metadata m))].

Record CallAnalysis := {
  metadata : CallMetadata;
  transcript : string;
  sentiment : option SentimentAnalysis;
  intent_and_topics : option IntentTopicsAnalysis;
  call_quality : option CallQualityAnalysis;
  compliance_and_risk : option ComplianceRiskAnalysis;
  outcome_and_followup : option OutcomeFollowupAnalysis;
  custom_metrics : option CustomMetrics;
  raw_llm_outputs : dict
}.

Definition CallAnalysis_model_validate (j : json) : option CallAnalysis :=
  d ← as_dict j;
  md ← required CallMetadata_model_validate d "metadata";
  tr ← required validate_str d "transcript";
  se ← optional_field SentimentAnalysis_model_validate d "sentiment";
  it ← optional_field IntentTopicsAnalysis_model_validate d
         "intent_and_topics";
  cq ← optional_field CallQualityAnalysis_model_validate d "call_quality";
  cr ← optional_field ComplianceRiskAnalysis_model_validate d
         "compliance_and_risk";
  ou ← optional_field OutcomeFollowupAnalysis_model_validate d
         "outcome_and_followup";
  cm ← optional_field CustomMetrics_model_validate d "custom_metrics";
  raw ← defaulted validate_dict [] d "raw_llm_outputs";
  Some {| metadata := md; transcript := tr; sentiment := se;
          intent_and_topics := it; call_quality := cq;
          compliance_and_risk := cr; outcome_and_followup := ou;
          custom_metrics := cm; raw_llm_outputs := raw |}.

Definition CallAnalysis_model_dump (c : CallAnalysis) : json :=
  JObj [("metadata", CallMetadata_model_dump (metadata c));
        ("transcript", JStr (transcript c));
        ("sentiment",
           dump_optional SentimentAnalysis_model_dump (sentiment c));
        ("intent_and_topics",
           dump_optional IntentTopicsAnalysis_model_dump
             (intent_and_topics c));
        ("call_quality",
           dump_optional CallQualityAnalysis_model_dump (call_quality c));
        ("compliance_and_risk",
           dump_optional ComplianceRiskAnalysis_model_dump
             (compliance_and_risk c));
        ("outcome_and_followup",
           dump_optional OutcomeFollowupAnalysis_model_dump
             (outcome_and_followup c));
        ("custom_metrics",
           dump_optional CustomMetrics_model_dump (custom_metrics c));
        ("raw_llm_outputs", JObj (raw_llm_outputs c))].
End Models.

(** ** The environment of a stage run *)

Inductive stage := Sentiment | IntentTopics | Quality | Compliance | Outcome.

(** The key of [raw_llm_outputs] a stage writes. *)
Definition stage_key (st : stage) : string :=
  match st with
  | Sentiment => "sentiment"
  | IntentTopics => "intent_and_topics"
  | Quality => "call_quality"
  | Compliance => "compliance_and_risk"
  | Outcome => "outcome_and_followup"
  end.

(** Exceptions that leave a stage function or a runner. *)
Inductive exn :=
  | ValueError_not_str     (* "Expected string content from LLM, got: ..." *)
  | ValueError_bad_json    (* "Failed to parse LLM JSON response: ..." *)
  | ValidationError        (* pydantic.ValidationError *)
  | LLMError               (* whatever [chain.invoke] raises *)
  | FileNotFoundError
  | DuplicateIDError       (* chromadb: the ids of one upsert repeat *)
  | EmbeddingError         (* whatever the embedding function raises *)
  | IndexError.

Inductive result (A : Type) :=
  | Ok (a : A)
  | Raise (e : exn).
Arguments Ok {A} a.
Arguments Raise {A} e.

(** [response.content]: a string, or a list of content blocks. *)
Inductive llm_content :=
  | ContentStr (s : string)
  | ContentBlocks (blocks : list json).

Inductive llm_reply :=
  | Reply (content : llm_content)
  | InvokeFails.

(** What [chain.invoke] receives: the stage whose prompt is used, the model
    name and the template variables.  The variable [call_metadata_json] holds
    the metadata document (the source passes its [json.dumps] text). *)
Record llm_request := {
  req_stage : stage;
  req_model : string;
  req_vars : list (string * json)
}.

(** The language model: its reply to a request, given the number of requests
    it has answered before. *)
Definition llm := nat → llm_request → llm_reply.

(** What the runners print. *)
Inductive message :=
  | MsgNoCallFiles                  (* "No call JSON files found ..." *)
  | MsgFound (n : nat) (st : stage) (* "Found n call file(s) for ..." *)
  | MsgProcessing (name : string)   (* "Processing: name" *)
  | MsgSkipping (st : stage)        (* "... already present, skipping." *)
  | MsgSaved (st : stage).          (* "... analysis saved." *)

(** The state a runner acts on: the JSON files of [data_dir/calls] by file
    name, standard output, and the requests sent to the language model. *)
Record world := {
  files : gmap string json;
  stdout : list message;
  llm_calls : list llm_request
}.

Definition with_files (fs : gmap string json) (w : world) : world :=
  {| files := fs; stdout := stdout w; llm_calls := llm_calls w |}.
Definition with_output (out : list message) (w : world) : world :=
  {| files := files w; stdout := stdout w ++ out; llm_calls := llm_calls w |}.
Definition with_request (req : llm_request) (w : world) : world :=
  {| files := files w; stdout := stdout w;
     llm_calls := llm_calls w ++ [req] |}.

Definition M (A : Type) : Type := world → result A * world.

Definition ret {A} (a : A) : M A := λ w, (Ok a, w).
Definition raise {A} (e : exn) : M A := λ w, (Raise e, w).
Definition bind {A B} (m : M A) (k : A → M B) : M B :=
  λ w, match m w with
       | (Ok a, w') => k a w'
       | (Raise e, w') => (Raise e, w')
       end.

#[global] Instance M_ret : MRet M := @ret.
#[global] Instance M_bind : MBind M := λ A B k m, bind m k.

Definition print (msg : message) : M unit :=
  λ w, (Ok tt, {| files := files w; stdout := stdout w ++ [msg];
                  llm_calls := llm_calls w |}).

(** [for x in l: body(x)]; an exception leaves the loop. *)
Fixpoint for_each {A} (body : A → M unit) (l : list A) : M unit :=
  match l with
  | [] => ret tt
  | x :: l' => body x;; for_each body l'
  end.

Definition path_le (a b : string) : Prop := String.leb a b.

(** [sorted(calls_dir.glob("*.json"))]; a directory that does not exist
    lists like an empty one. *)
Definition call_files (fs : gmap string json) : list string :=
  merge_sort path_le (elements (dom fs)).

Definition list_call_files : M (list string) :=
  λ w, (Ok (call_files (files w)), w).

Section Runner.
Context `{PyLib}.
Variable oracle : llm.

(** [chain.invoke(vars)] *)
Definition invoke (st : stage) (model : string)
    (vars : list (string * json)) : M llm_content :=
  λ w,
    let req := {| req_stage := st; req_model := model; req_vars := vars |} in
    let w' := {| files := files w; stdout := stdout w;
                 llm_calls := llm_calls w ++ [req] |} in
    match oracle (length (llm_calls w)) req with
    | Reply c => (Ok c, w')
    | InvokeFails => (Raise LLMError, w')
    end.

(** The common tail of the five stage functions: the content must be a
    string, the string must parse, the document must validate. *)
Definition parse_and_validate {A} (validate : json → option A)
    (content : llm_content) : M (A * json) :=
  match content with
  | ContentBlocks _ => raise ValueError_not_str
  | ContentStr s =>
      match json_loads s with
      | None => raise ValueError_bad_json
      | Some data =>
          match validate data with
          | None => raise ValidationError
          | Some m => ret (m, data)
          end
      end
  end.

Definition call_vars (call : CallAnalysis) : list (string * json) :=
  [("call_metadata_json", CallMetadata_model_dump (metadata call));
   ("transcript", JStr (transcript call))].

Definition analyze_sentiment_for_call (call : CallAnalysis)
    (model : string) : M (SentimentAnalysis * json) :=
  content ← invoke Sentiment model (call_vars call);
  parse_and_validate SentimentAnalysis_model_validate content.

Definition analyze_intent_topics_for_call (call : CallAnalysis)
    (model : string) : M (IntentTopicsAnalysis * json) :=
  content ← invoke IntentTopics model (call_vars call);
  parse_and_validate IntentTopicsAnalysis_model_validate content.

Definition analyze_quality_for_call (call : CallAnalysis)
    (model : string) : M (CallQualityAnalysis * json) :=
  content ← invoke Quality model (call_vars call);
  parse_and_validate CallQualityAnalysis_model_validate content.

Definition analyze_compliance_for_call (call : CallAnalysis)
    (required_phrases forbidden_phrases : option (list string))
    (model : string) : M (ComplianceRiskAnalysis * json) :=
  let required_phrases := default [] required_phrases in
  let forbidden_phrases := default [] forbidden_phrases in
  content ← invoke Compliance model
               (call_vars call ++
                [("required_phrases_json", dump_list JStr required_phrases);
                 ("forbidden_phrases_json",
                    dump_list JStr forbidden_phrases)]);
  parse_and_validate ComplianceRiskAnalysis_model_validate content.

Definition analyze_outcome_for_call (call : CallAnalysis)
    (model : string) : M (OutcomeFollowupAnalysis * json) :=
  content ← invoke Outcome model (call_vars call);
  parse_and_validate OutcomeFollowupAnalysis_model_validate content.
End Runner.

(** ** [analysis_runner.py] *)

Section AnalysisRunner.
Context `{PyLib}.
Variable oracle : llm.

(** [load_call]: read the document, validate it as a [CallAnalysis]. *)
Definition load_call (path : string) : M CallAnalysis :=
  λ w, match files w !! path with
       | None => (Raise FileNotFoundError, w)
       | Some data =>
           match CallAnalysis_model_validate data with
           | None => (Raise ValidationError, w)
           | Some call => (Ok call, w)
           end
       end.

(** [save_call]: write [call.model_dump(mode="json")] to the file. *)
Definition save_call (path : string) (call : CallAnalysis) : M unit :=
  λ w, (Ok tt, {| files := <[path := CallAnalysis_model_dump call]> (files w);
                  stdout := stdout w; llm_calls := llm_calls w |}).

(** Attribute assignments [call.<field> = ...]. *)
Definition set_sentiment (v : option SentimentAnalysis) (c : CallAnalysis)
    : CallAnalysis :=
  {| metadata := metadata c; transcript := transcript c; sentiment := v;
     intent_and_topics := intent_and_topics c;
     call_quality := call_quality c;
     compliance_and_risk := compliance_and_risk c;
     outcome_and_followup := outcome_and_followup c;
     custom_metrics := custom_metrics c;
     raw_llm_outputs := raw_llm_outputs c |}.

Definition set_intent_and_topics (v : option IntentTopicsAnalysis)
    (c : CallAnalysis) : CallAnalysis :=
  {| metadata := metadata c; transcript := transcript c;
     sentiment := sentiment c; intent_and_topics := v;
     call_quality := call_quality c;
     compliance_and_risk := compliance_and_risk c;
     outcome_and_followup := outcome_and_followup c;
     custom_metrics := custom_metrics c;
     raw_llm_outputs := raw_llm_outputs c |}.

Definition set_call_quality (v : option CallQualityAnalysis)
    (c : CallAnalysis) : CallAnalysis :=
  {| metadata := metadata c; transcript := transcript c;
     sentiment := sentiment c; intent_and_topics := intent_and_topics c;
     call_quality := v;
     compliance_and_risk := compliance_and_risk c;
     outcome_and_followup := outcome_and_followup c;
     custom_metrics := custom_metrics c;
     raw_llm_outputs := raw_llm_outputs c |}.

Definition set_compliance_and_risk (v : option ComplianceRiskAnalysis)
    (c : CallAnalysis) : CallAnalysis :=
  {| metadata := metadata c; transcript := transcript c;
     sentiment := sentiment c; intent_and_topics := intent_and_topics c;
     call_quality := call_quality c;
     compliance_and_risk := v;
     outcome_and_followup := outcome_and_followup c;
     custom_metrics := custom_metrics c;
     raw_llm_outputs := raw_llm_outputs c |}.

Definition set_outcome_and_followup (v : option OutcomeFollowupAnalysis)
    (c : CallAnalysis) : CallAnalysis :=
  {| metadata := metadata c; transcript := transcript c;
     sentiment := sentiment c; intent_and_topics := intent_and_topics c;
     call_quality := call_quality c;
     compliance_and_risk := compliance_and_risk c;
     outcome_and_followup := v;
     custom_metrics := custom_metrics c;
     raw_llm_outputs := raw_llm_outputs c |}.

(** [call.raw_llm_outputs[key] = raw_json].  The field is a validated
    [Dict[str, Any]], never [None]: the source's test
    [if call.raw_llm_outputs is None] does not fire. *)
Definition set_raw_llm_output (key : string) (raw_json : json)
    (c : CallAnalysis) : CallAnalysis :=
  {| metadata := metadata c; transcript := transcript c;
     sentiment := sentiment c; intent_and_topics := intent_and_topics c;
     call_quality := call_quality c;
     compliance_and_risk := compliance_and_risk c;
     outcome_and_followup := outcome_and_followup c;
     custom_metrics := custom_metrics c;
     raw_llm_outputs := dict_set key raw_json (raw_llm_outputs c) |}.

Definition run_sentiment_for_all_calls (model : string) : M unit :=
  call_paths ← list_call_files;
  if bool_decide (call_paths = []) then print MsgNoCallFiles
  else
    print (MsgFound (length call_paths) Sentiment);;
    for_each (λ path,
      print (MsgProcessing path);;
      call ← load_call path;
      if sentiment call is Some _ then print (MsgSkipping Sentiment)
      else
        '(sentiment_model, raw_json) ←
           analyze_sentiment_for_call oracle call model;
        let call := set_sentiment (Some sentiment_model) call in
        let call := set_raw_llm_output "sentiment" raw_json call in
        save_call path call;;
        print (MsgSaved Sentiment)) call_paths.

Definition run_intent_topics_for_all_calls (model : string) : M unit :=
  call_paths ← list_call_files;
  if bool_decide (call_paths = []) then print MsgNoCallFiles
  else
    print (MsgFound (length call_paths) IntentTopics);;
    for_each (λ path,
      print (MsgProcessing path);;
      call ← load_call path;
      if intent_and_topics call is Some _
      then print (MsgSkipping IntentTopics)
      else
        '(intent_model, raw_json) ←
           analyze_intent_topics_for_call oracle call model;
        let call := set_intent_and_topics (Some intent_model) call in
        let call := set_raw_llm_output "intent_and_topics" raw_json call in
        save_call path call;;
        print (MsgSaved IntentTopics)) call_paths.

Definition run_quality_for_all_calls (model : string) : M unit :=
  call_paths ← list_call_files;
  if bool_decide (call_paths = []) then print MsgNoCallFiles
  else
    print (MsgFound (length call_paths) Quality);;
    for_each (λ path,
      print (MsgProcessing path);;
      call ← load_call path;
      if call_quality call is Some _ then print (MsgSkipping Quality)
      else
        '(quality_model, raw_json) ←
           analyze_quality_for_call oracle call model;
        let call := set_call_quality (Some quality_model) call in
        let call := set_raw_llm_output "call_quality" raw_json call in
        save_call path call;;
        print (MsgSaved Quality)) call_paths.

Definition run_compliance_for_all_calls (model : string)
    (required_phrases forbidden_phrases : option (list string)) : M unit :=
  call_paths ← list_call_files;
  if bool_decide (call_paths = []) then print MsgNoCallFiles
  else
    let required_phrases := default [] required_phrases in
    let forbidden_phrases := default [] forbidden_phrases in
    print (MsgFound (length call_paths) Compliance);;
    for_each (λ path,
      print (MsgProcessing path);;
      call ← load_call path;
      if compliance_and_risk call is Some _
      then print (MsgSkipping Compliance)
      else
        '(compliance_model, raw_json) ←
           analyze_compliance_for_call oracle call
             (Some required_phrases) (Some forbidden_phrases) model;
        let call := set_compliance_and_risk (Some compliance_model) call in
        let call :=
          set_raw_llm_output "compliance_and_risk" raw_json call in
        save_call path call;;
        print (MsgSaved Compliance)) call_paths.

Definition run_outcome_for_all_calls (model : string) : M unit :=
  call_paths ← list_call_files;
  if bool_decide (call_paths = []) then print MsgNoCallFiles
  else
    print (MsgFound (length call_paths) Outcome);;
    for_each (λ path,
      print (MsgProcessing path);;
      call ← load_call path;
      if outcome_and_followup call is Some _
      then print (MsgSkipping Outcome)
      else
        '(outcome_model, raw_json) ←
           analyze_outcome_for_call oracle call model;
        let call := set_outcome_and_followup (Some outcome_model) call in
        let call :=
          set_raw_llm_output "outcome_and_followup" raw_json call in
        save_call path call;;
        print (MsgSaved Outcome)) call_paths.

(** The configuration of a pipeline run ([run_full_pipeline.main]). *)
Record run_config := {
  llm_model : string;
  cfg_required_phrases : list string;
  cfg_forbidden_phrases : list string
}.

(** The stage runner of a given stage, as [main] calls it. *)
Definition run_for_all_calls (cfg : run_config) (st : stage) : M unit :=
  match st with
  | Sentiment => run_sentiment_for_all_calls (llm_model cfg)
  | IntentTopics => run_intent_topics_for_all_calls (llm_model cfg)
  | Quality => run_quality_for_all_calls (llm_model cfg)
  | Compliance =>
      run_compliance_for_all_calls (llm_model cfg)
        (Some (cfg_required_phrases cfg)) (Some (cfg_forbidden_phrases cfg))
  | Outcome => run_outcome_for_all_calls (llm_model cfg)
  end.
End AnalysisRunner.

(** ** Strings and paths *)

(** Split at the last occurrence of a character ([str.rpartition]). *)
Fixpoint rsplit (c : ascii) (s : string) : option (string * string) :=
  match s with
  | EmptyString => None
  | String a s' =>
      match rsplit c s' with
      | Some (l, r) => Some (String a l, r)
      | None => if Ascii.eqb a c then Some (EmptyString, s') else None
      end
  end.

(** [Path.name]: the final component of a path. *)
Definition path_name (p : string) : string :=
  match rsplit "/" p with
  | Some (_, r) => r
  | None => p
  end.

(** [Path.stem]: the name without its last suffix; a leading or a trailing dot
    does not start a suffix. *)
Definition path_stem (p : string) : string :=
  let n := path_name p in
  match rsplit "." n with
  | Some (l, r) =>
      if String.eqb l "" || String.eqb r "" then n else l
  | None => n
  end.

(** [str(z)] for an [int]. *)
Definition Z_to_str (z : Z) : string := NilZero.string_of_int (Z.to_int z).

(** [str.isspace] on ASCII: tab, line feed, vertical tab, form feed, carriage
    return, the four separators 28-31 and the space. *)
Definition is_space (c : ascii) : bool :=
  let n := nat_of_ascii c in
  ((9 <=? n)%nat && (n <=? 13)%nat) || ((28 <=? n)%nat && (n <=? 32)%nat).

Fixpoint lstrip (s : string) : string :=
  match s with
  | EmptyString => EmptyString
  | String c s' => if is_space c then lstrip s' else s
  end.

Fixpoint rstrip (s : string) : string :=
  match s with
  | EmptyString => EmptyString
  | String c s' =>
      let r := rstrip s' in
      if is_space c && String.eqb r "" then EmptyString else String c r
  end.

(** [s.strip()] *)
Definition strip (s : string) : string := rstrip (lstrip s).

(** Python truth value of a string. *)
Definition str_truthy (s : string) : bool := negb (String.eqb s "").

(** A blank text: empty or made of white space only. *)
Fixpoint is_blank (s : string) : bool :=
  match s with
  | EmptyString => true
  | String c s' => is_space c && is_blank s'
  end.

(** ** [ingestion.py], [transcription.py], [storage.py] *)

Record RecordingFile := {
  path : string;
  name : string;
  size_bytes : Z;
  modified_time : spec_float  (* POSIX timestamp *)
}.

Record TranscriptionResult := {
  recording : RecordingFile;
  text : string;
  language : option string
}.

(** [f"{stem}_{ts}"] with [ts = int(recording.modified_time)]; [None] when
    [int] raises. *)
Definition generate_call_id (recording : RecordingFile) : option string :=
  let stem := path_stem (path recording) in
  ts ← float_trunc (modified_time recording);
  Some (stem +:+ "_" +:+ Z_to_str ts).

Section Storage.
Context `{PyLib}.

(** [created_at] is [datetime.utcnow().isoformat()], read from the clock. *)
Definition build_call_metadata (recording : RecordingFile)
    (client_id : string) (created_at : string) : option CallMetadata :=
  call_id ← generate_call_id recording;
  Some {| call_id := call_id; client_id := client_id;
          audio_file := path recording;
          call_start_time := None; call_end_time := None;
          duration_seconds := None; agent_name := None;
          customer_phone := None;
          extra_metadata :=
            [("size_bytes", JInt (size_bytes recording));
             ("modified_time", JFloat (modified_time recording));
             ("created_at", JStr created_at)] |}.

Definition build_call_analysis_from_transcription
    (res : TranscriptionResult) (client_id : string) (created_at : string)
    : option CallAnalysis :=
  metadata ← build_call_metadata (recording res) client_id created_at;
  Some {| metadata := metadata; transcript := text res;
          sentiment := None; intent_and_topics := None;
          call_quality := None; compliance_and_risk := None;
          outcome_and_followup := None; custom_metrics := None;
          raw_llm_outputs := [] |}.

(** Writes [calls_dir / f"{call_id}.json"] and returns the file name. *)
Definition save_call_analysis (call_analysis : CallAnalysis)
    (fs : gmap string json) : string * gmap string json :=
  let call_id := call_id (metadata call_analysis) in
  let out_path := call_id +:+ ".json" in
  (out_path, <[out_path := CallAnalysis_model_dump call_analysis]> fs).

Definition save_transcription_result (res : TranscriptionResult)
    (client_id : string) (created_at : string) (fs : gmap string json)
    : option (string * gmap string json) :=
  call_analysis ←
    build_call_analysis_from_transcription res client_id created_at;
  Some (save_call_analysis call_analysis fs).

(** The clock is read once per result: [utcnow n] is its [n]-th reading. *)
Fixpoint save_transcription_results (utcnow : nat → string) (n : nat)
    (results : list TranscriptionResult) (client_id : string)
    (fs : gmap string json) : option (list string * gmap string json) :=
  match results with
  | [] => Some ([], fs)
  | r :: rest =>
      '(p, fs') ← save_transcription_result r client_id (utcnow n) fs;
      '(ps, fs'') ←
        save_transcription_results utcnow (S n) rest client_id fs';
      Some (p :: ps, fs'')
  end.
End Storage.

(** ** [vectorstore.py] *)

(** A document of the Chroma collection. *)
Record index_document := {
  document : string;
  doc_metadata : dict;
  embedding : list spec_float
}.

(** The embedding function: one vector per text, or an exception. *)
Definition embedder := list string → option (list (list spec_float)).

(** [collection.upsert(ids, documents, metadatas)]: the ids of one request
    must be distinct; each id then maps to its new document, replacing the
    document it had. *)
Definition store_document (coll : gmap string index_document)
    (entry : string * (string * (dict * list spec_float)))
    : gmap string index_document :=
  let '(i, (d, (m, v))) := entry in
  <[i := {| document := d; doc_metadata := m; embedding := v |}]> coll.

Definition upsert (embed : embedder) (ids documents : list string)
    (metadatas : list dict) (coll : gmap string index_document)
    : result unit * gmap string index_document :=
  if bool_decide (NoDup ids) then
    match embed documents with
    | None => (Raise EmbeddingError, coll)
    | Some vectors =>
        (Ok tt,
         foldl store_document coll
           (zip ids (zip documents (zip metadatas vectors))))
    end
  else (Raise DuplicateIDError, coll).

Section VectorStore.
Context `{PyLib}.

Definition load_call_from_json (path : string) (fs : gmap string json)
    : result CallAnalysis :=
  match fs !! path with
  | None => Raise FileNotFoundError
  | Some data =>
      match CallAnalysis_model_validate data with
      | None => Raise ValidationError
      | Some call => Ok call
      end
  end.

(** The metadata [build_calls_index] attaches to a call. *)
Definition index_metadata (call : CallAnalysis) : dict :=
  let sentiment_label :=
    match sentiment call with
    | Some s =>
        if str_truthy (SentimentLabel.value (overall s))
        then SentimentLabel.dump (overall s) else JNull
    | None => JNull
    end in
  let primary_intent :=
    match intent_and_topics call with
    | Some i =>
        match primary_intent i with
        | Some p => if str_truthy p then JStr p else JNull
        | None => JNull
        end
    | None => JNull
    end in
  let risk_label :=
    match compliance_and_risk call with
    | Some c =>
        if str_truthy (RiskLevel.value (risk_level c))
        then RiskLevel.dump (risk_level c) else JNull
    | None => JNull
    end in
  let quality_score :=
    match call_quality call with
    | Some q => dump_optional JInt (overall_quality_score q)
    | None => JNull
    end in
  [("call_id", JStr (call_id (metadata call)));
   ("client_id", JStr (client_id (metadata call)));
   ("audio_file", JStr (audio_file (metadata call)));
   ("sentiment", sentiment_label);
   ("primary_intent", primary_intent);
   ("risk_level", risk_label);
   ("quality_score", quality_score)].

(** The loop of [build_calls_index]: the three lists it fills. *)
Fixpoint collect_documents (call_paths : list string)
    (fs : gmap string json)
    (ids documents : list string) (metadatas : list dict)
    : result (list string * list string * list dict) :=
  match call_paths with
  | [] => Ok (ids, documents, metadatas)
  | p :: rest =>
      match load_call_from_json p fs with
      | Raise e => Raise e
      | Ok call =>
          let call_id := call_id (metadata call) in
          let transcript := transcript call in
          if negb (str_truthy (strip transcript))
          then collect_documents rest fs ids documents metadatas
          else collect_documents rest fs (ids ++ [call_id])
                 (documents ++ [transcript])
                 (metadatas ++ [index_metadata call])
      end
  end.

(** What [upsert] receives for a call and its embedding. *)
Definition entry_of (cv : CallAnalysis * list spec_float)
    : string * (string * (dict * list spec_float)) :=
  (call_id (metadata cv.1), (transcript cv.1, (index_metadata cv.1, cv.2))).

(** The records that are indexed: those whose transcript is not blank. *)
Definition indexable (records : list CallAnalysis) : list CallAnalysis :=
  List.filter (λ c, negb (is_blank (transcript c))) records.

Definition build_calls_index (embed : embedder) (fs : gmap string json)
    (coll : gmap string index_document)
    : result unit * gmap string index_document :=
  let call_paths := call_files fs in
  if bool_decide (call_paths = []) then (Ok tt, coll)
  else
    match collect_documents call_paths fs [] [] [] with
    | Raise e => (Raise e, coll)
    | Ok (ids, documents, metadatas) =>
        if bool_decide (ids = []) then (Ok tt, coll)
        else upsert embed ids documents metadatas coll
    end.
End VectorStore.

(** *** Search *)

(** The first row of what [collection.query] returns. *)
Record query_result := {
  qr_ids : list string;
  qr_documents : list string;
  qr_metadatas : list json;
  qr_distances : list spec_float
}.

(** The vector index as the search sees it: the answer to a query text and a
    number of results, or an exception. *)
Definition index := string → Z → option query_result.

Record search_match := {
  match_id : string;
  match_document : string;
  match_metadata : json;
  match_distance : spec_float
}.

(** What a search does: the queries it sent to the index, and its outcome. *)
Record search_run (A : Type) := {
  dispatched : list (string * Z);
  outcome : A
}.
Arguments dispatched {A} _.
Arguments outcome {A} _.

Definition build_matches (r : query_result) : result (list search_match) :=
  let fix go (i : nat) (n : nat) : result (list search_match) :=
    match n with
    | O => Ok []
    | S n' =>
        match qr_ids r !! i, qr_documents r !! i, qr_metadatas r !! i,
              qr_distances r !! i with
        | Some a, Some b, Some c, Some d =>
            match go (S i) n' with
            | Ok ms => Ok ({| match_id := a; match_document := b;
                              match_metadata := c; match_distance := d |}
                           :: ms)
            | Raise e => Raise e
            end
        | _, _, _, _ => Raise IndexError
        end
    end in
  go O (length (qr_ids r)).

Definition semantic_search_calls (idx : index) (query : string)
    (n_results : Z) : search_run (result (list search_match)) :=
  {| dispatched := [(query, n_results)];
     outcome :=
       match idx query n_results with
       | None => Raise EmbeddingError
       | Some r => build_matches r
       end |}.

(** [run_search_cli.main]: [argv] is [sys.argv], [typed] the line [input]
    returns when it is called. *)
Inductive cli_outcome :=
  | CliNoQuery                               (* "No query provided." *)
  | CliNoResults                             (* "No results." *)
  | CliResults (ms : list search_match)
  | CliRaised (e : exn).

Definition main (idx : index) (argv : list string) (typed : string)
    : search_run cli_outcome :=
  let query :=
    if bool_decide (1 < length argv)%nat
    then String.concat " " (tail argv)
    else strip typed in
  if negb (str_truthy query)
  then {| dispatched := []; outcome := CliNoQuery |}
  else
    let r := semantic_search_calls idx query 5 in
    {| dispatched := dispatched r;
       outcome := match outcome r with
                  | Raise e => CliRaised e
                  | Ok [] => CliNoResults
                  | Ok ms => CliResults ms
                  end |}.

(** [dashboard.render_semantic_search_section]: the text of the input box,
    the slider value, and whether the button was pressed. *)
Inductive dashboard_outcome :=
  | DashIdle
  | DashWarning                 (* "Please enter a query before searching." *)
  | DashError (e : exn)
  | DashNoMatches
  | DashResults (ms : list search_match).

Definition render_semantic_search_section (idx : index) (query : string)
    (n_results : Z) (run_search : bool) : search_run dashboard_outcome :=
  if run_search then
    if negb (str_truthy (strip query))
    then {| dispatched := []; outcome := DashWarning |}
    else
      let r := semantic_search_calls idx query n_results in
      {| dispatched := dispatched r;
         outcome := match outcome r with
                    | Raise e => DashError e
                    | Ok [] => DashNoMatches
                    | Ok ms => DashResults ms
                    end |}
  else {| dispatched := []; outcome := DashIdle |}.

(** ** The five runners as one loop *)

(** The five functions of [analysis_runner.py] are one text up to the facet
    they test and assign, the stage function they call and the key they
    write.  [stage_ops] collects what differs; [run_stage] is the common
    text.  [run_for_all_calls_unfold] below shows that each runner is
    [run_stage] at its own [stage_ops]. *)

Section StageOps.
Context `{PyLib}.
Variable oracle : llm.

Record stage_ops := {
  ops_stage : stage;
  ops_facet : Type;
  ops_get : CallAnalysis → option ops_facet;
  ops_set : option ops_facet → CallAnalysis → CallAnalysis;
  ops_validate : json → option ops_facet;
  ops_vars : CallAnalysis → list (string * json)
}.

Definition analyze_for_call (ops : stage_ops) (call : CallAnalysis)
    (model : string) : M (ops_facet ops * json) :=
  content ← invoke oracle (ops_stage ops) model (ops_vars ops call);
  parse_and_validate (ops_validate ops) content.

(** The request [process_call] sends for a call. *)
Definition ops_request (ops : stage_ops) (model : string)
    (c : CallAnalysis) : llm_request :=
  {| req_stage := ops_stage ops; req_model := model;
     req_vars := ops_vars ops c |}.

(** What a stage function makes of a reply: an exception, or the call
    with the facet and the raw output assigned. *)
Definition stage_outcome (ops : stage_ops) (call : CallAnalysis)
    (reply : llm_reply) : result CallAnalysis :=
  match reply with
  | InvokeFails => Raise LLMError
  | Reply (ContentBlocks _) => Raise ValueError_not_str
  | Reply (ContentStr s) =>
      match json_loads s with
      | None => Raise ValueError_bad_json
      | Some data =>
          match ops_validate ops data with
          | None => Raise ValidationError
          | Some m =>
              Ok (set_raw_llm_output (stage_key (ops_stage ops)) data
                    (ops_set ops (Some m) call))
          end
      end
  end.

Definition process_call (ops : stage_ops) (model : string)
    (path : string) : M unit :=
  print (MsgProcessing path);;
  call ← load_call path;
  if ops_get ops call is Some _ then print (MsgSkipping (ops_stage ops))
  else
    '(facet_model, raw_json) ← analyze_for_call ops call model;
    let call := ops_set ops (Some facet_model) call in
    let call :=
      set_raw_llm_output (stage_key (ops_stage ops)) raw_json call in
    save_call path call;;
    print (MsgSaved (ops_stage ops)).

Definition run_paths (ops : stage_ops) (model : string)
    (call_paths : list string) : M unit :=
  for_each (process_call ops model) call_paths.

Definition run_stage (ops : stage_ops) (model : string) : M unit :=
  call_paths ← list_call_files;
  if bool_decide (call_paths = []) then print MsgNoCallFiles
  else
    print (MsgFound (length call_paths) (ops_stage ops));;
    run_paths ops model call_paths.

(** The file of a processed record: it held a record without the facet,
    the stage function succeeded on it, and the file now holds the
    serialization of what it returned. *)
Definition processed (ops : stage_ops) (model : string)
    (fs fs' : gmap string json) (path : string) : Prop :=
  ∃ c c' n,
    fs !! path ≫= CallAnalysis_model_validate = Some c ∧
    ops_get ops c = None ∧
    stage_outcome ops c (oracle n (ops_request ops model c)) = Ok c' ∧
    fs' !! path = Some (CallAnalysis_model_dump c').

Definition compliance_vars (required_phrases forbidden_phrases : list string)
    (call : CallAnalysis) : list (string * json) :=
  call_vars call ++
  [("required_phrases_json", dump_list JStr required_phrases);
   ("forbidden_phrases_json", dump_list JStr forbidden_phrases)].

Definition ops_of (cfg : run_config) (st : stage) : stage_ops :=
  match st with
  | Sentiment =>
      {| ops_stage := Sentiment; ops_get := sentiment;
         ops_set := set_sentiment;
         ops_validate := SentimentAnalysis_model_validate;
         ops_vars := call_vars |}
  | IntentTopics =>
      {| ops_stage := IntentTopics; ops_get := intent_and_topics;
         ops_set := set_intent_and_topics;
         ops_validate := IntentTopicsAnalysis_model_validate;
         ops_vars := call_vars |}
  | Quality =>
      {| ops_stage := Quality; ops_get := call_quality;
         ops_set := set_call_quality;
         ops_validate := CallQualityAnalysis_model_validate;
         ops_vars := call_vars |}
  | Compliance =>
      {| ops_stage := Compliance; ops_get := compliance_and_risk;
         ops_set := set_compliance_and_risk;
         ops_validate := ComplianceRiskAnalysis_model_validate;
         ops_vars := compliance_vars (cfg_required_phrases cfg)
                       (cfg_forbidden_phrases cfg) |}
  | Outcome =>
      {| ops_stage := Outcome; ops_get := outcome_and_followup;
         ops_set := set_outcome_and_followup;
         ops_validate := OutcomeFollowupAnalysis_model_validate;
         ops_vars := call_vars |}
  end.
End StageOps.

(** ** Notions used in the statements *)

Section Notions.
Context `{PyLib}.

(** The record a file holds, when it validates ([load_call]). *)
Definition record_at (fs : gmap string json) (path : string)
    : option CallAnalysis :=
  fs !! path ≫= CallAnalysis_model_validate.

(** The target facet of a stage is not [None]. *)
Definition facet_set (st : stage) (c : CallAnalysis) : bool :=
  match st with
  | Sentiment => bool_decide (is_Some (sentiment c))
  | IntentTopics => bool_decide (is_Some (intent_and_topics c))
  | Quality => bool_decide (is_Some (call_quality c))
  | Compliance => bool_decide (is_Some (compliance_and_risk c))
  | Outcome => bool_decide (is_Some (outcome_and_followup c))
  end.

(** The file loads and the record in it has the target facet. *)
Definition facet_set_at (st : stage) (fs : gmap string json)
    (path : string) : bool :=
  match record_at fs path with
  | Some c => facet_set st c
  | None => false
  end.

(** The target facet of [c] is what the schema makes of the payload. *)
Definition facet_from (st : stage) (raw : json) (c : CallAnalysis) : Prop :=
  match st with
  | Sentiment =>
      is_Some (sentiment c) ∧
      SentimentAnalysis_model_validate raw = sentiment c
  | IntentTopics =>
      is_Some (intent_and_topics c) ∧
      IntentTopicsAnalysis_model_validate raw = intent_and_topics c
  | Quality =>
      is_Some (call_quality c) ∧
      CallQualityAnalysis_model_validate raw = call_quality c
  | Compliance =>
      is_Some (compliance_and_risk c) ∧
      ComplianceRiskAnalysis_model_validate raw = compliance_and_risk c
  | Outcome =>
      is_Some (outcome_and_followup c) ∧
      OutcomeFollowupAnalysis_model_validate raw = outcome_and_followup c
  end.

(** [c'] agrees with [c] on everything a stage does not own: metadata,
    transcript, custom metrics, the four other facets, and the raw outputs
    under every key but the stage's own. *)
Definition same_outside (st : stage) (c c' : CallAnalysis) : Prop :=
  metadata c' = metadata c ∧
  transcript c' = transcript c ∧
  custom_metrics c' = custom_metrics c ∧
  (st ≠ Sentiment → sentiment c' = sentiment c) ∧
  (st ≠ IntentTopics → intent_and_topics c' = intent_and_topics c) ∧
  (st ≠ Quality → call_quality c' = call_quality c) ∧
  (st ≠ Compliance → compliance_and_risk c' = compliance_and_risk c) ∧
  (st ≠ Outcome → outcome_and_followup c' = outcome_and_followup c) ∧
  (∀ k, k ≠ stage_key st →
        dict_get k (raw_llm_outputs c') = dict_get k (raw_llm_outputs c)).

(** The listed files whose record lacks the target facet, and those whose
    record has it. *)
Definition pending (st : stage) (fs : gmap string json)
    (paths : list string) : list string :=
  List.filter (λ p, negb (facet_set_at st fs p)) paths.

Definition present (st : stage) (fs : gmap string json)
    (paths : list string) : list string :=
  List.filter (facet_set_at st fs) paths.

(** The exception a stage function raises on a reply of the language model,
    if it raises. *)
Definition reply_error (st : stage) (reply : llm_reply) : option exn :=
  match reply with
  | InvokeFails => Some LLMError
  | Reply (ContentBlocks _) => Some ValueError_not_str
  | Reply (ContentStr s) =>
      match json_loads s with
      | None => Some ValueError_bad_json
      | Some data =>
          let valid :=
            match st with
            | Sentiment =>
                bool_decide (is_Some (SentimentAnalysis_model_validate data))
            | IntentTopics =>
                bool_decide
                  (is_Some (IntentTopicsAnalysis_model_validate data))
            | Quality =>
                bool_decide
                  (is_Some (CallQualityAnalysis_model_validate data))
            | Compliance =>
                bool_decide
                  (is_Some (ComplianceRiskAnalysis_model_validate data))
            | Outcome =>
                bool_decide
                  (is_Some (OutcomeFollowupAnalysis_model_validate data))
            end in
          if valid then None else Some ValidationError
      end
  end.

(** The request a stage function sends for a call. *)
Definition request_for (cfg : run_config) (st : stage) (c : CallAnalysis)
    : llm_request :=
  ops_request (ops_of cfg st) (llm_model cfg) c.
End Notions.

Definition is_saved (m : message) : bool :=
  match m with MsgSaved _ => true | _ => false end.

Definition is_skipping (m : message) : bool :=
  match m with MsgSkipping _ => true | _ => false end.

(** How many "saved" lines, how many "skipping" lines an output has. *)
Definition count_saved (out : list message) : nat :=
  length (List.filter is_saved out).

Definition count_skipping (out : list message) : nat :=
  length (List.filter is_skipping out).

(** The keys a facet model reads. *)
Definition facet_fields (st : stage) : list string :=
  match st with
  | Sentiment =>
      ["overall"; "score"; "emotion_tags"; "sentiment_timeline"; "notes"]
  | IntentTopics =>
      ["primary_intent"; "secondary_intents"; "topics"; "key_phrases";
       "intent_confidence"; "notes"]
  | Quality =>
      ["overall_quality_score"; "scores"; "strengths"; "improvements";
       "notes"]
  | Compliance =>
      ["required_phrases_present"; "missing_required_phrases";
       "forbidden_phrases_detected"; "pii_detected"; "risk_level"; "notes"]
  | Outcome =>
      ["resolution_status"; "final_outcome"; "followup_actions";
       "escalation_required"; "escalation_reason"; "notes"]
  end.

(** The keys of the five sub-scores of [CallQualityScores]. *)
Definition score_fields : list string :=
  ["greeting"; "listening_and_empathy"; "clarity_of_explanations";
   "professionalism"; "script_adherence"].

Definition set_overall_quality_score (v : option Z)
    (m : CallQualityAnalysis) : CallQualityAnalysis :=
  {| overall_quality_score := v; scores := scores m;
     strengths := strengths m; improvements := improvements m;
     quality_notes := quality_notes m |}.

Definition set_score (k : string) (v : option Z) (m : CallQualityScores)
    : CallQualityScores :=
  {| greeting := if String.eqb k "greeting" then v else greeting m;
     listening_and_empathy :=
       if String.eqb k "listening_and_empathy" then v
       else listening_and_empathy m;
     clarity_of_explanations :=
       if String.eqb k "clarity_of_explanations" then v
       else clarity_of_explanations m;
     professionalism :=
       if String.eqb k "professionalism" then v else professionalism m;
     script_adherence :=
       if String.eqb k "script_adherence" then v else script_adherence m |}.

(** ** Sample data *)

(** A small instance of the text-level functions and a few records, replies
    and recordings, on which the statements below are evaluated. *)

Module Sample.
(** The double quote character. *)
Definition dq : string := String (ascii_of_nat 34) EmptyString.
Definition q (s : string) : string := dq +:+ s +:+ dq.

(** The binary64 value nearest to 0.1, and the timestamps 1732041234.75 and
    1732041234. *)
Definition float_0_1 : spec_float :=
  S754_finite false 7205759403792794 (-56).
Definition mtime_1 : spec_float :=
  S754_finite false 6928164939 (-2).
Definition mtime_2 : spec_float :=
  S754_finite false 1732041234 0.

(** A reply to the sentiment prompt, as text and as the document it
    denotes. *)
Definition neutral_text : string :=
  "{" +:+ q "overall" +:+ ":" +:+ q "neutral" +:+ "," +:+
  q "score" +:+ ":0.1," +:+
  q "emotion_tags" +:+ ":[" +:+ q "calm" +:+ "]," +:+
  q "sentiment_timeline" +:+ ":[]," +:+
  q "notes" +:+ ":null}".

Definition neutral_payload : json :=
  JObj [("overall", JStr "neutral"); ("score", JFloat float_0_1);
        ("emotion_tags", JArr [JStr "calm"]);
        ("sentiment_timeline", JArr []); ("notes", JNull)].

(** A text that is not JSON. *)
Definition malformed_text : string := "{overall: neutral".

(** [json.loads] on the texts used here. *)
Definition loads (s : string) : option json :=
  if String.eqb s neutral_text then Some neutral_payload
  else if String.eqb s "{}" then Some (JObj [])
  else if String.eqb s "null" then Some JNull
  else None.

Definition plain_int (s : string) : option Z :=
  Z.of_int <$> NilZero.int_of_string s.

(** Dates and times are kept as the ISO text that denotes them. *)
#[export] Instance time : PyTime := {| datetime := string; date := string |}.

#[export] Instance lib : PyLib := {|
  json_loads := loads;
  str_as_int := plain_int;
  str_as_float := λ s, plain_int s ≫= int_as_float;
  datetime_validate := validate_str;
  datetime_isoformat := id;
  datetime_roundtrip := λ d, eq_refl;
  date_validate := validate_str;
  date_isoformat := id;
  date_roundtrip := λ d, eq_refl
|}.

Definition new_call (id text : string) : CallAnalysis :=
  {| metadata :=
       {| call_id := id; client_id := "client_123";
          audio_file := "recordings/" +:+ id +:+ ".wav";
          call_start_time := None; call_end_time := None;
          duration_seconds := None; agent_name := None;
          customer_phone := None; extra_metadata := [] |};
     transcript := text;
     sentiment := None; intent_and_topics := None; call_quality := None;
     compliance_and_risk := None; outcome_and_followup := None;
     custom_metrics := None; raw_llm_outputs := [] |}.

Definition call_a : CallAnalysis :=
  new_call "a" "Hello, I would like to reschedule my appointment.".
Definition call_b : CallAnalysis :=
  new_call "b" "My invoice is wrong.".
Definition call_blank : CallAnalysis := new_call "c" "  ".

Definition neutral_sentiment : SentimentAnalysis :=
  {| overall := SentimentLabel.neutral; score := Some float_0_1;
     emotion_tags := ["calm"]; sentiment_timeline := [];
     sentiment_notes := None |}.

(** [call_a] and [call_b] after the sentiment stage. *)
Definition with_sentiment (c : CallAnalysis) : CallAnalysis :=
  set_raw_llm_output "sentiment" neutral_payload
    (set_sentiment (Some neutral_sentiment) c).

Definition fs_ab : gmap string json :=
  {[ "a.json" := CallAnalysis_model_dump call_a;
     "b.json" := CallAnalysis_model_dump call_b ]}.

Definition fs_abc : gmap string json :=
  <["c.json" := CallAnalysis_model_dump call_blank]> fs_ab.

Definition fs_done : gmap string json :=
  {[ "a.json" := CallAnalysis_model_dump (with_sentiment call_a);
     "b.json" := CallAnalysis_model_dump (with_sentiment call_b) ]}.

Definition world_of (fs : gmap string json) : world :=
  {| files := fs; stdout := []; llm_calls := [] |}.

(** A model that always sends the neutral reply; one whose first reply is
    a list of content blocks; one whose first reply is not JSON. *)
Definition good_llm : llm := λ _ _, Reply (ContentStr neutral_text).
Definition blocks_first_llm : llm :=
  λ n _, match n with
         | O => Reply (ContentBlocks [])
         | _ => Reply (ContentStr neutral_text)
         end.
Definition malformed_first_llm : llm :=
  λ n _, match n with
         | O => Reply (ContentStr malformed_text)
         | _ => Reply (ContentStr neutral_text)
         end.

Definition cfg : run_config :=
  {| llm_model := "gpt-4o";
     cfg_required_phrases := ["your call is being recorded"];
     cfg_forbidden_phrases := [] |}.

(** Two recordings with the same file stem, modified in the same second. *)
Definition recording_1 : RecordingFile :=
  {| path := "recordings/monday/call.wav"; name := "call.wav";
     size_bytes := 1000; modified_time := mtime_1 |}.
Definition recording_2 : RecordingFile :=
  {| path := "recordings/tuesday/call.mp3"; name := "call.mp3";
     size_bytes := 2000; modified_time := mtime_2 |}.

Definition result_1 : TranscriptionResult :=
  {| recording := recording_1; text := "first call"; language := None |}.
Definition result_2 : TranscriptionResult :=
  {| recording := recording_2; text := "second call"; language := None |}.

(** An embedding function that answers every request. *)
Definition embed : embedder := λ docs, Some ((λ _, []) <$> docs).
End Sample.

(** ** Further notions *)

Section MoreNotions.
Context `{PyLib}.

(** Every facet that [c] has is a facet of [c'], with the same value. *)
Definition facets_kept (c c' : CallAnalysis) : Prop :=
  (is_Some (sentiment c) → sentiment c' = sentiment c) ∧
  (is_Some (intent_and_topics c) →
   intent_and_topics c' = intent_and_topics c) ∧
  (is_Some (call_quality c) → call_quality c' = call_quality c) ∧
  (is_Some (compliance_and_risk c) →
   compliance_and_risk c' = compliance_and_risk c) ∧
  (is_Some (outcome_and_followup c) →
   outcome_and_followup c' = outcome_and_followup c).

(** Every file that loads is named after the [call_id] of its record. *)
Definition well_named (fs : gmap string json) : Prop :=
  ∀ p c, record_at fs p = Some c → p = call_id (metadata c) +:+ ".json".
End MoreNotions.

(** ** [transcription.py] *)

(** The transcription service: the text and the detected language of a
    recording under a model name, or an exception (also when the audio file
    cannot be opened). *)
Definition whisper := string → RecordingFile → option (string * option string).

(** [get_openai_client]: [OpenAI()] raises when the variable
    [OPENAI_API_KEY] is not set. *)
Definition get_openai_client (getenv : string → option string)
    : option unit :=
  match getenv "OPENAI_API_KEY" with
  | Some _ => Some tt
  | None => None
  end.

Definition transcribe_recording (api : whisper) (recording : RecordingFile)
    (model : string) : option TranscriptionResult :=
  '(text, language) ← api model recording;
  Some {| recording := recording; text := text; language := language |}.

(** What [transcribe_recordings] prints; the size is printed through
    [pretty_size], which is not rendered here. *)
Inductive transcribe_message :=
  | MsgTranscribing (name : string) (size_bytes : Z)
  | MsgTranscribed (name : string) (length : nat)
  | MsgLanguage (language : string)
  | MsgTranscribeFailed (name : string).

(** The loop of [transcribe_recordings]: [try] the recording, [append] the
    result, or report the exception and go on. *)
Fixpoint transcribe_loop (api : whisper) (model : string)
    (recordings : list RecordingFile) (results : list TranscriptionResult)
    (out : list transcribe_message)
    : list TranscriptionResult * list transcribe_message :=
  match recordings with
  | [] => (results, out)
  | rec :: rest =>
      let out := out ++ [MsgTranscribing (name rec) (size_bytes rec)] in
      match transcribe_recording api rec model with
      | Some result =>
          let out :=
            out ++ [MsgTranscribed (name rec) (String.length (text result))] in
          let out :=
            match language result with
            | Some l => if str_truthy l then out ++ [MsgLanguage l] else out
            | None => out
            end in
          transcribe_loop api model rest (results ++ [result]) out
      | None =>
          transcribe_loop api model rest results
            (out ++ [MsgTranscribeFailed (name rec)])
      end
  end.

(** [None] when no client can be made. *)
Definition transcribe_recordings (getenv : string → option string)
    (api : whisper) (recordings : list RecordingFile) (model : string)
    : option (list TranscriptionResult * list transcribe_message) :=
  _ ← get_openai_client getenv;
  Some (transcribe_loop api model recordings [] []).

(** ** [ingestion.py] *)

(** An entry that [root.rglob("*")] yields, with what [stat] says of it. *)
Record dir_entry := {
  entry_path : string;
  entry_is_file : bool;
  entry_size : Z;
  entry_mtime : spec_float
}.

(** The recordings directory: the entries under a root in the order [rglob]
    yields them, or [None] when the root does not exist. *)
Definition tree := string → option (list dir_entry).

(** [Path.suffix]: the last suffix of the name, with its dot. *)
Definition path_suffix (p : string) : string :=
  let n := path_name p in
  match rsplit "." n with
  | Some (l, r) =>
      if String.eqb l "" || String.eqb r "" then "" else "." +:+ r
  | None => ""
  end.

Definition allowed_exts : list string := [".wav"; ".mp3"].

Definition is_audio (e : dir_entry) : bool :=
  entry_is_file e && str_in (str_lower (path_suffix (entry_path e))) allowed_exts.

Definition recording_of (e : dir_entry) : RecordingFile :=
  {| path := entry_path e; name := path_name (entry_path e);
     size_bytes := entry_size e; modified_time := entry_mtime e |}.

(** *** Comparison of floats *)

Definition float_is_nan (f : spec_float) : bool :=
  match f with S754_nan => true | _ => false end.

(** -1 for minus infinity, 1 for plus infinity, 0 for the numbers. *)
Definition float_rank (f : spec_float) : Z :=
  match f with
  | S754_infinity true => -1
  | S754_infinity false => 1
  | _ => 0
  end.

Definition float_exp (f : spec_float) : Z :=
  match f with S754_finite _ _ e => e | _ => 0 end.

(** The number [f] in units of [2 ^ e], for [e] not above its exponent. *)
Definition float_scaled (e : Z) (f : spec_float) : Z :=
  match f with
  | S754_finite s m e' => cond_Zopp s (Z.pos m * 2 ^ (e' - e))
  | _ => 0
  end.

(** Python [a < b] on floats: false when one is [nan], else the order of
    the values. *)
Definition float_lt (a b : spec_float) : bool :=
  let e := Z.min (float_exp a) (float_exp b) in
  negb (float_is_nan a) && negb (float_is_nan b) &&
  ((float_rank a <? float_rank b) ||
   ((float_rank a =? float_rank b) &&
    (float_scaled e a <? float_scaled e b))).

(** [recordings.sort(key=lambda r: r.modified_time)]: the stable sort, as
    insertion from the right. *)
Fixpoint insert_by_mtime (r : RecordingFile) (l : list RecordingFile)
    : list RecordingFile :=
  match l with
  | [] => [r]
  | y :: l' =>
      if float_lt (modified_time y) (modified_time r)
      then y :: insert_by_mtime r l'
      else r :: l
  end.

Definition sort_by_mtime (l : list RecordingFile) : list RecordingFile :=
  foldr insert_by_mtime [] l.

Definition discover_wav_recordings (fs : tree) (recordings_dir : string)
    : result (list RecordingFile) :=
  match fs recordings_dir with
  | None => Raise FileNotFoundError
  | Some entries =>
      Ok (sort_by_mtime (recording_of <$> List.filter is_audio entries))
  end.

(** ** [run_full_pipeline.py] *)

Module FullPipeline.
(** [config.yaml] as [main] reads it: each option is the value of a key, or
    [None] when the key is absent. *)
Record config := {
  conf_client_id : option string;
  conf_recordings_dir : option string;
  conf_whisper_model : option string;
  conf_llm_model : option string;
  conf_api_key_env : option string;
  conf_required_phrases : option (list string);
  conf_forbidden_phrases : option (list string)
}.

(** What [main] finds around it. *)
Record env := {
  getenv : string → option string;
  recordings : tree;
  whisper_api : whisper;
  utcnow : nat → string
}.

Inductive outcome :=
  | NoApiKey               (* the key is not set: [return] *)
  | NoRecordings           (* nothing to transcribe: [return] *)
  | Done
  | NoClient               (* [OpenAI()] raised *)
  | CallIdFailed           (* [int(modified_time)] raised *)
  | Raised (e : exn).

(** The outcome of [main], the state it leaves and what the transcription
    step printed. *)
Record run := {
  run_outcome : outcome;
  run_world : world;
  run_transcription : list transcribe_message
}.

Section Main.
Context `{PyLib}.

(** The loop of [save_transcription_results], with the files as they are
    when an exception leaves it. *)
Fixpoint save_results (now : nat → string) (n : nat)
    (results : list TranscriptionResult) (client_id : string)
    (fs : gmap string json) : option (list string) * gmap string json :=
  match results with
  | [] => (Some [], fs)
  | r :: rest =>
      match save_transcription_result r client_id (now n) fs with
      | None => (None, fs)
      | Some (p, fs') =>
          let '(ps, fs'') := save_results now (S n) rest client_id fs' in
          (cons p <$> ps, fs'')
      end
  end.

Definition stage_config (c : config) : run_config :=
  {| llm_model := default "gpt-4o" (conf_llm_model c);
     cfg_required_phrases := default [] (conf_required_phrases c);
     cfg_forbidden_phrases := default [] (conf_forbidden_phrases c) |}.

(** Step 4 of [main]: the five stages, in this order. *)
Definition run_analyses (oracle : llm) (c : config) : M unit :=
  run_for_all_calls oracle (stage_config c) Sentiment;;
  run_for_all_calls oracle (stage_config c) IntentTopics;;
  run_for_all_calls oracle (stage_config c) Quality;;
  run_for_all_calls oracle (stage_config c) Compliance;;
  run_for_all_calls oracle (stage_config c) Outcome.

Definition main (c : config) (e : env) (oracle : llm) (w : world) : run :=
  let client_id := default "client_123" (conf_client_id c) in
  let recordings_dir := default "recordings/" (conf_recordings_dir c) in
  let whisper_model := default "whisper-1" (conf_whisper_model c) in
  let openai_env_var := default "OPENAI_API_KEY" (conf_api_key_env c) in
  if getenv e openai_env_var is None
  then {| run_outcome := NoApiKey; run_world := w; run_transcription := [] |}
  else
    match discover_wav_recordings (recordings e) recordings_dir with
    | Raise x =>
        {| run_outcome := Raised x; run_world := w; run_transcription := [] |}
    | Ok found =>
        if bool_decide (found = [])
        then {| run_outcome := NoRecordings; run_world := w;
                run_transcription := [] |}
        else
          match transcribe_recordings (getenv e) (whisper_api e) found
                  whisper_model with
          | None =>
              {| run_outcome := NoClient; run_world := w;
                 run_transcription := [] |}
          | Some (results, out) =>
              match save_results (utcnow e) 0 results client_id (files w)
              with
              | (None, fs) =>
                  {| run_outcome := CallIdFailed;
                     run_world := with_files fs w;
                     run_transcription := out |}
              | (Some _, fs) =>
                  match run_analyses oracle c (with_files fs w) with
                  | (Ok _, w') =>
                      {| run_outcome := Done; run_world := w';
                         run_transcription := out |}
                  | (Raise x, w') =>
                      {| run_outcome := Raised x; run_world := w';
                         run_transcription := out |}
                  end
              end
          end
    end.
End Main.
End FullPipeline.

(** ** [dashboard.py]: loading and statistics *)

Module Dashboard.
Section Stats.
Context `{PyLib}.

(** [load_calls]: the records of the files that load, in listing order, and
    the names of the files that were skipped with a warning. *)
Fixpoint load_loop (fs : gmap string json) (paths : list string)
    (calls : list CallAnalysis) (warnings : list string)
    : list CallAnalysis * list string :=
  match paths with
  | [] => (calls, warnings)
  | p :: rest =>
      match load_call_from_json p fs with
      | Ok call => load_loop fs rest (calls ++ [call]) warnings
      | Raise _ => load_loop fs rest calls (warnings ++ [p])
      end
  end.

Definition load_calls (fs : gmap string json)
    : list CallAnalysis * list string :=
  load_loop fs (call_files fs) [] [].










End Stats.
End Dashboard.

(** ** Notions for ingestion *)

Section IngestionNotions.
Context `{PyLib}.
(** [c] is the record that ingestion makes of one of the results, at some
    reading of the clock. *)
Definition ingested (results : list TranscriptionResult) (client : string)
    (c : CallAnalysis) : Prop :=
  ∃ r created_at,
    r ∈ results ∧
    build_call_analysis_from_transcription r client created_at = Some c.

(** A record without any analysis. *)
Definition minimal (c : CallAnalysis) : Prop :=
  sentiment c = None ∧ intent_and_topics c = None ∧ call_quality c = None ∧
  compliance_and_risk c = None ∧ outcome_and_followup c = None ∧
  custom_metrics c = None ∧ raw_llm_outputs c = [].
End IngestionNotions.

(** The recordings that [transcribe_recordings] reports as started, and as
    failed. *)
Definition attempted (out : list transcribe_message) : list string :=
  omap (λ m, match m with MsgTranscribing n _ => Some n | _ => None end) out.

Definition failed (out : list transcribe_message) : list string :=
  omap (λ m, match m with MsgTranscribeFailed n => Some n | _ => None end)
    out.

(** [a] was not modified after [b]. *)
Definition not_newer (a b : RecordingFile) : Prop :=
  float_lt (modified_time b) (modified_time a) = false.

(** ** Notions for the dashboard statistics *)

Section StatNotions.
Context `{PyLib}.


(** The key under which the statistics count a call: the value of its
    overall sentiment, of its risk level, or "unknown" without the facet. *)
Definition sentiment_label (c : CallAnalysis) : string :=
  match sentiment c with
  | Some s => SentimentLabel.value (overall s)
  | None => "unknown"
  end.

Definition risk_label (c : CallAnalysis) : string :=
  match compliance_and_risk c with
  | Some r => RiskLevel.value (risk_level r)
  | None => "unknown"
  end.





End StatNotions.

(** ** Notions for the schema and the search *)

(** The fields of a facet that are not declared [Optional]: a list, an
    enumeration, a boolean or a nested model. *)
Definition not_nullable (st : stage) : list string :=
  match st with
  | Sentiment => ["overall"; "emotion_tags"; "sentiment_timeline"]
  | IntentTopics => ["secondary_intents"; "topics"; "key_phrases"]
  | Quality => ["scores"; "strengths"; "improvements"]
  | Compliance =>
      ["required_phrases_present"; "missing_required_phrases";
       "forbidden_phrases_detected"; "pii_detected"; "risk_level"]
  | Outcome =>
      ["resolution_status"; "followup_actions"; "escalation_required"]
  end.

Section Defaults.
Context `{PyLib}.

(** The facets whose fields all hold their declared defaults. *)
Definition IntentTopicsAnalysis_default : IntentTopicsAnalysis :=
  {| primary_intent := None; secondary_intents := []; topics := [];
     key_phrases := []; intent_confidence := None; intent_notes := None |}.

Definition CallQualityAnalysis_default : CallQualityAnalysis :=
  {| overall_quality_score := None; scores := CallQualityScores_default;
     strengths := []; improvements := []; quality_notes := None |}.

Definition ComplianceRiskAnalysis_default : ComplianceRiskAnalysis :=
  {| required_phrases_present := []; missing_required_phrases := [];
     forbidden_phrases_detected := []; pii_detected := [];
     risk_level := RiskLevel.low; compliance_notes := None |}.

Definition OutcomeFollowupAnalysis_default : OutcomeFollowupAnalysis :=
  {| resolution_status := ResolutionStatus.unresolved;
     final_outcome := None; followup_actions := [];
     escalation_required := false; escalation_reason := None;
     outcome_notes := None |}.
End Defaults.

(** The loop of [semantic_search_calls] from index [i], for [n] rounds. *)
Fixpoint matches_from (r : query_result) (i n : nat)
    : result (list search_match) :=
  match n with
  | O => Ok []
  | S n' =>
      match qr_ids r !! i, qr_documents r !! i, qr_metadatas r !! i,
            qr_distances r !! i with
      | Some a, Some b, Some c, Some d =>
          match matches_from r (S i) n' with
          | Ok ms => Ok ({| match_id := a; match_document := b;
                            match_metadata := c; match_distance := d |}
                         :: ms)
          | Raise e => Raise e
          end
      | _, _, _, _ => Raise IndexError
      end
  end.

(** ** [dashboard.py]: the filters of [main] and the previews *)

Module DashboardFilter.
Section Filter.
Context `{PyLib}.

Definition s_label (call : CallAnalysis) : string :=
  match sentiment call with
  | Some s => SentimentLabel.value (overall s)
  | None => "unknown"
  end.

Definition r_label (call : CallAnalysis) : string :=
  match compliance_and_risk call with
  | Some r =>
      if str_truthy (RiskLevel.value (risk_level r))
      then RiskLevel.value (risk_level r) else "unknown"
  | None => "unknown"
  end.

Definition q_score (call : CallAnalysis) : option Z :=
  match call_quality call with
  | Some q => overall_quality_score q
  | None => None
  end.

(** The loop that fills [filtered_calls]; each [continue] drops the call. *)
Fixpoint filter_loop (sentiment_filter risk_filter : list string)
    (min_quality : Z) (calls filtered_calls : list CallAnalysis)
    : list CallAnalysis :=
  match calls with
  | [] => filtered_calls
  | call :: rest =>
      if negb (str_in (s_label call) sentiment_filter)
      then filter_loop sentiment_filter risk_filter min_quality rest
             filtered_calls
      else if negb (str_in (r_label call) risk_filter)
      then filter_loop sentiment_filter risk_filter min_quality rest
             filtered_calls
      else
        match q_score call with
        | Some q =>
            if q <? min_quality
            then filter_loop sentiment_filter risk_filter min_quality rest
                   filtered_calls
            else filter_loop sentiment_filter risk_filter min_quality rest
                   (filtered_calls ++ [call])
        | None =>
            filter_loop sentiment_filter risk_filter min_quality rest
              (filtered_calls ++ [call])
        end
  end.

Definition filter_calls (sentiment_filter risk_filter : list string)
    (min_quality : Z) (calls : list CallAnalysis) : list CallAnalysis :=
  filter_loop sentiment_filter risk_filter min_quality calls [].

(** The options of the two multiselects, all selected by default. *)
Definition sentiment_options : list string :=
  ["positive"; "neutral"; "negative"; "unknown"].
Definition risk_options : list string :=
  ["low"; "medium"; "high"; "critical"; "unknown"].
End Filter.
End DashboardFilter.

(** [s[:n].replace("\n", " ")], followed by ["..."] when [len(s) > n]: the
    transcript preview of a call card and the snippet of a search result. *)
Fixpoint replace_newlines (s : string) : string :=
  match s with
  | EmptyString => EmptyString
  | String c s' =>
      String (if Ascii.eqb c "010" then " "%char else c) (replace_newlines s')
  end.

Definition preview (n : nat) (s : string) : string :=
  let p := replace_newlines (String.substring 0 n s) in
  if (n <? String.length s)%nat then p +:+ "..." else p.

(** ** A sample run of the full pipeline *)

Module PipelineSample.
Definition now : nat → string := λ _, "2024-11-19T18:33:54".

(** A configuration file without any of the keys. *)
Definition config_0 : FullPipeline.config :=
  {| FullPipeline.conf_client_id := None;
     FullPipeline.conf_recordings_dir := None;
     FullPipeline.conf_whisper_model := None;
     FullPipeline.conf_llm_model := None;
     FullPipeline.conf_api_key_env := None;
     FullPipeline.conf_required_phrases := None;
     FullPipeline.conf_forbidden_phrases := None |}.

(** A directory, two recordings (the newer one listed first) and a text
    file. *)
Definition entries : list dir_entry :=
  [ {| entry_path := "recordings/monday"; entry_is_file := false;
       entry_size := 4096; entry_mtime := Sample.mtime_1 |};
    {| entry_path := "recordings/monday/call.WAV"; entry_is_file := true;
       entry_size := 1000; entry_mtime := Sample.mtime_1 |};
    {| entry_path := "recordings/intro.mp3"; entry_is_file := true;
       entry_size := 2000; entry_mtime := Sample.mtime_2 |};
    {| entry_path := "recordings/notes.txt"; entry_is_file := true;
       entry_size := 10; entry_mtime := Sample.mtime_2 |} ].

Definition recordings : tree :=
  λ d, if String.eqb d "recordings/" then Some entries else None.

Definition key_set : string → option string :=
  λ k, if String.eqb k "OPENAI_API_KEY" then Some "sk-test" else None.

(** A service that cannot transcribe [intro.mp3]. *)
Definition whisper_api : whisper :=
  λ _ r, if String.eqb (name r) "intro.mp3" then None
         else Some ("Hello, I would like to reschedule.", Some "en").

Definition env_ok : FullPipeline.env :=
  {| FullPipeline.getenv := key_set;
     FullPipeline.recordings := recordings;
     FullPipeline.whisper_api := whisper_api;
     FullPipeline.utcnow := now |}.

Definition env_no_key : FullPipeline.env :=
  {| FullPipeline.getenv := λ _, None;
     FullPipeline.recordings := recordings;
     FullPipeline.whisper_api := whisper_api;
     FullPipeline.utcnow := now |}.
End PipelineSample.

(** * Properties *)

(** ** Dictionaries *)

Lemma dict_get_set_eq k v d : dict_get k (dict_set k v d) = Some v.
Proof.
  induction d as [|[k' v'] d IH]; simpl.
  - by rewrite String.eqb_refl.
  - destruct (String.eqb k k') eqn:E; simpl; rewrite E; done.
Qed.

Lemma dict_get_set_ne k k' v d :
  k ≠ k' → dict_get k' (dict_set k v d) = dict_get k' d.
Proof.
  intros Hne. induction d as [|[k0 v0] d IH]; simpl.
  - destruct (String.eqb k' k) eqn:E; [|done].
    apply String.eqb_eq in E. congruence.
  - destruct (String.eqb k k0) eqn:E; simpl.
    + apply String.eqb_eq in E. subst k0.
      destruct (String.eqb k' k) eqn:E'; [|done].
      apply String.eqb_eq in E'. congruence.
    + by rewrite IH.
Qed.

(** ** Validation after serialization *)

Lemma validate_optional_dump {A} (v : json → option A) (f : A → json) o :
  (∀ x, v (f x) = Some x) → (∀ x, f x ≠ JNull) →
  validate_optional v (dump_optional f o) = Some o.
Proof.
  intros Hv Hf. destruct o as [x|]; [|done]. simpl.
  specialize (Hv x). specialize (Hf x).
  destruct (f x); try done; simpl; by rewrite Hv.
Qed.

Lemma validate_list_dump {A} (v : json → option A) (f : A → json) l :
  (∀ x, v (f x) = Some x) → validate_list v (dump_list f l) = Some l.
Proof. intros Hv. simpl. by apply mapM_fmap_Some. Qed.

Lemma SentimentLabel_roundtrip x :
  SentimentLabel.validate (SentimentLabel.dump x) = Some x.
Proof. by destruct x. Qed.

Lemma RiskLevel_roundtrip x : RiskLevel.validate (RiskLevel.dump x) = Some x.
Proof. by destruct x. Qed.

Lemma ResolutionStatus_roundtrip x :
  ResolutionStatus.validate (ResolutionStatus.dump x) = Some x.
Proof. by destruct x. Qed.

Lemma validate_str_JStr s : validate_str (JStr s) = Some s.
Proof. done. Qed.

Lemma validate_bool_JBool b : validate_bool (JBool b) = Some b.
Proof. done. Qed.

Lemma PIIRedaction_roundtrip p :
  PIIRedaction_model_validate (PIIRedaction_model_dump p) = Some p.
Proof.
  destruct p as [t o m]. unfold PIIRedaction_model_validate. cbn.
  unfold optional_field, defaulted. cbn.
  rewrite !(validate_optional_dump validate_str JStr) by done.
  done.
Qed.

Create Rewrite HintDb roundtrip.

Section RoundTrip.
Context `{PyLib}.

#[local] Arguments validate_list : simpl never.
#[local] Arguments dump_list : simpl never.
#[local] Arguments validate_optional : simpl never.
#[local] Arguments dump_optional : simpl never.
#[local] Arguments SentimentLabel.validate : simpl never.
#[local] Arguments SentimentLabel.dump : simpl never.
#[local] Arguments RiskLevel.validate : simpl never.
#[local] Arguments RiskLevel.dump : simpl never.
#[local] Arguments ResolutionStatus.validate : simpl never.
#[local] Arguments ResolutionStatus.dump : simpl never.
#[local] Arguments CallQualityScores_model_validate : simpl never.
#[local] Arguments CallQualityScores_model_dump : simpl never.
#[local] Arguments CallMetadata_model_validate : simpl never.
#[local] Arguments CallMetadata_model_dump : simpl never.

Lemma opt_str_roundtrip o :
  validate_optional validate_str (dump_optional JStr o) = Some o.
Proof. by apply validate_optional_dump. Qed.

Lemma opt_bool_roundtrip o :
  validate_optional validate_bool (dump_optional JBool o) = Some o.
Proof. by apply validate_optional_dump. Qed.

Lemma opt_int_roundtrip o :
  validate_optional validate_int (dump_optional JInt o) = Some o.
Proof. by apply validate_optional_dump. Qed.

Lemma opt_float_roundtrip o :
  validate_optional validate_float (dump_optional JFloat o) = Some o.
Proof. by apply validate_optional_dump. Qed.

Lemma opt_date_roundtrip o :
  validate_optional date_validate (dump_optional dump_date o) = Some o.
Proof. apply validate_optional_dump; [apply date_roundtrip | done]. Qed.

Lemma opt_datetime_roundtrip o :
  validate_optional datetime_validate (dump_optional dump_datetime o)
  = Some o.
Proof. apply validate_optional_dump; [apply datetime_roundtrip | done]. Qed.

Lemma list_str_roundtrip l :
  validate_list validate_str (dump_list JStr l) = Some l.
Proof. by apply validate_list_dump. Qed.

Hint Rewrite opt_str_roundtrip opt_bool_roundtrip opt_int_roundtrip
  opt_float_roundtrip opt_date_roundtrip opt_datetime_roundtrip
  list_str_roundtrip SentimentLabel_roundtrip RiskLevel_roundtrip
  ResolutionStatus_roundtrip : roundtrip.

Ltac fields :=
  unfold optional_field, defaulted, required;
  repeat (progress (cbn; autorewrite with roundtrip)); try done.

Lemma CustomMetrics_roundtrip m :
  CustomMetrics_model_validate (CustomMetrics_model_dump m) = Some m.
Proof. destruct m. unfold CustomMetrics_model_validate. fields. Qed.

Lemma list_pii_roundtrip l :
  validate_list PIIRedaction_model_validate
    (dump_list PIIRedaction_model_dump l) = Some l.
Proof. apply validate_list_dump, PIIRedaction_roundtrip. Qed.
Hint Rewrite list_pii_roundtrip : roundtrip.

Lemma ComplianceRiskAnalysis_roundtrip m :
  ComplianceRiskAnalysis_model_validate
    (ComplianceRiskAnalysis_model_dump m) = Some m.
Proof.
  destruct m. unfold ComplianceRiskAnalysis_model_validate. fields.
Qed.

Lemma SentimentSegment_roundtrip m :
  SentimentSegment_model_validate (SentimentSegment_model_dump m) = Some m.
Proof. destruct m. unfold SentimentSegment_model_validate. fields. Qed.

Lemma list_segment_roundtrip l :
  validate_list SentimentSegment_model_validate
    (dump_list SentimentSegment_model_dump l) = Some l.
Proof. apply validate_list_dump, SentimentSegment_roundtrip. Qed.
Hint Rewrite list_segment_roundtrip : roundtrip.

Lemma SentimentAnalysis_roundtrip m :
  SentimentAnalysis_model_validate (SentimentAnalysis_model_dump m)
  = Some m.
Proof. destruct m. unfold SentimentAnalysis_model_validate. fields. Qed.

Lemma IntentTopicsAnalysis_roundtrip m :
  IntentTopicsAnalysis_model_validate (IntentTopicsAnalysis_model_dump m)
  = Some m.
Proof. destruct m. unfold IntentTopicsAnalysis_model_validate. fields. Qed.

Lemma CallQualityScores_roundtrip m :
  CallQualityScores_model_validate (CallQualityScores_model_dump m)
  = Some m.
Proof.
  destruct m.
  unfold CallQualityScores_model_validate, CallQualityScores_model_dump.
  fields.
Qed.
Hint Rewrite CallQualityScores_roundtrip : roundtrip.

Lemma CallQualityAnalysis_roundtrip m :
  CallQualityAnalysis_model_validate (CallQualityAnalysis_model_dump m)
  = Some m.
Proof. destruct m. unfold CallQualityAnalysis_model_validate. fields. Qed.

Lemma FollowupAction_roundtrip m :
  FollowupAction_model_validate (FollowupAction_model_dump m) = Some m.
Proof. destruct m. unfold FollowupAction_model_validate. fields. Qed.

Lemma list_followup_roundtrip l :
  validate_list FollowupAction_model_validate
    (dump_list FollowupAction_model_dump l) = Some l.
Proof. apply validate_list_dump, FollowupAction_roundtrip. Qed.
Hint Rewrite list_followup_roundtrip : roundtrip.

Lemma OutcomeFollowupAnalysis_roundtrip m :
  OutcomeFollowupAnalysis_model_validate
    (OutcomeFollowupAnalysis_model_dump m) = Some m.
Proof.
  destruct m. unfold OutcomeFollowupAnalysis_model_validate. fields.
Qed.

Lemma CallMetadata_roundtrip m :
  CallMetadata_model_validate (CallMetadata_model_dump m) = Some m.
Proof.
  destruct m. unfold CallMetadata_model_validate, CallMetadata_model_dump.
  fields.
Qed.

Lemma opt_model_roundtrip {A} (v : json → option A) (f : A → json) o :
  (∀ x, v (f x) = Some x) → (∀ x, ∃ d, f x = JObj d) →
  validate_optional v (dump_optional f o) = Some o.
Proof.
  intros Hv Hf. apply validate_optional_dump; [done|].
  intros x. destruct (Hf x) as [d ->]. done.
Qed.

Lemma CallAnalysis_roundtrip c :
  CallAnalysis_model_validate (CallAnalysis_model_dump c) = Some c.
Proof.
  destruct c. unfold CallAnalysis_model_validate.
  unfold optional_field, defaulted, required. cbn.
  rewrite CallMetadata_roundtrip. cbn.
  rewrite (opt_model_roundtrip SentimentAnalysis_model_validate)
    by (eauto using SentimentAnalysis_roundtrip).
  cbn.
  rewrite (opt_model_roundtrip IntentTopicsAnalysis_model_validate)
    by (eauto using IntentTopicsAnalysis_roundtrip).
  cbn.
  rewrite (opt_model_roundtrip CallQualityAnalysis_model_validate)
    by (eauto using CallQualityAnalysis_roundtrip).
  cbn.
  rewrite (opt_model_roundtrip ComplianceRiskAnalysis_model_validate)
    by (eauto using ComplianceRiskAnalysis_roundtrip).
  cbn.
  rewrite (opt_model_roundtrip OutcomeFollowupAnalysis_model_validate)
    by (eauto using OutcomeFollowupAnalysis_roundtrip).
  cbn.
  rewrite (opt_model_roundtrip CustomMetrics_model_validate)
    by (eauto using CustomMetrics_roundtrip).
  done.
Qed.
End RoundTrip.

(** ** The stage runners *)

Section RunnerTheory.
Context `{PyLib}.
Variable oracle : llm.

Lemma run_for_all_calls_unfold cfg st :
  run_for_all_calls oracle cfg st
  = run_stage oracle (ops_of cfg st) (llm_model cfg).
Proof. by destruct st. Qed.

Lemma analyze_sentiment_for_call_unfold cfg call :
  analyze_sentiment_for_call oracle call (llm_model cfg)
  = analyze_for_call oracle (ops_of cfg Sentiment) call (llm_model cfg).
Proof. done. Qed.

Lemma analyze_compliance_for_call_unfold cfg call :
  analyze_compliance_for_call oracle call (Some (cfg_required_phrases cfg))
    (Some (cfg_forbidden_phrases cfg)) (llm_model cfg)
  = analyze_for_call oracle (ops_of cfg Compliance) call (llm_model cfg).
Proof. done. Qed.

(** One iteration of the loop, in closed form. *)
Lemma process_call_eq ops model path w :
  process_call oracle ops model path w =
  match record_at (files w) path with
  | None =>
      (Raise (if files w !! path is Some _ then ValidationError
              else FileNotFoundError),
       with_output [MsgProcessing path] w)
  | Some c =>
      match ops_get ops c with
      | Some _ =>
          (Ok tt,
           with_output [MsgProcessing path; MsgSkipping (ops_stage ops)] w)
      | None =>
          let req := ops_request ops model c in
          match stage_outcome ops c (oracle (length (llm_calls w)) req) with
          | Raise e =>
              (Raise e,
               with_request req (with_output [MsgProcessing path] w))
          | Ok c' =>
              (Ok tt,
               with_files (<[path := CallAnalysis_model_dump c']> (files w))
                 (with_request req
                    (with_output
                       [MsgProcessing path; MsgSaved (ops_stage ops)] w)))
          end
      end
  end.
Proof.
  unfold process_call, record_at, load_call, print, mbind, M_bind, bind.
  cbn. destruct (files w !! path) as [data|] eqn:Hf; cbn; [|done].
  destruct (CallAnalysis_model_validate data) as [c|] eqn:Hc; cbn; [|done].
  destruct (ops_get ops c) eqn:Hg; cbn.
  { unfold with_output. cbn. by rewrite <- app_assoc. }
  unfold analyze_for_call, invoke, mbind, M_bind, bind. cbn.
  unfold ops_request.
  destruct (oracle _ _) as [[s|bl]|]; cbn; try done.
  destruct (json_loads s) as [data'|]; cbn; [|done].
  destruct (ops_validate ops data') as [m|]; cbn; [|done].
  unfold save_call, with_files, with_request, with_output. cbn.
  by rewrite <- app_assoc.
Qed.
End RunnerTheory.

Lemma for_each_app {A} (f : A → M unit) l1 l2 w :
  for_each f (l1 ++ l2) w =
  match for_each f l1 w with
  | (Ok _, w1) => for_each f l2 w1
  | (Raise e, w1) => (Raise e, w1)
  end.
Proof.
  revert w. induction l1 as [|x l1 IH]; intros w; [done|].
  cbn. unfold mbind, M_bind, bind.
  destruct (f x w) as [[[]|e] w1]; [apply IH | done].
Qed.

Lemma for_each_cons {A} (f : A → M unit) x l w :
  for_each f (x :: l) w =
  match f x w with
  | (Ok _, w1) => for_each f l w1
  | (Raise e, w1) => (Raise e, w1)
  end.
Proof. done. Qed.

Section LoopTheory.
Context `{PyLib}.
Variable oracle : llm.
Variable cfg : run_config.
Variable st : stage.

#[local] Abbreviation ops := (ops_of cfg st).
#[local] Abbreviation model := (llm_model cfg).

Lemma ops_stage_of : ops_stage ops = st.
Proof. by destruct st. Qed.

Lemma ops_get_facet_set c :
  facet_set st c = bool_decide (is_Some (ops_get ops c)).
Proof. by destruct st. Qed.

(** Assignment of the facet and of the raw output leaves the rest. *)
Lemma assign_same_outside m data c :
  same_outside st c
    (set_raw_llm_output (stage_key st) data (ops_set ops m c)).
Proof.
  unfold same_outside.
  destruct st; cbn; repeat split; try done;
    intros k Hk; by apply dict_get_set_ne.
Qed.

Lemma assign_get m data k c :
  ops_get ops (set_raw_llm_output k data (ops_set ops m c)) = m.
Proof. by destruct st. Qed.

Lemma assign_raw m data c :
  dict_get (stage_key st)
    (raw_llm_outputs (set_raw_llm_output (stage_key st) data
                        (ops_set ops m c))) = Some data.
Proof. destruct st; cbn; apply dict_get_set_eq. Qed.

Lemma facet_from_validate data m c :
  ops_validate ops data = Some m → ops_get ops c = Some m →
  facet_from st data c.
Proof.
  unfold facet_from. destruct st; cbn; intros -> ->; eauto.
Qed.

(** What a successful stage function has done to the call. *)
Lemma stage_outcome_Ok c reply c' :
  stage_outcome ops c reply = Ok c' →
  ∃ data,
    same_outside st c c' ∧ facet_from st data c' ∧
    dict_get (stage_key st) (raw_llm_outputs c') = Some data ∧
    facet_set st c' = true ∧ reply_error st reply = None.
Proof.
  unfold stage_outcome. rewrite ops_stage_of.
  destruct reply as [[s|bl]|]; try done.
  destruct (json_loads s) as [data|] eqn:Hl; [|done].
  destruct (ops_validate ops data) as [m|] eqn:Hv; [|done].
  intros [= <-]. exists data. split_and!.
  - apply assign_same_outside.
  - eapply facet_from_validate; [done|]. apply assign_get.
  - apply assign_raw.
  - rewrite ops_get_facet_set, assign_get. by apply bool_decide_eq_true.
  - cbn. rewrite Hl. clear -Hv. destruct st; cbn in *; rewrite Hv;
      by rewrite bool_decide_eq_true_2.
Qed.

Lemma stage_outcome_Raise c reply e :
  stage_outcome ops c reply = Raise e ↔ reply_error st reply = Some e.
Proof.
  unfold stage_outcome, reply_error.
  destruct reply as [[s|bl]|]; [|naive_solver..].
  destruct (json_loads s) as [data|]; [|naive_solver].
  destruct st; cbn;
    match goal with |- context [bool_decide (is_Some ?x)] =>
      destruct x; cbn end;
    try (rewrite bool_decide_eq_true_2 by eauto);
    try (rewrite bool_decide_eq_false_2 by (by intros [??]));
    naive_solver.
Qed.

(** *** One iteration *)

Lemma process_call_other path w p :
  p ≠ path →
  files (process_call oracle ops model path w).2 !! p = files w !! p.
Proof.
  intros Hp. rewrite process_call_eq.
  destruct (record_at (files w) path) as [c|]; [|done].
  destruct (ops_get ops c); [done|]. cbn.
  destruct (stage_outcome _ _ _); cbn; [|done].
  by rewrite lookup_insert_ne.
Qed.

Lemma process_call_same path w :
  let w' := (process_call oracle ops model path w).2 in
  files w' = files w ∨
  ((process_call oracle ops model path w).1 = Ok tt ∧
   processed oracle ops model (files w) (files w') path).
Proof.
  cbn. rewrite process_call_eq.
  destruct (record_at (files w) path) as [c|] eqn:Hr; [|by left].
  destruct (ops_get ops c) eqn:Hg; [by left|]. cbn.
  destruct (stage_outcome _ _ _) as [c'|e] eqn:Ho; cbn; [|by left].
  right. split; [done|]. exists c, c', (length (llm_calls w)).
  split_and!; try done. by rewrite lookup_insert_eq.
Qed.

Lemma process_call_dom path w :
  dom (files (process_call oracle ops model path w).2) = dom (files w).
Proof.
  rewrite process_call_eq.
  destruct (record_at (files w) path) as [c|] eqn:Hr; [|done].
  destruct (ops_get ops c) eqn:Hg; [done|]. cbn.
  destruct (stage_outcome _ _ _) as [c'|e] eqn:Ho; cbn; [|done].
  rewrite dom_insert_L.
  apply subseteq_union_1_L, singleton_subseteq_l.
  apply elem_of_dom. unfold record_at in Hr.
  destruct (files w !! path); [eauto | done].
Qed.

(** *** The loop *)

Lemma run_paths_other paths w p :
  p ∉ paths →
  files (run_paths oracle ops model paths w).2 !! p = files w !! p.
Proof.
  revert w. induction paths as [|q paths IH]; intros w Hp; [done|].
  apply not_elem_of_cons in Hp as [Hq Hp].
  unfold run_paths. rewrite for_each_cons.
  pose proof (process_call_other q w p Hq) as Hs.
  destruct (process_call oracle ops model q w) as [[[]|e] w1]; cbn in *.
  - etrans; [apply (IH w1 Hp) | done].
  - done.
Qed.

Lemma run_paths_dom paths w :
  dom (files (run_paths oracle ops model paths w).2) = dom (files w).
Proof.
  revert w. induction paths as [|q paths IH]; intros w; [done|].
  unfold run_paths. rewrite for_each_cons.
  pose proof (process_call_dom q w) as Hs.
  destruct (process_call oracle ops model q w) as [[[]|e] w1]; cbn in *.
  - etrans; [apply (IH w1) | done].
  - done.
Qed.

Lemma record_at_ext (fs fs' : gmap string json) p :
  fs' !! p = fs !! p → record_at fs' p = record_at fs p.
Proof. unfold record_at. by intros ->. Qed.

(** Every file is left as it was or is the file of a processed record. *)
Lemma run_paths_frame paths w p :
  NoDup paths →
  files (run_paths oracle ops model paths w).2 !! p = files w !! p ∨
  processed oracle ops model (files w)
    (files (run_paths oracle ops model paths w).2) p.
Proof.
  revert w. induction paths as [|q paths IH]; intros w Hnd; [by left|].
  apply NoDup_cons in Hnd as [Hq Hnd].
  unfold run_paths. rewrite for_each_cons.
  pose proof (process_call_other q w p) as Hother.
  pose proof (process_call_same q w) as Hsame.
  destruct (process_call oracle ops model q w) as [[[]|e] w1] eqn:Hstep;
    cbn in Hother, Hsame.
  - destruct (decide (p = q)) as [->|Hpq].
    + pose proof (run_paths_other paths w1 q Hq) as Hrest.
      unfold run_paths in Hrest. rewrite Hrest.
      destruct Hsame as [->|[_ Hproc]]; [by left|]. right.
      destruct Hproc as (c & c' & n & Hr & Hg & Ho & Hf).
      exists c, c', n. split_and!; try done. by rewrite Hrest.
    + destruct (IH w1 Hnd) as [Heq|Hproc]; unfold run_paths in *.
      * left. rewrite Heq. by apply Hother.
      * right. destruct Hproc as (c & c' & n & Hr & Hg & Ho & Hf).
        exists c, c', n. split_and!; try done.
        rewrite <- Hr. by rewrite (Hother Hpq).
  - cbn. destruct (decide (p = q)) as [->|Hpq].
    + destruct Hsame as [->|[[=] _]]. by left.
    + left. by apply Hother.
Qed.

Lemma facet_set_at_ext (fs fs' : gmap string json) p :
  fs' !! p = fs !! p → facet_set_at st fs' p = facet_set_at st fs p.
Proof. unfold facet_set_at, record_at. by intros ->. Qed.

Lemma process_call_Ok_set path w :
  (process_call oracle ops model path w).1 = Ok tt →
  facet_set_at st (files (process_call oracle ops model path w).2) path
  = true.
Proof.
  rewrite process_call_eq. unfold facet_set_at.
  destruct (record_at (files w) path) as [c|] eqn:Hr; [|done].
  destruct (ops_get ops c) eqn:Hg; cbn.
  - intros _. rewrite Hr, ops_get_facet_set, Hg.
    by apply bool_decide_eq_true.
  - destruct (stage_outcome _ _ _) as [c'|e] eqn:Ho; cbn; [|done].
    intros _. unfold record_at. rewrite lookup_insert_eq.
    cbn [mbind option_bind]. rewrite CallAnalysis_roundtrip.
    by destruct (stage_outcome_Ok _ _ _ Ho) as (? & ? & ? & ? & ? & ?).
Qed.

(** After a loop that ended normally, every listed record has the facet. *)
Lemma run_paths_Ok_all_set paths w :
  NoDup paths →
  (run_paths oracle ops model paths w).1 = Ok tt →
  ∀ p, p ∈ paths →
    facet_set_at st (files (run_paths oracle ops model paths w).2) p = true.
Proof.
  revert w. induction paths as [|q paths IH]; intros w Hnd Hok p Hp.
  { by apply elem_of_nil in Hp. }
  apply NoDup_cons in Hnd as [Hq Hnd].
  unfold run_paths in *. rewrite for_each_cons in *.
  pose proof (process_call_Ok_set q w) as Hset.
  destruct (process_call oracle ops model q w) as [[[]|e] w1] eqn:Hstep;
    cbn in Hset; [|done].
  apply elem_of_cons in Hp as [->|Hp].
  - rewrite (facet_set_at_ext (files w1)); [by apply Hset|].
    by apply (run_paths_other paths w1 q).
  - by apply IH.
Qed.



Lemma filter_ext_elem {A} (f g : A → bool) (l : list A) :
  (∀ x, x ∈ l → f x = g x) → List.filter f l = List.filter g l.
Proof.
  intros Hfg. apply filter_ext_in. intros x Hx. apply Hfg.
  by apply list_elem_of_In.
Qed.

Lemma pending_ext (fs fs' : gmap string json) paths :
  (∀ p, p ∈ paths → fs' !! p = fs !! p) →
  pending st fs' paths = pending st fs paths.
Proof.
  intros Hfs. apply filter_ext_elem. intros p Hp.
  by rewrite (facet_set_at_ext fs fs') by by apply Hfs.
Qed.

Lemma present_ext (fs fs' : gmap string json) paths :
  (∀ p, p ∈ paths → fs' !! p = fs !! p) →
  present st fs' paths = present st fs paths.
Proof.
  intros Hfs. apply filter_ext_elem. intros p Hp.
  by rewrite (facet_set_at_ext fs fs') by by apply Hfs.
Qed.

(** What a loop that ended normally has printed and requested. *)
Lemma run_paths_Ok_counts paths w :
  NoDup paths →
  (run_paths oracle ops model paths w).1 = Ok tt →
  ∃ out reqs,
    stdout (run_paths oracle ops model paths w).2 = stdout w ++ out ∧
    llm_calls (run_paths oracle ops model paths w).2
      = llm_calls w ++ reqs ∧
    count_saved out = length (pending st (files w) paths) ∧
    count_skipping out = length (present st (files w) paths) ∧
    length reqs = count_saved out.
Proof.
  revert w. induction paths as [|q paths IH]; intros w Hnd Hok.
  { exists [], []. cbn. by rewrite !app_nil_r. }
  apply NoDup_cons in Hnd as [Hq Hnd].
  unfold run_paths in *. rewrite for_each_cons in *.
  pose proof (λ p, process_call_other q w p) as Hother.
  revert Hok Hother. rewrite process_call_eq.
  unfold pending, present, facet_set_at. cbn [List.filter].
  fold (facet_set_at st (files w)).
  destruct (record_at (files w) q) as [c|] eqn:Hr; [|done].
  rewrite ops_get_facet_set.
  destruct (ops_get ops c) as [m|] eqn:Hg.
  - rewrite bool_decide_eq_true_2 by eauto. cbn. intros Hok Hother.
    destruct (IH _ Hnd Hok) as (out & reqs & Ho & Hl & Hs & Hk & Hn).
    exists ([MsgProcessing q; MsgSkipping (ops_stage ops)] ++ out), reqs.
    rewrite Ho, Hl. unfold count_saved, count_skipping in *. cbn.
    split_and!; [by rewrite <- app_assoc | done | done | by rewrite Hk
                | done].
  - rewrite bool_decide_eq_false_2 by (by intros [??]). cbn.
    destruct (stage_outcome _ _ _) as [c'|e] eqn:Hout; [|done]. cbn.
    intros Hok Hother.
    destruct (IH _ Hnd Hok) as (out & reqs & Ho & Hl & Hs & Hk & Hn).
    exists ([MsgProcessing q; MsgSaved (ops_stage ops)] ++ out),
      (ops_request ops model c :: reqs).
    rewrite Ho, Hl.
    assert (∀ p, p ∈ paths →
              <[q:=CallAnalysis_model_dump c']> (files w) !! p
              = files w !! p) as Hsame.
    { intros p Hp. apply lookup_insert_ne. by intros ->. }
    apply pending_ext in Hsame as Hpend.
    apply present_ext in Hsame as Hpres.
    unfold pending, present in Hpend, Hpres.
    unfold count_saved, count_skipping, pending, present in *. cbn in *.
    split_and!.
    + by rewrite <- app_assoc.
    + by rewrite <- app_assoc.
    + by rewrite Hs, Hpend.
    + by rewrite Hk, Hpres.
    + by rewrite Hn.
Qed.

(** The first failing record ends the loop. *)
Lemma run_paths_abort pre k post w w1 c e :
  run_paths oracle ops model pre w = (Ok tt, w1) →
  record_at (files w1) k = Some c →
  facet_set st c = false →
  reply_error st (oracle (length (llm_calls w1)) (request_for cfg st c))
    = Some e →
  run_paths oracle ops model (pre ++ k :: post) w
  = (Raise e,
     with_request (request_for cfg st c)
       (with_output [MsgProcessing k] w1)).
Proof.
  intros Hpre Hr Hf He. unfold run_paths in *.
  rewrite for_each_app, Hpre, for_each_cons, process_call_eq, Hr.
  rewrite ops_get_facet_set in Hf. apply bool_decide_eq_false in Hf.
  destruct (ops_get ops c) as [m|]; [by destruct Hf; eauto|]. cbn.
  apply (stage_outcome_Raise c) in He. unfold request_for in *.
  by rewrite He.
Qed.
End LoopTheory.

(** ** The listing of [data/calls] *)

Lemma call_files_Permutation (fs : gmap string json) :
  call_files fs ≡ₚ elements (dom fs).
Proof. apply merge_sort_Permutation. Qed.

Lemma call_files_NoDup (fs : gmap string json) : NoDup (call_files fs).
Proof.
  rewrite call_files_Permutation. apply NoDup_elements.
Qed.

Lemma elem_of_call_files (fs : gmap string json) p :
  p ∈ call_files fs ↔ is_Some (fs !! p).
Proof.
  rewrite call_files_Permutation, elem_of_elements. apply elem_of_dom.
Qed.

Lemma call_files_dom (fs fs' : gmap string json) :
  dom fs' = dom fs → call_files fs' = call_files fs.
Proof. unfold call_files. by intros ->. Qed.

Section RunStage.
Context `{PyLib}.
Variable oracle : llm.
Variable cfg : run_config.
Variable st : stage.

(** A runner in closed form: nothing to do, or the loop over the listing. *)
Lemma run_for_all_calls_eq w :
  run_for_all_calls oracle cfg st w =
  if bool_decide (call_files (files w) = [])
  then (Ok tt, with_output [MsgNoCallFiles] w)
  else run_paths oracle (ops_of cfg st) (llm_model cfg)
         (call_files (files w))
         (with_output [MsgFound (length (call_files (files w))) st] w).
Proof.
  rewrite run_for_all_calls_unfold. unfold run_stage, list_call_files.
  unfold mbind, M_bind, bind. rewrite ops_stage_of.
  by case_bool_decide.
Qed.
End RunStage.

(** ** Round trip of a call record *)


(** ** Frame of a stage run *)

Section Frame.
Context `{PyLib}.
Variable oracle : llm.
Variable cfg : run_config.
Variable st : stage.

Lemma processed_record (fs fs' : gmap string json) p :
  processed oracle (ops_of cfg st) (llm_model cfg) fs fs' p →
  ∃ c c' raw,
    record_at fs p = Some c ∧ facet_set st c = false ∧
    fs' !! p = Some (CallAnalysis_model_dump c') ∧
    record_at fs' p = Some c' ∧ facet_set st c' = true ∧
    same_outside st c c' ∧ facet_from st raw c' ∧
    dict_get (stage_key st) (raw_llm_outputs c') = Some raw.
Proof.
  intros (c & c' & n & Hr & Hg & Ho & Hf).
  destruct (stage_outcome_Ok cfg st _ _ _ Ho)
    as (raw & Hsame & Hfrom & Hraw & Hset & _).
  exists c, c', raw. split_and!; try done.
  - rewrite ops_get_facet_set with (cfg := cfg), Hg.
    apply bool_decide_eq_false. by intros [??].
  - unfold record_at. rewrite Hf. cbn [mbind option_bind].
    apply CallAnalysis_roundtrip.
Qed.

Lemma run_files_frame w p :
  files (run_for_all_calls oracle cfg st w).2 !! p = files w !! p ∨
  processed oracle (ops_of cfg st) (llm_model cfg) (files w)
    (files (run_for_all_calls oracle cfg st w).2) p.
Proof.
  rewrite run_for_all_calls_eq. case_bool_decide; [by left|].
  apply (run_paths_frame oracle cfg st (call_files (files w))
           (with_output _ w) p), call_files_NoDup.
Qed.
End Frame.


Section FrameWitness.
#[local] Existing Instance Sample.time.
#[local] Existing Instance Sample.lib.

End FrameWitness.

(** ** Skipping and the second run *)



Section SecondRun.
Context `{PyLib}.
Variable cfg : run_config.
Variable st : stage.


(** After a run that ended normally every listed record has the facet,
    and the listing is the same. *)
Lemma run_Ok_all_set oracle w :
  (run_for_all_calls oracle cfg st w).1 = Ok tt →
  call_files (files (run_for_all_calls oracle cfg st w).2)
    = call_files (files w) ∧
  ∀ p, p ∈ call_files (files w) →
    facet_set_at st (files (run_for_all_calls oracle cfg st w).2) p = true.
Proof.
  rewrite run_for_all_calls_eq. case_bool_decide as Hl.
  { intros _. split; [done|]. intros p. rewrite Hl.
    by intros ?%elem_of_nil. }
  intros Hok. split.
  - apply call_files_dom.
    apply (run_paths_dom oracle cfg st _ (with_output _ w)).
  - by apply run_paths_Ok_all_set; [apply call_files_NoDup|].
Qed.

End SecondRun.


Section IdempotentWitness.
#[local] Existing Instance Sample.time.
#[local] Existing Instance Sample.lib.

End IdempotentWitness.

(** ** A failing record *)

(** C1, as amended.  A stage run handles the records in listing order.  When
    the records listed before [k] are handled without failure and the
    language model's reply for record [k] is rejected (the model call
    fails, the content is not a string, the string is not JSON, or the
    document does not validate), the exception leaves the run at record [k]:
    the file of [k] and the files of the records listed after [k] are as
    they were before the run, no request is sent after the one for [k], and
    the failure is not counted anywhere. *)
Theorem first_failure_ends_run `{PyLib} (oracle : llm) (cfg : run_config)
    (st : stage) (w w1 : world) (pre post : list string) (k : string)
    (c : CallAnalysis) (e : exn) :
  call_files (files w) = pre ++ k :: post →
  run_paths oracle (ops_of cfg st) (llm_model cfg) pre
    (with_output [MsgFound (length (call_files (files w))) st] w)
    = (Ok tt, w1) →
  record_at (files w) k = Some c →
  facet_set st c = false →
  reply_error st (oracle (length (llm_calls w1)) (request_for cfg st c))
    = Some e →
  ∃ w',
    run_for_all_calls oracle cfg st w = (Raise e, w') ∧
    files w' = files w1 ∧
    (∀ p, p ∈ k :: post → files w' !! p = files w !! p) ∧
    llm_calls w' = llm_calls w1 ++ [request_for cfg st c] ∧
    stdout w' = stdout w1 ++ [MsgProcessing k].
Proof.
  intros Hl Hpre Hr Hf He.
  pose proof (call_files_NoDup (files w)) as Hnd. rewrite Hl in Hnd.
  apply NoDup_app in Hnd as (_ & Hdisj & _).
  assert (∀ p, p ∈ k :: post → files w1 !! p = files w !! p) as Hsame.
  { intros p Hp.
    pose proof (run_paths_other oracle cfg st pre
                  (with_output
                     [MsgFound (length (call_files (files w))) st] w) p)
      as Ho.
    rewrite Hpre in Ho. apply Ho. intros Hin. by apply (Hdisj p). }
  exists (with_request (request_for cfg st c)
            (with_output [MsgProcessing k] w1)).
  split; [|by split_and!].
  rewrite run_for_all_calls_eq.
  rewrite bool_decide_eq_false_2 by (rewrite Hl; by destruct pre).
  rewrite Hl at 1.
  eapply run_paths_abort; try done.
  unfold record_at in *. rewrite Hsame; [done | apply list_elem_of_here].
Qed.

Section FailureExamples.
#[local] Existing Instance Sample.time.
#[local] Existing Instance Sample.lib.

Lemma first_failure_ends_run_witness :
  ∃ w',
    run_for_all_calls Sample.blocks_first_llm Sample.cfg Sentiment
      (Sample.world_of Sample.fs_ab) = (Raise ValueError_not_str, w') ∧
    files w'
    = files (with_output
               [MsgFound
                  (length (call_files (files (Sample.world_of Sample.fs_ab))))
                  Sentiment] (Sample.world_of Sample.fs_ab)) ∧
    (∀ p, p ∈ "a.json" :: ["b.json"] →
          files w' !! p = files (Sample.world_of Sample.fs_ab) !! p) ∧
    llm_calls w'
    = llm_calls (with_output
                   [MsgFound
                      (length
                         (call_files (files (Sample.world_of Sample.fs_ab))))
                      Sentiment] (Sample.world_of Sample.fs_ab))
      ++ [request_for Sample.cfg Sentiment Sample.call_a] ∧
    stdout w'
    = stdout (with_output
                [MsgFound
                   (length (call_files (files (Sample.world_of Sample.fs_ab))))
                   Sentiment] (Sample.world_of Sample.fs_ab))
      ++ [MsgProcessing "a.json"].
Proof.
  apply (first_failure_ends_run Sample.blocks_first_llm Sample.cfg
           Sentiment (Sample.world_of Sample.fs_ab)
           (with_output
              [MsgFound
                 (length (call_files (files (Sample.world_of Sample.fs_ab))))
                 Sentiment] (Sample.world_of Sample.fs_ab))
           [] ["b.json"] "a.json" Sample.call_a ValueError_not_str).
  - vm_compute. reflexivity.
  - reflexivity.
  - vm_compute. reflexivity.
  - reflexivity.
  - vm_compute. reflexivity.
Defined.

(** C1, counterexample.  Two records without sentiment; the reply for the
    first one is not JSON, the reply for the second one would be accepted.
    The run ends with the exception of the first record and the second
    record is not processed. *)
Lemma failure_isolation_counterexample :
  call_files Sample.fs_ab = ["a.json"; "b.json"] ∧
  reply_error Sentiment
    (Sample.malformed_first_llm 0%nat
       (request_for Sample.cfg Sentiment Sample.call_a))
    = Some ValueError_bad_json ∧
  reply_error Sentiment
    (Sample.malformed_first_llm 1%nat
       (request_for Sample.cfg Sentiment Sample.call_b)) = None ∧
  (run_for_all_calls Sample.malformed_first_llm Sample.cfg Sentiment
     (Sample.world_of Sample.fs_ab)).1 = Raise ValueError_bad_json ∧
  record_at
    (files (run_for_all_calls Sample.malformed_first_llm Sample.cfg
              Sentiment (Sample.world_of Sample.fs_ab)).2) "b.json"
    = Some Sample.call_b ∧
  sentiment Sample.call_b = None.
Proof. split_and!; vm_compute; reflexivity. Qed.
End FailureExamples.

(** ** What a run reports *)

Lemma filter_partition_length {A} (f : A → bool) (l : list A) :
  (length (List.filter (λ x, negb (f x)) l) + length (List.filter f l))%nat
  = length l.
Proof.
  induction l as [|x l IH]; [done|]. cbn. destruct (f x); cbn; lia.
Qed.

(** C3, as amended.  A stage runner returns no value.  A run that ends
    normally has printed one "saved" line for each listed record that lacked
    the target facet and one "skipping" line for each listed record that had
    it, together as many lines as there are listed records, and has sent one
    request per saved record; failures are not counted (a failure ends the
    run with its exception). *)
Theorem run_reports_on_stdout `{PyLib} (oracle : llm) (cfg : run_config)
    (st : stage) (w : world) :
  (run_for_all_calls oracle cfg st w).1 = Ok tt →
  ∃ out reqs,
    stdout (run_for_all_calls oracle cfg st w).2 = stdout w ++ out ∧
    llm_calls (run_for_all_calls oracle cfg st w).2 = llm_calls w ++ reqs ∧
    count_saved out
      = length (pending st (files w) (call_files (files w))) ∧
    count_skipping out
      = length (present st (files w) (call_files (files w))) ∧
    (count_saved out + count_skipping out)%nat
      = length (call_files (files w)) ∧
    length reqs = count_saved out.
Proof.
  rewrite run_for_all_calls_eq. case_bool_decide as Hl.
  { intros _. exists [MsgNoCallFiles], []. rewrite Hl. cbn.
    by rewrite app_nil_r. }
  intros Hok.
  destruct (run_paths_Ok_counts oracle cfg st _ _
              (call_files_NoDup (files w)) Hok)
    as (out & reqs & Ho & Hq & Hs & Hk & Hn).
  exists (MsgFound (length (call_files (files w))) st :: out), reqs.
  rewrite Ho, Hq. cbn [with_output stdout llm_calls files] in *.
  split_and!; try done.
  - by rewrite <- app_assoc.
  - unfold count_saved, count_skipping in *. cbn. rewrite Hs, Hk.
    apply filter_partition_length.
Qed.

Section ReportExamples.
#[local] Existing Instance Sample.time.
#[local] Existing Instance Sample.lib.

Lemma run_reports_on_stdout_witness :
  ∃ out reqs,
    stdout (run_for_all_calls Sample.good_llm Sample.cfg Sentiment
              (Sample.world_of Sample.fs_ab)).2 = [] ++ out ∧
    llm_calls (run_for_all_calls Sample.good_llm Sample.cfg Sentiment
                 (Sample.world_of Sample.fs_ab)).2 = [] ++ reqs ∧
    count_saved out
      = length (pending Sentiment Sample.fs_ab (call_files Sample.fs_ab)) ∧
    count_skipping out
      = length (present Sentiment Sample.fs_ab (call_files Sample.fs_ab)) ∧
    (count_saved out + count_skipping out)%nat
      = length (call_files Sample.fs_ab) ∧
    length reqs = count_saved out.
Proof.
  apply (run_reports_on_stdout Sample.good_llm Sample.cfg Sentiment
           (Sample.world_of Sample.fs_ab)).
  vm_compute. reflexivity.
Defined.

(** C3, counterexample.  A run that saves two records, a run that saves
    none and skips two, and both return the same value, the unit; a run in
    which a record fails returns no value at all. *)
Lemma run_summary_counterexample :
  (run_for_all_calls Sample.good_llm Sample.cfg Sentiment
     (Sample.world_of Sample.fs_ab)).1 = Ok tt ∧
  count_saved (stdout (run_for_all_calls Sample.good_llm Sample.cfg
                         Sentiment (Sample.world_of Sample.fs_ab)).2)
    = 2%nat ∧
  (run_for_all_calls Sample.good_llm Sample.cfg Sentiment
     (Sample.world_of Sample.fs_done)).1 = Ok tt ∧
  count_saved (stdout (run_for_all_calls Sample.good_llm Sample.cfg
                         Sentiment (Sample.world_of Sample.fs_done)).2)
    = 0%nat ∧
  count_skipping (stdout (run_for_all_calls Sample.good_llm Sample.cfg
                            Sentiment (Sample.world_of Sample.fs_done)).2)
    = 2%nat ∧
  (run_for_all_calls Sample.malformed_first_llm Sample.cfg Sentiment
     (Sample.world_of Sample.fs_ab)).1 = Raise ValueError_bad_json.
Proof. vm_compute. by split_and!. Qed.
End ReportExamples.

(** ** Validation of facet payloads *)

Lemma enum_find_None {A} (value : A → string) (members : list A) s :
  (∀ x, s ≠ value x) → find (λ x, String.eqb s (value x)) members = None.
Proof.
  intros Hs. destruct (find _ members) as [x|] eqn:Hx; [|done].
  apply find_some in Hx as [_ Hx]. apply String.eqb_eq in Hx.
  by destruct (Hs x).
Qed.

Lemma SentimentLabel_outside j :
  (∀ x, j ≠ JStr (SentimentLabel.value x)) → SentimentLabel.validate j = None.
Proof.
  intros Hj. destruct j; try done. apply enum_find_None.
  intros x ->. by apply (Hj x).
Qed.

Lemma RiskLevel_outside j :
  (∀ x, j ≠ JStr (RiskLevel.value x)) → RiskLevel.validate j = None.
Proof.
  intros Hj. destruct j; try done. apply enum_find_None.
  intros x ->. by apply (Hj x).
Qed.

Lemma ResolutionStatus_outside j :
  (∀ x, j ≠ JStr (ResolutionStatus.value x)) →
  ResolutionStatus.validate j = None.
Proof.
  intros Hj. destruct j; try done. apply enum_find_None.
  intros x ->. by apply (Hj x).
Qed.

(** Case analysis on the outcome of every field that is still unknown. *)
Ltac field_fails :=
  repeat match goal with
    | |- context [@mbind option _ _ _ _ ?x] =>
        lazymatch x with
        | None => fail
        | Some _ => fail
        | _ =>
            destruct x;
            cbn [mbind option_bind fmap option_fmap option_map]
        end
    end; try done.

Section FacetValidation.
Context `{PyLib}.

#[local] Arguments validate_list : simpl never.
#[local] Arguments validate_optional : simpl never.
#[local] Arguments SentimentLabel.validate : simpl never.
#[local] Arguments RiskLevel.validate : simpl never.
#[local] Arguments ResolutionStatus.validate : simpl never.
#[local] Arguments CallQualityScores_model_validate : simpl never.

Lemma sentiment_overall_required d :
  dict_get "overall" d = None →
  SentimentAnalysis_model_validate (JObj d) = None.
Proof.
  intros Hd. unfold SentimentAnalysis_model_validate, required. cbn.
  by rewrite Hd.
Qed.

Lemma sentiment_overall_enum d j :
  dict_get "overall" d = Some j →
  (∀ x, j ≠ JStr (SentimentLabel.value x)) →
  SentimentAnalysis_model_validate (JObj d) = None.
Proof.
  intros Hd Hj. unfold SentimentAnalysis_model_validate, required. cbn.
  rewrite Hd. cbn. by rewrite SentimentLabel_outside.
Qed.

Lemma compliance_risk_level_enum d j :
  dict_get "risk_level" d = Some j →
  (∀ x, j ≠ JStr (RiskLevel.value x)) →
  ComplianceRiskAnalysis_model_validate (JObj d) = None.
Proof.
  intros Hd Hj. unfold ComplianceRiskAnalysis_model_validate. cbn.
  assert (defaulted RiskLevel.validate RiskLevel.low d "risk_level" = None)
    as ->.
  { unfold defaulted. by rewrite Hd, RiskLevel_outside. }
  field_fails.
Qed.

Lemma outcome_resolution_status_enum d j :
  dict_get "resolution_status" d = Some j →
  (∀ x, j ≠ JStr (ResolutionStatus.value x)) →
  OutcomeFollowupAnalysis_model_validate (JObj d) = None.
Proof.
  intros Hd Hj. unfold OutcomeFollowupAnalysis_model_validate. cbn.
  assert (defaulted ResolutionStatus.validate ResolutionStatus.unresolved d
            "resolution_status" = None) as ->.
  { unfold defaulted. by rewrite Hd, ResolutionStatus_outside. }
  done.
Qed.

Lemma compliance_risk_level_default d :
  dict_get "risk_level" d = None →
  ComplianceRiskAnalysis_model_validate (JObj d)
  = ComplianceRiskAnalysis_model_validate
      (JObj (dict_set "risk_level" (JStr "low") d)).
Proof.
  intros Hd. unfold ComplianceRiskAnalysis_model_validate,
    optional_field, defaulted. cbn.
  rewrite dict_get_set_eq, !dict_get_set_ne, Hd by done. done.
Qed.

Lemma outcome_resolution_status_default d :
  dict_get "resolution_status" d = None →
  OutcomeFollowupAnalysis_model_validate (JObj d)
  = OutcomeFollowupAnalysis_model_validate
      (JObj (dict_set "resolution_status" (JStr "unresolved") d)).
Proof.
  intros Hd. unfold OutcomeFollowupAnalysis_model_validate,
    optional_field, defaulted. cbn.
  rewrite dict_get_set_eq, !dict_get_set_ne, Hd by done. done.
Qed.

(** A facet model reads its own keys only. *)
Lemma facet_validate_fields cfg st d d' :
  (∀ k, k ∈ facet_fields st → dict_get k d' = dict_get k d) →
  ops_validate (ops_of cfg st) (JObj d')
  = ops_validate (ops_of cfg st) (JObj d).
Proof.
  intros Hk.
  destruct st; cbn [ops_validate ops_of];
    unfold SentimentAnalysis_model_validate,
      IntentTopicsAnalysis_model_validate,
      CallQualityAnalysis_model_validate,
      ComplianceRiskAnalysis_model_validate,
      OutcomeFollowupAnalysis_model_validate,
      optional_field, defaulted, required; cbn [as_dict mbind option_bind];
    rewrite !Hk
      by (repeat first [apply list_elem_of_here
                       | apply list_elem_of_further]);
    done.
Qed.
End FacetValidation.

(** C4, as amended.  Validation of a facet payload fails when a field
    declared without a default is absent ([overall] of the sentiment facet)
    and when an enumerated field ([overall], [risk_level],
    [resolution_status]) is present with a value that is not one of its
    member strings; keys that are not fields of the facet are ignored; an
    absent field that is declared with a default takes the default: a
    compliance payload without [risk_level] validates as it does with
    [risk_level = "low"], an outcome payload without [resolution_status] as
    it does with [resolution_status = "unresolved"]. *)
Theorem facet_validation_strictness `{PyLib} (cfg : run_config) :
  (∀ d, dict_get "overall" d = None →
        SentimentAnalysis_model_validate (JObj d) = None) ∧
  (∀ d j, dict_get "overall" d = Some j →
          (∀ x, j ≠ JStr (SentimentLabel.value x)) →
          SentimentAnalysis_model_validate (JObj d) = None) ∧
  (∀ d j, dict_get "risk_level" d = Some j →
          (∀ x, j ≠ JStr (RiskLevel.value x)) →
          ComplianceRiskAnalysis_model_validate (JObj d) = None) ∧
  (∀ d j, dict_get "resolution_status" d = Some j →
          (∀ x, j ≠ JStr (ResolutionStatus.value x)) →
          OutcomeFollowupAnalysis_model_validate (JObj d) = None) ∧
  (∀ st d d',
     (∀ k, k ∈ facet_fields st → dict_get k d' = dict_get k d) →
     ops_validate (ops_of cfg st) (JObj d')
     = ops_validate (ops_of cfg st) (JObj d)) ∧
  (∀ d, dict_get "risk_level" d = None →
        ComplianceRiskAnalysis_model_validate (JObj d)
        = ComplianceRiskAnalysis_model_validate
            (JObj (dict_set "risk_level" (JStr "low") d))) ∧
  (∀ d, dict_get "resolution_status" d = None →
        OutcomeFollowupAnalysis_model_validate (JObj d)
        = OutcomeFollowupAnalysis_model_validate
            (JObj (dict_set "resolution_status" (JStr "unresolved") d))).
Proof.
  split_and!.
  - apply sentiment_overall_required.
  - apply sentiment_overall_enum.
  - apply compliance_risk_level_enum.
  - apply outcome_resolution_status_enum.
  - intros st. apply facet_validate_fields.
  - apply compliance_risk_level_default.
  - apply outcome_resolution_status_default.
Qed.

Section ValidationExamples.
#[local] Existing Instance Sample.time.
#[local] Existing Instance Sample.lib.

Lemma facet_validation_strictness_witness :
  SentimentAnalysis_model_validate (JObj [("score", JNull)]) = None ∧
  ComplianceRiskAnalysis_model_validate
    (JObj [("risk_level", JStr "severe")]) = None ∧
  ComplianceRiskAnalysis_model_validate
    (JObj [("risk_level", JStr "high"); ("model", JStr "gpt-4o")])
  = ComplianceRiskAnalysis_model_validate
      (JObj [("risk_level", JStr "high")]) ∧
  OutcomeFollowupAnalysis_model_validate (JObj [("notes", JNull)])
  = OutcomeFollowupAnalysis_model_validate
      (JObj [("notes", JNull); ("resolution_status", JStr "unresolved")]).
Proof.
  destruct (facet_validation_strictness Sample.cfg)
    as (Hreq & _ & Hrisk & _ & Hextra & _ & Hdef).
  split_and!.
  - apply Hreq. reflexivity.
  - apply (Hrisk _ (JStr "severe")); [reflexivity|].
    intros x. destruct x; discriminate.
  - apply (Hextra Compliance). intros k Hk.
    repeat (apply elem_of_cons in Hk as [->|Hk]; [reflexivity|]).
    by apply elem_of_nil in Hk.
  - apply (Hdef [("notes", JNull)]). reflexivity.
Defined.

(** C4, counterexample.  A compliance payload without [risk_level] and an
    outcome payload without [resolution_status] validate; the missing field
    takes its default. *)
Lemma strict_validation_counterexample :
  dict_get "risk_level" [("notes", JStr "no issue")] = None ∧
  ComplianceRiskAnalysis_model_validate (JObj [("notes", JStr "no issue")])
  = Some {| required_phrases_present := [];
            missing_required_phrases := [];
            forbidden_phrases_detected := []; pii_detected := [];
            risk_level := RiskLevel.low;
            compliance_notes := Some "no issue" |} ∧
  dict_get "resolution_status" [("final_outcome", JStr "booked")] = None ∧
  OutcomeFollowupAnalysis_model_validate
    (JObj [("final_outcome", JStr "booked")])
  = Some {| resolution_status := ResolutionStatus.unresolved;
            final_outcome := Some "booked"; followup_actions := [];
            escalation_required := false; escalation_reason := None;
            outcome_notes := None |}.
Proof. by split_and!. Qed.
End ValidationExamples.

(** ** Quality scores *)

Section QualityScores.
Context `{PyLib}.

#[local] Arguments validate_list : simpl never.
#[local] Arguments CallQualityScores_model_validate : simpl never.

Lemma quality_overall_any_integer d z :
  CallQualityAnalysis_model_validate
    (JObj (dict_set "overall_quality_score" (JInt z) d))
  = set_overall_quality_score (Some z) <$>
      CallQualityAnalysis_model_validate
        (JObj (dict_set "overall_quality_score" JNull d)).
Proof.
  unfold CallQualityAnalysis_model_validate, optional_field, defaulted.
  cbn [as_dict mbind option_bind].
  rewrite !dict_get_set_eq, !dict_get_set_ne by done.
  cbn [validate_optional validate_int fmap option_fmap option_map mbind
       option_bind].
  field_fails.
Qed.

Lemma quality_overall_not_a_number d l :
  dict_get "overall_quality_score" d = Some (JArr l) →
  CallQualityAnalysis_model_validate (JObj d) = None.
Proof.
  intros Hd. unfold CallQualityAnalysis_model_validate.
  cbn [as_dict mbind option_bind].
  assert (optional_field validate_int d "overall_quality_score" = None)
    as ->.
  { unfold optional_field, defaulted. by rewrite Hd. }
  done.
Qed.

Lemma quality_score_any_integer k d z :
  k ∈ score_fields →
  CallQualityScores_model_validate (JObj (dict_set k (JInt z) d))
  = set_score k (Some z) <$>
      CallQualityScores_model_validate (JObj (dict_set k JNull d)).
Proof.
  intros Hk. unfold score_fields in Hk.
  repeat (apply elem_of_cons in Hk as [->|Hk];
    [unfold CallQualityScores_model_validate, optional_field, defaulted;
     cbn [as_dict mbind option_bind];
     rewrite !dict_get_set_eq, !dict_get_set_ne by done;
     cbn [validate_optional validate_int fmap option_fmap option_map mbind
          option_bind];
     field_fails|]).
  by apply elem_of_nil in Hk.
Qed.
Lemma quality_overall_absent d :
  dict_get "overall_quality_score" d = None →
  CallQualityAnalysis_model_validate (JObj d)
  = CallQualityAnalysis_model_validate
      (JObj (dict_set "overall_quality_score" JNull d)).
Proof.
  intros Hd. unfold CallQualityAnalysis_model_validate, optional_field,
    defaulted. cbn [as_dict mbind option_bind].
  rewrite !dict_get_set_eq, !dict_get_set_ne, Hd by done. done.
Qed.
End QualityScores.

(** C5, as amended.  Validation of a call-quality payload accepts every
    integer, of any sign and size, as [overall_quality_score] and as each of
    the five sub-scores: whether the payload validates does not depend on
    the integer, and the validated facet carries it unchanged.  An absent
    score is read as [null].  No range is checked; a score that is a JSON
    array is rejected. *)
Theorem quality_scores_any_integer `{PyLib} :
  (∀ d z,
     CallQualityAnalysis_model_validate
       (JObj (dict_set "overall_quality_score" (JInt z) d))
     = set_overall_quality_score (Some z) <$>
         CallQualityAnalysis_model_validate
           (JObj (dict_set "overall_quality_score" JNull d))) ∧
  (∀ k d z, k ∈ score_fields →
     CallQualityScores_model_validate (JObj (dict_set k (JInt z) d))
     = set_score k (Some z) <$>
         CallQualityScores_model_validate (JObj (dict_set k JNull d))) ∧
  (∀ d, dict_get "overall_quality_score" d = None →
     CallQualityAnalysis_model_validate (JObj d)
     = CallQualityAnalysis_model_validate
         (JObj (dict_set "overall_quality_score" JNull d))) ∧
  (∀ d l, dict_get "overall_quality_score" d = Some (JArr l) →
     CallQualityAnalysis_model_validate (JObj d) = None).
Proof.
  split_and!.
  - apply quality_overall_any_integer.
  - intros k d z. apply quality_score_any_integer.
  - apply quality_overall_absent.
  - apply quality_overall_not_a_number.
Qed.

Section QualityExamples.
#[local] Existing Instance Sample.time.
#[local] Existing Instance Sample.lib.

Lemma quality_scores_any_integer_witness :
  CallQualityScores_model_validate
    (JObj (dict_set "professionalism" (JInt 1000) []))
  = set_score "professionalism" (Some 1000) <$>
      CallQualityScores_model_validate
        (JObj (dict_set "professionalism" JNull [])) ∧
  CallQualityAnalysis_model_validate (JObj [("strengths", JArr [])])
  = CallQualityAnalysis_model_validate
      (JObj (dict_set "overall_quality_score" JNull
               [("strengths", JArr [])])) ∧
  CallQualityAnalysis_model_validate
    (JObj [("overall_quality_score", JArr [JInt 50])]) = None.
Proof.
  destruct quality_scores_any_integer as (_ & Hsub & Habs & Harr).
  split_and!.
  - apply Hsub. unfold score_fields.
    repeat first [apply list_elem_of_here | apply list_elem_of_further].
  - apply Habs. reflexivity.
  - apply (Harr _ [JInt 50]). reflexivity.
Defined.

(** C5, counterexample.  A payload with an overall score of 150 and a
    greeting score of -5 validates, and the facet keeps both values. *)
Lemma quality_range_counterexample :
  CallQualityAnalysis_model_validate
    (JObj [("overall_quality_score", JInt 150);
           ("scores", JObj [("greeting", JInt (-5))])])
  = Some {| overall_quality_score := Some 150;
            scores := {| greeting := Some (-5);
                         listening_and_empathy := None;
                         clarity_of_explanations := None;
                         professionalism := None;
                         script_adherence := None |};
            strengths := []; improvements := [];
            quality_notes := None |}.
Proof. reflexivity. Qed.
End QualityExamples.

(** ** Call identifiers *)

Lemma list_ascii_of_append a b :
  list_ascii_of_string (a +:+ b)
  = list_ascii_of_string a ++ list_ascii_of_string b.
Proof. induction a as [|c a IH]; [done|]. simpl. by rewrite IH. Qed.

Lemma append_inv_tail a b s : a +:+ s = b +:+ s → a = b.
Proof.
  intros Heq. apply (f_equal list_ascii_of_string) in Heq.
  rewrite !list_ascii_of_append in Heq. apply app_inv_tail in Heq.
  apply (f_equal string_of_list_ascii) in Heq.
  by rewrite !string_of_list_ascii_of_string in Heq.
Qed.

Lemma rsplit_append c l r :
  rsplit c r = None → rsplit c (l +:+ String c r) = Some (l, r).
Proof.
  intros Hr. induction l as [|a l IH]; simpl.
  - by rewrite Hr, Ascii.eqb_refl.
  - by rewrite IH.
Qed.

Lemma no_underscore_uint d : rsplit "_" (NilEmpty.string_of_uint d) = None.
Proof. induction d; cbn; by rewrite ?IHd. Qed.

Lemma no_underscore_int z : rsplit "_" (Z_to_str z) = None.
Proof.
  unfold Z_to_str, NilZero.string_of_int, NilZero.string_of_uint.
  destruct (Z.to_int z) as [d|d]; destruct d; cbn;
    by rewrite ?no_underscore_uint.
Qed.

Lemma Z_to_int_not_nil z : Z.to_int z ≠ Decimal.Pos Decimal.Nil
                           ∧ Z.to_int z ≠ Decimal.Neg Decimal.Nil.
Proof.
  split; intros Hz; pose proof (f_equal Z.of_int Hz) as Hz';
    rewrite DecimalZ.of_to in Hz'; cbn in Hz'; subst z; discriminate Hz.
Qed.

Lemma Z_to_str_inj z1 z2 : Z_to_str z1 = Z_to_str z2 → z1 = z2.
Proof.
  unfold Z_to_str. intros Hs. apply DecimalZ.to_int_inj.
  apply (f_equal NilZero.int_of_string) in Hs.
  rewrite !NilZero.isi in Hs by apply Z_to_int_not_nil. congruence.
Qed.

Lemma call_id_parts stem1 stem2 z1 z2 :
  stem1 +:+ "_" +:+ Z_to_str z1 = stem2 +:+ "_" +:+ Z_to_str z2 →
  stem1 = stem2 ∧ z1 = z2.
Proof.
  intros Heq.
  change (stem1 +:+ String "_" (Z_to_str z1)
          = stem2 +:+ String "_" (Z_to_str z2)) in Heq.
  apply (f_equal (rsplit "_")) in Heq.
  rewrite !rsplit_append in Heq by apply no_underscore_int.
  injection Heq as -> Hz. split; [done | by apply Z_to_str_inj].
Qed.

(** C7, as amended.  The identifier of a recording is made of the stem of
    its file name and of the whole seconds of its modification time: two
    recordings receive the same [call_id] exactly when they agree on both.
    [save_call_analysis] writes the record to the file named after its
    [call_id]: records with distinct identifiers are kept side by side,
    while a record whose identifier is already taken replaces the record
    stored under it. *)
Theorem call_id_collisions `{PyLib} (r1 r2 : RecordingFile)
    (id1 id2 : string) (c1 c2 : CallAnalysis) (fs : gmap string json) :
  generate_call_id r1 = Some id1 →
  generate_call_id r2 = Some id2 →
  (id1 = id2 ↔
   path_stem (path r1) = path_stem (path r2) ∧
   float_trunc (modified_time r1) = float_trunc (modified_time r2)) ∧
  (call_id (metadata c1) ≠ call_id (metadata c2) →
   load_call_from_json (save_call_analysis c1 fs).1
     (save_call_analysis c2 (save_call_analysis c1 fs).2).2 = Ok c1 ∧
   load_call_from_json (save_call_analysis c2 fs).1
     (save_call_analysis c2 (save_call_analysis c1 fs).2).2 = Ok c2) ∧
  (call_id (metadata c1) = call_id (metadata c2) →
   (save_call_analysis c1 fs).1 = (save_call_analysis c2 fs).1 ∧
   load_call_from_json (save_call_analysis c1 fs).1
     (save_call_analysis c2 (save_call_analysis c1 fs).2).2 = Ok c2).
Proof.
  unfold generate_call_id. intros H1 H2.
  destruct (float_trunc (modified_time r1)) as [t1|] eqn:Ht1; [|done].
  destruct (float_trunc (modified_time r2)) as [t2|] eqn:Ht2; [|done].
  cbn in H1, H2. injection H1 as <-. injection H2 as <-.
  unfold load_call_from_json, save_call_analysis. cbn [fst snd].
  split_and!.
  - split.
    + intros [-> ->]%call_id_parts. done.
    + intros [-> [= ->]]. done.
  - intros Hne. rewrite lookup_insert_eq, CallAnalysis_roundtrip.
    rewrite lookup_insert_ne, lookup_insert_eq, CallAnalysis_roundtrip.
    + done.
    + intros Heq. by apply append_inv_tail in Heq.
  - intros ->. by rewrite lookup_insert_eq, CallAnalysis_roundtrip.
Qed.

Section CallIdExamples.
#[local] Existing Instance Sample.time.
#[local] Existing Instance Sample.lib.

Lemma call_id_collisions_witness :
  ("call_1732041234" = "call_1732041234" ↔
   path_stem (path Sample.recording_1) = path_stem (path Sample.recording_2)
   ∧ float_trunc (modified_time Sample.recording_1)
     = float_trunc (modified_time Sample.recording_2)) ∧
  load_call_from_json (save_call_analysis Sample.call_a ∅).1
    (save_call_analysis Sample.call_b
       (save_call_analysis Sample.call_a ∅).2).2 = Ok Sample.call_a.
Proof.
  destruct (call_id_collisions Sample.recording_1 Sample.recording_2
              "call_1732041234" "call_1732041234"
              Sample.call_a Sample.call_b ∅) as (Hid & Hne & _);
    [reflexivity | reflexivity |].
  split; [exact Hid|]. apply Hne. discriminate.
Defined.

(** C7, counterexample.  Two distinct recordings, [monday/call.wav] and
    [tuesday/call.mp3], modified within the same second, receive the same
    [call_id]; after both transcripts are saved there is one file, and it
    holds the second call: the record of the first recording is gone. *)
Lemma call_id_uniqueness_counterexample :
  Sample.recording_1 ≠ Sample.recording_2 ∧
  generate_call_id Sample.recording_1 = Some "call_1732041234" ∧
  generate_call_id Sample.recording_2 = Some "call_1732041234" ∧
  ∃ fs c,
    save_transcription_results (λ _, "2024-11-19T18:33:54") 0
      [Sample.result_1; Sample.result_2] "client_123" ∅
    = Some (["call_1732041234.json"; "call_1732041234.json"], fs) ∧
    size fs = 1%nat ∧
    load_call_from_json "call_1732041234.json" fs = Ok c ∧
    transcript c = "second call".
Proof.
  split_and!; [discriminate | reflexivity | reflexivity |].
  eexists _, _. split_and!; [vm_compute; reflexivity | | |];
    vm_compute; reflexivity.
Qed.
End CallIdExamples.

(** ** Blank texts *)

Lemma rstrip_empty s : String.eqb (rstrip s) "" = is_blank s.
Proof.
  induction s as [|c s IH]; [done|]. cbn. rewrite IH.
  by destruct (is_space c), (is_blank s).
Qed.

Lemma is_blank_lstrip s : is_blank (lstrip s) = is_blank s.
Proof.
  induction s as [|c s IH]; [done|]. cbn.
  destruct (is_space c) eqn:Hc; [done|]. cbn. by rewrite Hc.
Qed.

(** [not s.strip()] holds exactly of the blank texts. *)
Lemma strip_blank s : str_truthy (strip s) = negb (is_blank s).
Proof.
  unfold str_truthy, strip. by rewrite rstrip_empty, is_blank_lstrip.
Qed.

(** ** The index build *)

Section Upsert.
Implicit Types (coll : gmap string index_document).
Implicit Types (es : list (string * (string * (dict * list spec_float)))).




Lemma store_dom coll es :
  dom (foldl store_document coll es) = dom coll ∪ list_to_set es.*1.
Proof.
  revert coll. induction es as [|[i [d [m v]]] es IH]; intros coll; cbn.
  { set_solver. }
  rewrite IH, dom_insert_L. set_solver.
Qed.

End Upsert.

Section IndexBuild.
Context `{PyLib}.

Lemma load_call_from_json_record fs p c :
  record_at fs p = Some c → load_call_from_json p fs = Ok c.
Proof.
  unfold record_at, load_call_from_json.
  destruct (fs !! p); cbn; [|done]. by intros ->.
Qed.

Lemma collect_documents_eq paths fs records ids docs metas :
  mapM (record_at fs) paths = Some records →
  collect_documents paths fs ids docs metas
  = Ok (ids ++ ((λ c, call_id (metadata c)) <$> indexable records),
        docs ++ (transcript <$> indexable records),
        metas ++ (index_metadata <$> indexable records)).
Proof.
  revert records ids docs metas.
  induction paths as [|p paths IH]; intros records ids docs metas Hm.
  { injection Hm as <-. cbn. by rewrite !app_nil_r. }
  cbn in Hm. destruct (record_at fs p) as [c|] eqn:Hc; [|done].
  destruct (mapM (record_at fs) paths) as [rest|] eqn:Hrest; [|done].
  injection Hm as <-. cbn [collect_documents].
  rewrite (load_call_from_json_record _ _ _ Hc), strip_blank, negb_involutive.
  unfold indexable. cbn [List.filter].
  destruct (is_blank (transcript c)); cbn [negb].
  - by apply IH.
  - rewrite (IH rest) by done. cbn. by rewrite <- !app_assoc.
Qed.

Lemma entries_of_docs (docs : list CallAnalysis)
    (vectors : list (list spec_float)) :
  zip ((λ c, call_id (metadata c)) <$> docs)
    (zip (transcript <$> docs) (zip (index_metadata <$> docs) vectors))
  = entry_of <$> zip docs vectors.
Proof.
  revert vectors. induction docs as [|c docs IH]; intros [|v vectors];
    try done.
  cbn. by rewrite <- IH.
Qed.


End IndexBuild.


Section IndexExamples.
#[local] Existing Instance Sample.time.
#[local] Existing Instance Sample.lib.

End IndexExamples.

(** ** Blank queries *)

(** The search operation sends whatever query it is given. *)
Lemma semantic_search_dispatches (idx : index) (query : string) (n : Z) :
  dispatched (semantic_search_calls idx query n) = [(query, n)].
Proof. done. Qed.

(** The dashboard sends no blank query. *)
Lemma dashboard_blank_query_rejected (idx : index) (query : string) (n : Z)
    (run_search : bool) :
  is_blank query = true →
  dispatched (render_semantic_search_section idx query n run_search) = [].
Proof.
  intros Hb. unfold render_semantic_search_section.
  destruct run_search; [|done]. by rewrite strip_blank, Hb.
Qed.

Lemma is_blank_strip s : is_blank s = true → strip s = "".
Proof.
  intros Hb. pose proof (strip_blank s) as Hs. rewrite Hb in Hs.
  unfold str_truthy in Hs. apply negb_false_iff in Hs.
  by apply String.eqb_eq in Hs.
Qed.

(** The command line tool sends no blank query that was typed at its
    prompt. *)
Lemma cli_typed_blank_query_rejected (idx : index) (prog typed : string) :
  is_blank typed = true →
  dispatched (main idx [prog] typed) = [] ∧
  outcome (main idx [prog] typed) = CliNoQuery.
Proof.
  intros Hb. unfold main. rewrite bool_decide_eq_false_2 by (cbn; lia).
  by rewrite is_blank_strip.
Qed.

(** C9, the failing input.  The command line tool joins its arguments
    without stripping them: called with the single argument [" "] it sends
    the blank query [" "] to the index. *)
Theorem cli_argument_blank_query_dispatched (idx : index) (typed : string) :
  is_blank " " = true ∧
  dispatched (main idx ["run_search_cli.py"; " "] typed) = [(" ", 5)].
Proof. done. Qed.

(** ** Order of the listing *)



(** * Further properties *)

(** ** The listing and the set of files *)


(** X2. Whatever a stage run does and however it ends, the files of
    [data/calls] after the run are the files before it: a run creates no
    file and deletes none, so the listing is the same. *)
Theorem stage_run_keeps_file_set `{PyLib} (oracle : llm) (cfg : run_config)
    (st : stage) (w : world) :
  dom (files (run_for_all_calls oracle cfg st w).2) = dom (files w) ∧
  call_files (files (run_for_all_calls oracle cfg st w).2)
  = call_files (files w).
Proof.
  assert (dom (files (run_for_all_calls oracle cfg st w).2) = dom (files w))
    as Hdom.
  { rewrite run_for_all_calls_eq. case_bool_decide; [done|].
    apply (run_paths_dom oracle cfg st _ (with_output _ w)). }
  split; [done | by apply call_files_dom].
Qed.

(** ** Records are kept *)

Lemma same_outside_facets_kept `{PyLib} st (c c' : CallAnalysis) :
  facet_set st c = false → same_outside st c c' → facets_kept c c'.
Proof.
  intros Hf (_ & _ & _ & H1 & H2 & H3 & H4 & H5 & _).
  unfold facets_kept.
  destruct st; cbn in Hf; apply bool_decide_eq_false in Hf;
    split_and!; intros Hs; try done;
    first [apply H1 | apply H2 | apply H3 | apply H4 | apply H5]; done.
Qed.

(** A file that holds a record holds a record after a stage run, with the
    same metadata, transcript and custom metrics, and with every facet it
    had. *)
Lemma run_record_kept `{PyLib} (oracle : llm) (cfg : run_config)
    (st : stage) (w : world) (p : string) (c : CallAnalysis) :
  record_at (files w) p = Some c →
  ∃ c',
    record_at (files (run_for_all_calls oracle cfg st w).2) p = Some c' ∧
    metadata c' = metadata c ∧ transcript c' = transcript c ∧
    custom_metrics c' = custom_metrics c ∧ facets_kept c c'.
Proof.
  intros Hc.
  destruct (run_files_frame oracle cfg st w p) as [Heq|Hproc].
  { exists c. unfold record_at in *. rewrite Heq.
    by split_and!. }
  apply processed_record in Hproc
    as (c0 & c' & raw & Hr & Hf & _ & Hr' & _ & Hsame & _).
  rewrite Hc in Hr. injection Hr as <-.
  exists c'. split; [done|].
  pose proof (same_outside_facets_kept st c c' Hf Hsame) as Hkept.
  destruct Hsame as (Hm & Ht & Hcm & _). by split_and!.
Qed.


Section KeepWitness.
#[local] Existing Instance Sample.time.
#[local] Existing Instance Sample.lib.

End KeepWitness.

(** ** Requests to the language model *)

Section Requests.
Context `{PyLib}.
Variable oracle : llm.
Variable cfg : run_config.
Variable st : stage.

(** The requests of a loop are the requests for a beginning of the list of
    records that lack the facet, in order. *)
Lemma run_paths_requests paths w :
  NoDup paths →
  ∃ ps reqs,
    llm_calls (run_paths oracle (ops_of cfg st) (llm_model cfg) paths w).2
    = llm_calls w ++ reqs ∧
    ps `prefix_of` pending st (files w) paths ∧
    Forall2 (λ p req, p ∈ paths ∧
               ∃ c, record_at (files w) p = Some c ∧
                    req = request_for cfg st c) ps reqs.
Proof.
  revert w. induction paths as [|q paths IH]; intros w Hnd.
  { exists [], []. cbn. rewrite app_nil_r. split_and!; [done | done |].
    constructor. }
  apply NoDup_cons in Hnd as [Hq Hnd].
  unfold run_paths. rewrite for_each_cons, process_call_eq.
  unfold pending. cbn [List.filter]. unfold facet_set_at.
  fold (facet_set_at st (files w)).
  destruct (record_at (files w) q) as [c|] eqn:Hr.
  2:{ exists [], []. cbn. rewrite app_nil_r.
      split_and!; [done | apply prefix_nil | constructor]. }
  rewrite (ops_get_facet_set cfg).
  destruct (ops_get (ops_of cfg st) c) as [m|] eqn:Hg.
  - rewrite bool_decide_eq_true_2 by eauto. cbn [negb].
    destruct (IH (with_output
                    [MsgProcessing q; MsgSkipping (ops_stage (ops_of cfg st))]
                    w) Hnd) as (ps & reqs & Hl & Hp & Hall).
    exists ps, reqs. split_and!; [done | done |].
    eapply Forall2_impl; [exact Hall|]. cbn.
    intros p req [Hin Hc]. split; [by apply list_elem_of_further | done].
  - rewrite bool_decide_eq_false_2 by (by intros [??]). cbn [negb].
    cbn zeta.
    destruct (stage_outcome _ _ _) as [c'|e] eqn:Ho.
    + match goal with |- context [for_each _ paths ?w1] =>
        destruct (IH w1 Hnd) as (ps & reqs & Hl & Hp & Hall) end.
      cbn [files with_files with_request with_output llm_calls] in Hl, Hp,
        Hall.
      exists (q :: ps), (request_for cfg st c :: reqs).
      split_and!.
      * unfold run_paths in Hl. rewrite Hl. cbn. by rewrite <- app_assoc.
      * apply prefix_cons.
        rewrite (pending_ext st (files w)) in Hp; [done|].
        intros p Hp'. apply lookup_insert_ne. by intros ->.
      * constructor.
        { split; [apply list_elem_of_here | eauto]. }
        eapply Forall2_impl; [exact Hall|]. cbn.
        intros p req [Hin (c0 & Hc0 & ->)].
        split; [by apply list_elem_of_further|].
        exists c0. split; [|done]. rewrite <- Hc0. symmetry.
        apply record_at_ext, lookup_insert_ne. by intros ->.
    + exists [q], [request_for cfg st c]. cbn. split_and!; [done | |].
      * by apply prefix_cons, prefix_nil.
      * constructor; [|constructor].
        split; [apply list_elem_of_here | eauto].
Qed.
End Requests.

(** X4. A stage run, however it ends, sends requests to the language model
    only for listed records that lack the target facet, at most one per
    record and in listing order: the requests of the run are the requests
    for a beginning of the list of such records.  No request is sent for a
    record that has the facet. *)
Theorem requests_only_for_pending `{PyLib} (oracle : llm)
    (cfg : run_config) (st : stage) (w : world) :
  ∃ ps reqs,
    llm_calls (run_for_all_calls oracle cfg st w).2 = llm_calls w ++ reqs ∧
    ps `prefix_of` pending st (files w) (call_files (files w)) ∧
    Forall2 (λ p req, ∃ c, record_at (files w) p = Some c ∧
                           facet_set st c = false ∧
                           req = request_for cfg st c) ps reqs.
Proof.
  rewrite run_for_all_calls_eq. case_bool_decide as Hl.
  { exists [], []. cbn. rewrite app_nil_r.
    split_and!; [done | apply prefix_nil | constructor]. }
  destruct (run_paths_requests oracle cfg st (call_files (files w))
              (with_output [MsgFound (length (call_files (files w))) st] w)
              (call_files_NoDup _)) as (ps & reqs & Hc & Hp & Hall).
  exists ps, reqs. split_and!; [done | done |].
  cbn [files with_output] in Hp, Hall.
  assert (Forall (λ p, p ∈ pending st (files w) (call_files (files w))) ps)
    as Hin.
  { apply Forall_forall. intros p Hp'. destruct Hp as [k ->].
    apply elem_of_app. by left. }
  clear Hp Hc. induction Hall as [|p req ps reqs [_ (c & Hc & ->)] Hall IH];
    [constructor|].
  apply Forall_cons in Hin as [Hp Hin].
  constructor; [|by apply IH].
  exists c. split_and!; [done | | done].
  unfold pending in Hp. apply list_elem_of_In, filter_In in Hp as [_ Hp].
  unfold facet_set_at in Hp. rewrite Hc in Hp. by apply negb_true_iff.
Qed.

(** ** The stages in sequence: [run_full_pipeline.main] *)

Section Sequence.
Context `{PyLib}.
Variable oracle : llm.

Lemma facets_kept_facet_set st (c c' : CallAnalysis) :
  facets_kept c c' → facet_set st c = true → facet_set st c' = true.
Proof.
  intros (H1 & H2 & H3 & H4 & H5) Hs.
  destruct st; cbn in *; apply bool_decide_eq_true in Hs;
    apply bool_decide_eq_true;
    [rewrite H1 | rewrite H2 | rewrite H3 | rewrite H4 | rewrite H5]; done.
Qed.

(** A facet that a file's record has before a stage run, it has after. *)
Lemma run_facet_kept cfg st st' w p :
  facet_set_at st' (files w) p = true →
  facet_set_at st' (files (run_for_all_calls oracle cfg st w).2) p = true.
Proof.
  unfold facet_set_at. intros Hs.
  destruct (record_at (files w) p) as [c|] eqn:Hc; [|done].
  destruct (run_record_kept oracle cfg st w p c Hc) as (c' & -> & _ & _ & _ & Hk).
  by apply (facets_kept_facet_set st' c c').
Qed.

Lemma run_dom cfg st w :
  dom (files (run_for_all_calls oracle cfg st w).2) = dom (files w).
Proof.
  rewrite run_for_all_calls_eq. case_bool_decide; [done|].
  apply (run_paths_dom oracle cfg st _ (with_output _ w)).
Qed.

Lemma bind_unfold {A B} (m : M A) (k : A → M B) w :
  (m ≫= k) w = match m w with
               | (Ok a, w') => k a w'
               | (Raise e, w') => (Raise e, w')
               end.
Proof. done. Qed.

(** A run of the five stages keeps the set of files; when it ends normally,
    every listed record has all five facets. *)
Lemma run_analyses_dom c w :
  dom (files (FullPipeline.run_analyses oracle c w).2) = dom (files w).
Proof.
  unfold FullPipeline.run_analyses. rewrite bind_unfold.
  set (cfg := FullPipeline.stage_config c).
  pose proof (run_dom cfg Sentiment w) as H1.
  destruct (run_for_all_calls oracle cfg Sentiment w) as [[[]|e1] w1];
    cbn [snd] in *; [|done].
  pose proof (run_dom cfg IntentTopics w1) as H2.
  rewrite bind_unfold.
  destruct (run_for_all_calls oracle cfg IntentTopics w1) as [[[]|e2] w2];
    cbn [snd] in *; [|congruence].
  pose proof (run_dom cfg Quality w2) as H3.
  rewrite bind_unfold.
  destruct (run_for_all_calls oracle cfg Quality w2) as [[[]|e3] w3];
    cbn [snd] in *; [|congruence].
  pose proof (run_dom cfg Compliance w3) as H4.
  rewrite bind_unfold.
  destruct (run_for_all_calls oracle cfg Compliance w3) as [[[]|e4] w4];
    cbn [snd] in *; [|congruence].
  pose proof (run_dom cfg Outcome w4) as H5.
  congruence.
Qed.


Lemma run_analyses_Ok c w :
  (FullPipeline.run_analyses oracle c w).1 = Ok tt →
  ∀ p st, p ∈ call_files (files w) →
    facet_set_at st (files (FullPipeline.run_analyses oracle c w).2) p = true.
Proof.
  unfold FullPipeline.run_analyses. rewrite bind_unfold.
  set (cfg := FullPipeline.stage_config c).
  pose proof (run_Ok_all_set cfg Sentiment oracle w) as H1.
  pose proof (λ st', run_facet_kept cfg IntentTopics st'
                       (run_for_all_calls oracle cfg Sentiment w).2) as K1.
  destruct (run_for_all_calls oracle cfg Sentiment w) as [[[]|e1] w1];
    [|done]. cbn [fst snd] in H1, K1. destruct (H1 eq_refl) as [L1 S1].
  pose proof (run_Ok_all_set cfg IntentTopics oracle w1) as H2.
  pose proof (λ st', run_facet_kept cfg Quality st'
                       (run_for_all_calls oracle cfg IntentTopics w1).2) as K2.
  rewrite bind_unfold.
  destruct (run_for_all_calls oracle cfg IntentTopics w1) as [[[]|e2] w2];
    [|done]. cbn [fst snd] in H2, K1, K2. destruct (H2 eq_refl) as [L2 S2].
  pose proof (run_Ok_all_set cfg Quality oracle w2) as H3.
  pose proof (λ st', run_facet_kept cfg Compliance st'
                       (run_for_all_calls oracle cfg Quality w2).2) as K3.
  rewrite bind_unfold.
  destruct (run_for_all_calls oracle cfg Quality w2) as [[[]|e3] w3];
    [|done]. cbn [fst snd] in H3, K2, K3. destruct (H3 eq_refl) as [L3 S3].
  pose proof (run_Ok_all_set cfg Compliance oracle w3) as H4.
  pose proof (λ st', run_facet_kept cfg Outcome st'
                       (run_for_all_calls oracle cfg Compliance w3).2) as K4.
  rewrite bind_unfold.
  destruct (run_for_all_calls oracle cfg Compliance w3) as [[[]|e4] w4];
    [|done]. cbn [fst snd] in H4, K3, K4. destruct (H4 eq_refl) as [L4 S4].
  pose proof (run_Ok_all_set cfg Outcome oracle w4) as H5.
  intros Hok. destruct (H5 Hok) as [L5 S5].
  intros p st Hp.
  assert (p ∈ call_files (files w1)) as Hp1 by by rewrite L1.
  assert (p ∈ call_files (files w2)) as Hp2 by by rewrite L2.
  assert (p ∈ call_files (files w3)) as Hp3 by by rewrite L3.
  assert (p ∈ call_files (files w4)) as Hp4 by by rewrite L4.
  destruct st.
  - by apply K4, K3, K2, K1, S1.
  - by apply K4, K3, K2, S2.
  - by apply K4, K3, S3.
  - by apply K4, S4.
  - by apply S5.
Qed.
End Sequence.

(** ** Ingestion: [storage.py] *)

Section Ingestion.
Context `{PyLib}.

Lemma build_call_analysis_minimal (r : TranscriptionResult) client t c :
  build_call_analysis_from_transcription r client t = Some c →
  minimal c ∧ transcript c = text r ∧
  client_id (metadata c) = client ∧
  audio_file (metadata c) = path (recording r) ∧
  generate_call_id (recording r) = Some (call_id (metadata c)).
Proof.
  unfold build_call_analysis_from_transcription, build_call_metadata.
  destruct (generate_call_id (recording r)) as [id|]; [|done].
  cbn. intros [= <-]. cbn. by split_and!.
Qed.

Lemma save_transcription_result_eq (r : TranscriptionResult) client t fs p fs' :
  save_transcription_result r client t fs = Some (p, fs') →
  ∃ c, build_call_analysis_from_transcription r client t = Some c ∧
       p = call_id (metadata c) +:+ ".json" ∧
       fs' = <[p := CallAnalysis_model_dump c]> fs.
Proof.
  unfold save_transcription_result, save_call_analysis.
  destruct (build_call_analysis_from_transcription r client t) as [c|];
    [|done].
  cbn. intros [= <- <-]. by exists c.
Qed.

(** The two renderings of the loop agree. *)
Lemma save_results_eq now n results client fs :
  save_transcription_results now n results client fs
  = match FullPipeline.save_results now n results client fs with
    | (Some ps, fs') => Some (ps, fs')
    | (None, _) => None
    end.
Proof.
  revert n fs. induction results as [|r results IH]; intros n fs; [done|].
  cbn [save_transcription_results FullPipeline.save_results].
  destruct (save_transcription_result r client (now n) fs) as [[p fs1]|];
    [|done].
  cbn. rewrite IH.
  by destruct (FullPipeline.save_results now (S n) results client fs1)
    as [[ps|] fs2].
Qed.

(** Each file after the loop, however it ends, is as it was or holds an
    ingested record under its own name; the paths returned are the files
    written. *)
Lemma save_results_frame now n results client fs p :
  (FullPipeline.save_results now n results client fs).2 !! p = fs !! p ∨
  ∃ c, (FullPipeline.save_results now n results client fs).2 !! p
       = Some (CallAnalysis_model_dump c) ∧
       ingested results client c ∧ p = call_id (metadata c) +:+ ".json".
Proof.
  revert n fs. induction results as [|r results IH]; intros n fs;
    [by left|].
  cbn [FullPipeline.save_results].
  destruct (save_transcription_result r client (now n) fs) as [[q fs1]|]
    eqn:Hs; [|by left].
  apply save_transcription_result_eq in Hs as (c & Hc & -> & ->).
  specialize (IH (S n) (<[call_id (metadata c) +:+ ".json" :=
                          CallAnalysis_model_dump c]> fs)).
  destruct (FullPipeline.save_results now (S n) results client _)
    as [ps fs2]. cbn [snd] in *.
  destruct IH as [Heq|(c' & Hc' & (r' & t & Hin & Hb) & Hp)].
  - destruct (decide (p = call_id (metadata c) +:+ ".json")) as [->|Hne].
    + right. exists c. rewrite Heq, lookup_insert_eq.
      split_and!; [done | | done].
      exists r, (now n). split; [apply list_elem_of_here | done].
    + left. by rewrite Heq, lookup_insert_ne.
  - right. exists c'. split_and!; [done | | done].
    exists r', t. split; [by apply list_elem_of_further | done].
Qed.

Lemma save_results_paths now n results client fs ps :
  (FullPipeline.save_results now n results client fs).1 = Some ps →
  length ps = length results ∧
  (∀ p, p ∉ ps →
        (FullPipeline.save_results now n results client fs).2 !! p
        = fs !! p) ∧
  (∀ p, p ∈ ps →
        ∃ c, (FullPipeline.save_results now n results client fs).2 !! p
             = Some (CallAnalysis_model_dump c) ∧
             ingested results client c ∧
             p = call_id (metadata c) +:+ ".json").
Proof.
  revert n fs ps. induction results as [|r results IH]; intros n fs ps.
  { cbn. intros [= <-]. split_and!; [done | done |].
    by intros p ?%elem_of_nil. }
  cbn [FullPipeline.save_results].
  destruct (save_transcription_result r client (now n) fs) as [[q fs1]|]
    eqn:Hs; [|done].
  apply save_transcription_result_eq in Hs as (c & Hc & -> & ->).
  pose proof (save_results_frame now (S n) results client
                (<[call_id (metadata c) +:+ ".json" :=
                     CallAnalysis_model_dump c]> fs)) as Hfr.
  specialize (IH (S n) (<[call_id (metadata c) +:+ ".json" :=
                          CallAnalysis_model_dump c]> fs)).
  destruct (FullPipeline.save_results now (S n) results client _)
    as [[qs|] fs2]; [|done]. cbn [fst snd] in *.
  intros [= <-]. destruct (IH qs eq_refl) as (Hlen & Hout & Hin).
  split_and!.
  - cbn. by rewrite Hlen.
  - intros p Hp. apply not_elem_of_cons in Hp as [Hne Hp].
    by rewrite Hout, lookup_insert_ne.
  - intros p Hp.
    destruct (decide (p ∈ qs)) as [Hq|Hq].
    + destruct (Hin p Hq) as (c' & Hc' & (r' & t & Hr' & Hb) & Hn).
      exists c'. split_and!; [done | | done].
      exists r', t. split; [by apply list_elem_of_further | done].
    + apply elem_of_cons in Hp as [->|Hp]; [|done].
      exists c. rewrite Hout, lookup_insert_eq by done.
      split_and!; [done | | done].
      exists r, (now n). split; [apply list_elem_of_here | done].
Qed.

Lemma record_at_dump (fs : gmap string json) p c :
  fs !! p = Some (CallAnalysis_model_dump c) → record_at fs p = Some c.
Proof.
  intros Hp. unfold record_at. rewrite Hp. cbn [mbind option_bind].
  apply CallAnalysis_roundtrip.
Qed.



Lemma save_results_well_named now n results client fs :
  well_named fs →
  well_named (FullPipeline.save_results now n results client fs).2.
Proof.
  intros Hwn p c Hr.
  destruct (save_results_frame now n results client fs p)
    as [Heq|(c' & Hc' & _ & Hp)].
  - apply Hwn. unfold record_at in *. by rewrite <- Heq.
  - rewrite (record_at_dump _ _ _ Hc') in Hr. by injection Hr as <-.
Qed.
End Ingestion.

Section Pipeline.
Context `{PyLib}.
Variable oracle : llm.



Lemma filter_none {A} (f : A → bool) (l : list A) :
  Forall (λ x, f x = false) l → List.filter f l = [].
Proof.
  induction 1 as [|x l Hx _ IH]; [done|]. cbn. by rewrite Hx.
Qed.
End Pipeline.

(** X5. The full pipeline does no work without its inputs: when the
    variable that holds the API key is not set, or when the recordings
    directory holds no audio file, [main] returns leaving every call file as
    it was, transcribing nothing and sending nothing to the language model;
    call files that still lack facets are not analysed in that run. *)
Theorem full_pipeline_stops_without_input `{PyLib}
    (c : FullPipeline.config) (e : FullPipeline.env) (oracle : llm)
    (w : world) :
  FullPipeline.getenv e
    (default "OPENAI_API_KEY" (FullPipeline.conf_api_key_env c)) = None ∨
  (∃ entries,
     FullPipeline.recordings e
       (default "recordings/" (FullPipeline.conf_recordings_dir c))
     = Some entries ∧
     Forall (λ x, is_audio x = false) entries) →
  FullPipeline.run_world (FullPipeline.main c e oracle w) = w ∧
  FullPipeline.run_transcription (FullPipeline.main c e oracle w) = [] ∧
  (FullPipeline.run_outcome (FullPipeline.main c e oracle w)
   = FullPipeline.NoApiKey ∨
   FullPipeline.run_outcome (FullPipeline.main c e oracle w)
   = FullPipeline.NoRecordings).
Proof.
  intros Hin. unfold FullPipeline.main.
  destruct (FullPipeline.getenv e _) as [k|] eqn:Hk.
  2:{ cbn. split_and!; [done | done | by left]. }
  destruct Hin as [Hin|(entries & He & Hall)]; [done|].
  unfold discover_wav_recordings. rewrite He.
  rewrite (filter_none _ _ Hall). cbn.
  split_and!; [done | done | by right].
Qed.

Section PipelineWitness.
#[local] Existing Instance Sample.time.
#[local] Existing Instance Sample.lib.

Lemma full_pipeline_stops_without_input_witness :
  FullPipeline.run_world
    (FullPipeline.main PipelineSample.config_0 PipelineSample.env_no_key
       Sample.good_llm (Sample.world_of Sample.fs_ab))
  = Sample.world_of Sample.fs_ab ∧
  FullPipeline.run_transcription
    (FullPipeline.main PipelineSample.config_0 PipelineSample.env_no_key
       Sample.good_llm (Sample.world_of Sample.fs_ab)) = [] ∧
  (FullPipeline.run_outcome
     (FullPipeline.main PipelineSample.config_0 PipelineSample.env_no_key
        Sample.good_llm (Sample.world_of Sample.fs_ab))
   = FullPipeline.NoApiKey ∨
   FullPipeline.run_outcome
     (FullPipeline.main PipelineSample.config_0 PipelineSample.env_no_key
        Sample.good_llm (Sample.world_of Sample.fs_ab))
   = FullPipeline.NoRecordings).
Proof.
  apply (full_pipeline_stops_without_input PipelineSample.config_0
           PipelineSample.env_no_key Sample.good_llm
           (Sample.world_of Sample.fs_ab)).
  left. reflexivity.
Defined.
End PipelineWitness.

(** X6. When [main] reaches its last line, what it prints there is true:
    every file listed in [data/calls], those of this run's recordings and
    those that were there before, holds a valid record with all five
    facets. *)
Theorem full_pipeline_done_all_facets `{PyLib}
    (c : FullPipeline.config) (e : FullPipeline.env) (oracle : llm)
    (w : world) :
  FullPipeline.run_outcome (FullPipeline.main c e oracle w)
  = FullPipeline.Done →
  ∀ p st,
    p ∈ call_files
          (files (FullPipeline.run_world (FullPipeline.main c e oracle w))) →
    facet_set_at st
      (files (FullPipeline.run_world (FullPipeline.main c e oracle w))) p
    = true.
Proof.
  unfold FullPipeline.main.
  destruct (FullPipeline.getenv e _) as [k|]; [|done].
  destruct (discover_wav_recordings _ _) as [found|x]; [|done].
  case_bool_decide; [done|].
  destruct (transcribe_recordings _ _ _ _) as [[results out]|]; [|done].
  destruct (FullPipeline.save_results _ _ _ _ _) as [[ps|] fs]; [|done].
  pose proof (run_analyses_Ok oracle c (with_files fs w)) as Hok.
  pose proof (run_analyses_dom oracle c (with_files fs w)) as Hdom.
  destruct (FullPipeline.run_analyses oracle c (with_files fs w))
    as [[[]|x] w']; [|done].
  cbn [fst snd FullPipeline.run_world FullPipeline.run_outcome] in *.
  intros _ p st Hp. apply (Hok eq_refl).
  by rewrite <- (call_files_dom _ _ Hdom).
Qed.

Section PipelineDoneWitness.
#[local] Existing Instance Sample.time.
#[local] Existing Instance Sample.lib.

Lemma full_pipeline_done_all_facets_witness :
  facet_set_at Outcome
    (files (FullPipeline.run_world
              (FullPipeline.main PipelineSample.config_0
                 PipelineSample.env_ok Sample.good_llm
                 (Sample.world_of Sample.fs_done))))
    "call_1732041234.json"
  = true.
Proof.
  apply (full_pipeline_done_all_facets PipelineSample.config_0
           PipelineSample.env_ok Sample.good_llm
           (Sample.world_of Sample.fs_done)).
  - vm_compute. reflexivity.
  - apply elem_of_call_files. vm_compute. eauto.
Defined.
End PipelineDoneWitness.


(** ** Transcription *)

Lemma transcribe_loop_eq api model recs results out :
  (transcribe_loop api model recs results out).1
  = results ++ omap (λ r, transcribe_recording api r model) recs ∧
  attempted (transcribe_loop api model recs results out).2
  = attempted out ++ (name <$> recs) ∧
  failed (transcribe_loop api model recs results out).2
  = failed out ++
    (name <$> List.filter
                (λ r, bool_decide (transcribe_recording api r model = None))
                recs).
Proof.
  revert results out. induction recs as [|r recs IH]; intros results out.
  { cbn. by rewrite !app_nil_r. }
  cbn [transcribe_loop omap list_omap List.filter fmap list_fmap].
  destruct (transcribe_recording api r model) as [res|] eqn:Hr.
  - rewrite (bool_decide_eq_false_2 (Some res = None)) by done.
    match goal with |- context [transcribe_loop _ _ _ _ ?o] =>
      destruct (IH (results ++ [res]) o) as (-> & -> & ->);
      assert (attempted o = attempted out ++ [name r]) as ->;
      [|assert (failed o = failed out) as ->]
    end.
    + unfold attempted.
      destruct (language res) as [l|]; [destruct (str_truthy l)|];
        rewrite ?omap_app; cbn; by rewrite ?app_nil_r.
    + unfold failed.
      destruct (language res) as [l|]; [destruct (str_truthy l)|];
        rewrite ?omap_app; cbn; by rewrite ?app_nil_r.
    + by rewrite <- !app_assoc.
  - rewrite (bool_decide_eq_true_2 (None = None)) by done.
    destruct (IH results
                ((out ++ [MsgTranscribing (name r) (size_bytes r)]) ++
                 [MsgTranscribeFailed (name r)])) as (-> & -> & ->).
    unfold attempted, failed. rewrite !omap_app. cbn.
    rewrite !app_nil_r. by rewrite <- !app_assoc.
Qed.

Lemma omap_filter_length {A B} (f : A → option B) (l : list A) :
  (length (omap f l) +
   length (List.filter (λ x, bool_decide (f x = None)) l))%nat = length l.
Proof.
  induction l as [|x l IH]; [done|].
  cbn [omap list_omap List.filter].
  destruct (f x) eqn:Hx.
  - rewrite (bool_decide_eq_false_2 (Some _ = None)) by done.
    cbn [length]. lia.
  - rewrite (bool_decide_eq_true_2 (None = None)) by done.
    cbn [length]. lia.
Qed.

(** X8. [transcribe_recordings] needs a client, and then never raises: it
    tries every recording once, in the order given; a recording whose
    transcription raises is reported and left out, and the others go on.
    The results are the transcriptions that succeeded, in order, so results
    and failures together are as many as the recordings. *)
Theorem transcription_isolates_failures (getenv : string → option string)
    (api : whisper) (recs : list RecordingFile) (model : string) :
  ∃ results out,
    transcribe_recordings getenv api recs model
    = (if getenv "OPENAI_API_KEY" is Some _ then Some (results, out)
       else None) ∧
    results = omap (λ r, transcribe_recording api r model) recs ∧
    attempted out = name <$> recs ∧
    failed out
    = name <$> List.filter
                 (λ r, bool_decide (transcribe_recording api r model = None))
                 recs ∧
    (length results + length (failed out))%nat = length recs.
Proof.
  destruct (transcribe_loop_eq api model recs [] []) as (H1 & H2 & H3).
  exists (transcribe_loop api model recs [] []).1,
         (transcribe_loop api model recs [] []).2.
  split_and!; [| done | done | done |].
  - unfold transcribe_recordings, get_openai_client.
    destruct (getenv "OPENAI_API_KEY"); [|done].
    cbn. by destruct (transcribe_loop api model recs [] []).
  - rewrite H1, H3. cbn [app failed omap list_omap].
    rewrite length_fmap. apply omap_filter_length.
Qed.

(** ** Ingestion *)

Lemma save_transcription_result_None `{PyLib} (r : TranscriptionResult)
    client t fs :
  save_transcription_result r client t fs = None
  ↔ float_trunc (modified_time (recording r)) = None.
Proof.
  unfold save_transcription_result, build_call_analysis_from_transcription,
    build_call_metadata, generate_call_id.
  by destruct (float_trunc (modified_time (recording r))).
Qed.

(** X9. [save_transcription_results] raises exactly when the modification
    time of one of the recordings is not a finite number.  When it returns,
    it returns one path per result; every other file is as it was; and each
    returned path is the file named after the [call_id] of a record made of
    one of the results: its transcript, the client, the audio path, no
    facet, no custom metrics and no raw output, whatever the file held
    before.  A store in which every record is in the file named after its
    [call_id] stays so. *)
Theorem ingestion_writes_minimal_records `{PyLib} (now : nat → string)
    (n : nat) (results : list TranscriptionResult) (client : string)
    (fs : gmap string json) :
  (save_transcription_results now n results client fs = None
   ↔ Exists (λ r, float_trunc (modified_time (recording r)) = None) results) ∧
  ∀ paths fs',
    save_transcription_results now n results client fs = Some (paths, fs') →
    length paths = length results ∧
    (∀ p, p ∉ paths → fs' !! p = fs !! p) ∧
    (∀ p, p ∈ paths →
       ∃ c r, record_at fs' p = Some c ∧ r ∈ results ∧ minimal c ∧
              transcript c = text r ∧ client_id (metadata c) = client ∧
              audio_file (metadata c) = path (recording r) ∧
              generate_call_id (recording r) = Some (call_id (metadata c)) ∧
              p = call_id (metadata c) +:+ ".json") ∧
    (well_named fs → well_named fs').
Proof.
  split.
  - revert n fs. induction results as [|r results IH]; intros n fs.
    { cbn. split; [done | by intros ?%Exists_nil]. }
    cbn [save_transcription_results]. rewrite Exists_cons.
    destruct (save_transcription_result r client (now n) fs) as [[p fs1]|]
      eqn:Hs.
    + assert (float_trunc (modified_time (recording r)) ≠ None) as Hne.
      { intros Hn. apply (save_transcription_result_None r client (now n) fs)
          in Hn. congruence. }
      cbn. specialize (IH (S n) fs1).
      destruct (save_transcription_results now (S n) results client fs1)
        as [[ps fs2]|]; cbn.
      * split; [done|]. intros [?|Hex]; [done|]. by apply IH in Hex.
      * split; [|done]. intros _. right. by apply IH.
    + cbn. split; [|done]. intros _. left.
      by apply (save_transcription_result_None r client (now n) fs).
  - intros paths fs' Hs. rewrite save_results_eq in Hs.
    pose proof (save_results_paths now n results client fs) as Hp.
    pose proof (save_results_well_named now n results client fs) as Hw.
    destruct (FullPipeline.save_results now n results client fs)
      as [[ps|] fs2]; [|done].
    injection Hs as -> ->. cbn [fst snd] in *.
    destruct (Hp paths eq_refl) as (Hlen & Hout & Hin).
    split_and!; [done | done | | done].
    intros p Hpin.
    destruct (Hin p Hpin) as (c & Hc & (r & t & Hr & Hb) & Hn).
    apply build_call_analysis_minimal in Hb as (Hm & Ht & Hcl & Ha & Hid).
    exists c, r. split_and!; try done. by apply record_at_dump.
Qed.

Section IngestionWitness.
#[local] Existing Instance Sample.time.
#[local] Existing Instance Sample.lib.

Lemma ingestion_writes_minimal_records_witness :
  ∃ c r,
    record_at
      (FullPipeline.save_results PipelineSample.now 0
         [Sample.result_1; Sample.result_2] "client_123" Sample.fs_done).2
      "call_1732041234.json" = Some c ∧
    r ∈ [Sample.result_1; Sample.result_2] ∧ minimal c ∧
    transcript c = text r ∧ client_id (metadata c) = "client_123" ∧
    audio_file (metadata c) = path (recording r) ∧
    generate_call_id (recording r) = Some (call_id (metadata c)) ∧
    "call_1732041234.json" = call_id (metadata c) +:+ ".json".
Proof.
  refine (proj1 (proj2 (proj2
    (proj2 (ingestion_writes_minimal_records PipelineSample.now 0
              [Sample.result_1; Sample.result_2] "client_123" Sample.fs_done)
       ["call_1732041234.json"; "call_1732041234.json"]
       (FullPipeline.save_results PipelineSample.now 0
          [Sample.result_1; Sample.result_2] "client_123" Sample.fs_done).2
       _))) "call_1732041234.json" _).
  - vm_compute. reflexivity.
  - apply list_elem_of_here.
Defined.
End IngestionWitness.

(** ** Discovery of the recordings *)

Lemma insert_by_mtime_Permutation r l : insert_by_mtime r l ≡ₚ r :: l.
Proof.
  induction l as [|y l IH]; [done|]. cbn.
  destruct (float_lt _ _); [|done].
  rewrite IH. apply Permutation_swap.
Qed.

Lemma sort_by_mtime_Permutation l : sort_by_mtime l ≡ₚ l.
Proof.
  induction l as [|r l IH]; [done|]. cbn.
  fold (sort_by_mtime l). by rewrite insert_by_mtime_Permutation, IH.
Qed.

Lemma float_lt_asym a b : float_lt a b = true → float_lt b a = false.
Proof.
  unfold float_lt. rewrite (Z.min_comm (float_exp b)).
  set (e := Z.min (float_exp a) (float_exp b)).
  destruct (float_is_nan a), (float_is_nan b); cbn; try done.
  destruct (Z.ltb_spec (float_rank a) (float_rank b)),
    (Z.ltb_spec (float_rank b) (float_rank a)),
    (Z.eqb_spec (float_rank a) (float_rank b)),
    (Z.eqb_spec (float_rank b) (float_rank a)),
    (Z.ltb_spec (float_scaled e a) (float_scaled e b)),
    (Z.ltb_spec (float_scaled e b) (float_scaled e a)); cbn; try done; lia.
Qed.

Lemma insert_by_mtime_Sorted r l :
  Sorted not_newer l → Sorted not_newer (insert_by_mtime r l).
Proof.
  induction 1 as [|y l Hs IH Hhd]; cbn.
  { repeat constructor. }
  destruct (float_lt (modified_time y) (modified_time r)) eqn:Hlt.
  - constructor; [done|].
    destruct Hhd as [|z l Hz]; cbn.
    + constructor. by apply float_lt_asym.
    + destruct (float_lt (modified_time z) (modified_time r));
        constructor; [done | by apply float_lt_asym].
  - constructor; [by constructor | by constructor].
Qed.

Lemma sort_by_mtime_Sorted l : Sorted not_newer (sort_by_mtime l).
Proof.
  induction l as [|r l IH]; [constructor|].
  by apply insert_by_mtime_Sorted.
Qed.

(** Comparison at any common unit below the two exponents. *)
Lemma float_scaled_shift e e1 f :
  e ≤ e1 → e1 ≤ float_exp f →
  float_scaled e f = float_scaled e1 f * 2 ^ (e1 - e).
Proof.
  intros He He1. destruct f as [| | |s m e']; cbn in *; try done.
  replace (e' - e) with ((e' - e1) + (e1 - e)) by lia.
  rewrite Z.pow_add_r by lia. destruct s; cbn; lia.
Qed.

Lemma float_lt_at e a b :
  e ≤ float_exp a → e ≤ float_exp b →
  float_lt a b
  = negb (float_is_nan a) && negb (float_is_nan b) &&
    ((float_rank a <? float_rank b) ||
     ((float_rank a =? float_rank b) &&
      (float_scaled e a <? float_scaled e b))).
Proof.
  intros Ha Hb. unfold float_lt.
  set (e1 := Z.min (float_exp a) (float_exp b)).
  rewrite (float_scaled_shift e e1 a), (float_scaled_shift e e1 b) by lia.
  assert (0 < 2 ^ (e1 - e)) as Hpos by (apply Z.pow_pos_nonneg; lia).
  assert ((float_scaled e1 a * 2 ^ (e1 - e) <?
           float_scaled e1 b * 2 ^ (e1 - e))
          = (float_scaled e1 a <? float_scaled e1 b)) as ->; [|done].
  destruct (Z.ltb_spec (float_scaled e1 a) (float_scaled e1 b));
    destruct (Z.ltb_spec (float_scaled e1 a * 2 ^ (e1 - e))
                (float_scaled e1 b * 2 ^ (e1 - e))); try done; nia.
Qed.

Lemma not_newer_trans a b c :
  float_is_nan (modified_time b) = false →
  not_newer a b → not_newer b c → not_newer a c.
Proof.
  unfold not_newer.
  set (x := modified_time a). set (y := modified_time b).
  set (z := modified_time c).
  set (e := Z.min (float_exp x) (Z.min (float_exp y) (float_exp z))).
  rewrite (float_lt_at e y x), (float_lt_at e z y), (float_lt_at e z x)
    by lia.
  intros ->.
  destruct (float_is_nan x), (float_is_nan z); cbn; try done.
  destruct (Z.ltb_spec (float_rank y) (float_rank x)),
    (Z.ltb_spec (float_rank z) (float_rank y)),
    (Z.ltb_spec (float_rank z) (float_rank x)),
    (Z.eqb_spec (float_rank y) (float_rank x)),
    (Z.eqb_spec (float_rank z) (float_rank y)),
    (Z.eqb_spec (float_rank z) (float_rank x)),
    (Z.ltb_spec (float_scaled e y) (float_scaled e x)),
    (Z.ltb_spec (float_scaled e z) (float_scaled e y)),
    (Z.ltb_spec (float_scaled e z) (float_scaled e x)); cbn; try done; lia.
Qed.

Lemma insert_by_mtime_StronglySorted r l :
  Forall (λ x, float_is_nan (modified_time x) = false) l →
  StronglySorted not_newer l →
  StronglySorted not_newer (insert_by_mtime r l).
Proof.
  intros Hnan Hs. induction Hs as [|y l Hs IH Hall]; cbn.
  { repeat constructor. }
  apply Forall_cons in Hnan as [Hy Hnan].
  destruct (float_lt (modified_time y) (modified_time r)) eqn:Hlt.
  - constructor; [by apply IH|].
    rewrite insert_by_mtime_Permutation. constructor; [|done].
    by apply float_lt_asym.
  - constructor; [by constructor|].
    constructor; [done|].
    eapply Forall_impl; [exact Hall|]. cbn. intros z Hz.
    by apply (not_newer_trans r y z).
Qed.

Lemma sort_by_mtime_StronglySorted l :
  Forall (λ x, float_is_nan (modified_time x) = false) l →
  StronglySorted not_newer (sort_by_mtime l).
Proof.
  induction 1 as [|r l Hr Hl IH]; [constructor|]. cbn.
  apply insert_by_mtime_StronglySorted; [|done].
  fold (sort_by_mtime l). by rewrite sort_by_mtime_Permutation.
Qed.

(** X10. [discover_wav_recordings] on a directory that exists returns the
    files below it whose suffix is [.wav] or [.mp3] in any letter case, each
    once, with the name, size and modification time that the file system
    reports, and nothing else.  No recording in the list was modified after
    the one that follows it; when no modification time is [nan], the list is
    in ascending order of modification time throughout (oldest first). *)
Theorem discovery_sorted_audio (fs : tree) (recordings_dir : string)
    (entries : list dir_entry) :
  fs recordings_dir = Some entries →
  ∃ found,
    discover_wav_recordings fs recordings_dir = Ok found ∧
    found ≡ₚ recording_of <$> List.filter is_audio entries ∧
    (∀ r, r ∈ found →
          str_in (str_lower (path_suffix (path r))) allowed_exts = true ∧
          name r = path_name (path r)) ∧
    Sorted not_newer found ∧
    (Forall (λ x, float_is_nan (entry_mtime x) = false) entries →
     StronglySorted not_newer found).
Proof.
  intros He. unfold discover_wav_recordings. rewrite He.
  eexists. split; [done|].
  split_and!.
  - apply sort_by_mtime_Permutation.
  - intros r. rewrite sort_by_mtime_Permutation.
    intros (x & -> & Hx)%list_elem_of_fmap.
    apply list_elem_of_In, filter_In in Hx as [_ Hx].
    unfold is_audio in Hx. apply andb_true_iff in Hx as [_ Hx]. done.
  - apply sort_by_mtime_Sorted.
  - intros Hnan. apply sort_by_mtime_StronglySorted.
    apply Forall_fmap. apply Forall_forall. intros x Hx.
    apply list_elem_of_In, filter_In in Hx as [Hx _].
    rewrite Forall_forall in Hnan. apply Hnan. by apply list_elem_of_In.
Qed.

Lemma discovery_sorted_audio_witness :
  ∃ found,
    discover_wav_recordings PipelineSample.recordings "recordings/"
    = Ok found ∧
    found ≡ₚ recording_of <$> List.filter is_audio PipelineSample.entries ∧
    (∀ r, r ∈ found →
          str_in (str_lower (path_suffix (path r))) allowed_exts = true ∧
          name r = path_name (path r)) ∧
    Sorted not_newer found ∧
    (Forall (λ x, float_is_nan (entry_mtime x) = false)
       PipelineSample.entries →
     StronglySorted not_newer found).
Proof.
  apply (discovery_sorted_audio PipelineSample.recordings "recordings/"
           PipelineSample.entries).
  reflexivity.
Defined.

(** ** The index build: failures and what is kept *)

Section IndexFailures.
Context `{PyLib}.
Implicit Types (coll : gmap string index_document).

Lemma load_call_from_json_Ok fs p c :
  load_call_from_json p fs = Ok c ↔ record_at fs p = Some c.
Proof.
  unfold record_at, load_call_from_json.
  destruct (fs !! p) as [j|]; cbn; [|done].
  destruct (CallAnalysis_model_validate j); split; congruence.
Qed.

Lemma load_call_from_json_Raise fs p :
  is_Some (fs !! p) → record_at fs p = None →
  load_call_from_json p fs = Raise ValidationError.
Proof.
  unfold record_at, load_call_from_json. intros [j ->]. cbn.
  by destruct (CallAnalysis_model_validate j).
Qed.

(** The loop either meets a file that does not load, or it has loaded all
    of them. *)
Lemma collect_documents_cases paths fs ids docs metas :
  (∃ e, collect_documents paths fs ids docs metas = Raise e ∧
        ∃ p, p ∈ paths ∧ record_at fs p = None) ∨
  (∃ records, mapM (record_at fs) paths = Some records).
Proof.
  revert ids docs metas.
  induction paths as [|p paths IH]; intros ids docs metas.
  { right. by exists []. }
  cbn [collect_documents].
  destruct (load_call_from_json p fs) as [c|e] eqn:Hl.
  - apply load_call_from_json_Ok in Hl.
    assert (∀ i d m,
              (∃ e, collect_documents paths fs i d m = Raise e ∧
                    ∃ q, q ∈ p :: paths ∧ record_at fs q = None) ∨
              (∃ records, mapM (record_at fs) (p :: paths) = Some records))
      as Hrest.
    { intros i d m. destruct (IH i d m) as [(e & He & q & Hq & Hn)|[rs Hrs]].
      - left. exists e. split; [done|]. exists q.
        split; [by apply list_elem_of_further | done].
      - right. exists (c :: rs). cbn. by rewrite Hl, Hrs. }
    destruct (negb (str_truthy (strip (transcript c)))); apply Hrest.
  - left. exists e. split; [done|]. exists p.
    split; [apply list_elem_of_here|].
    destruct (record_at fs p) as [c|] eqn:Hr; [|done].
    apply load_call_from_json_Ok in Hr. congruence.
Qed.

Lemma collect_documents_bad_file paths fs ids docs metas :
  (∀ p, p ∈ paths → is_Some (fs !! p)) →
  (∃ p, p ∈ paths ∧ record_at fs p = None) →
  collect_documents paths fs ids docs metas = Raise ValidationError.
Proof.
  revert ids docs metas.
  induction paths as [|p paths IH]; intros ids docs metas Hex (q & Hq & Hn).
  { by apply elem_of_nil in Hq. }
  cbn [collect_documents].
  destruct (record_at fs p) as [c|] eqn:Hr.
  - rewrite (proj2 (load_call_from_json_Ok fs p c) Hr).
    apply elem_of_cons in Hq as [->|Hq]; [congruence|].
    assert (∀ i d m, collect_documents paths fs i d m = Raise ValidationError)
      as Hrest.
    { intros i d m. apply IH; [|by exists q].
      intros p' Hp'. apply Hex. by apply list_elem_of_further. }
    destruct (negb (str_truthy (strip (transcript c)))); apply Hrest.
  - rewrite load_call_from_json_Raise; [done | | done].
    apply Hex, list_elem_of_here.
Qed.

Lemma store_lookup coll
    (es : list (string * (string * (dict * list spec_float)))) id :
  foldl store_document coll es !! id = coll !! id ∨
  ∃ d m v, (id, (d, (m, v))) ∈ es ∧
           foldl store_document coll es !! id
           = Some {| document := d; doc_metadata := m; embedding := v |}.
Proof.
  revert coll. induction es as [|[i [d [m v]]] es IH]; intros coll.
  { by left. }
  cbn [foldl store_document].
  destruct (IH (<[i := {| document := d; doc_metadata := m;
                          embedding := v |}]> coll))
    as [Heq|(d' & m' & v' & Hin & Heq)].
  - destruct (decide (id = i)) as [->|Hne].
    + right. exists d, m, v. split; [apply list_elem_of_here|].
      by rewrite Heq, lookup_insert_eq.
    + left. by rewrite Heq, lookup_insert_ne.
  - right. exists d', m', v'. split; [by apply list_elem_of_further|done].
Qed.

Lemma mapM_record_elem fs paths records c :
  mapM (record_at fs) paths = Some records → c ∈ records →
  ∃ p, p ∈ paths ∧ record_at fs p = Some c.
Proof.
  intros Hm%mapM_Some_1 Hc.
  induction Hm as [|p r paths records Hp Hm IH].
  { by apply elem_of_nil in Hc. }
  apply elem_of_cons in Hc as [->|Hc].
  - exists p. split; [apply list_elem_of_here | done].
  - destruct (IH Hc) as (q & Hq & Hr). exists q.
    split; [by apply list_elem_of_further | done].
Qed.

(** In a store where every record is in the file named after its
    [call_id], the records of distinct files have distinct ids. *)
Lemma well_named_NoDup fs paths records :
  well_named fs → NoDup paths →
  mapM (record_at fs) paths = Some records →
  NoDup ((λ c, call_id (metadata c)) <$> records).
Proof.
  intros Hwn Hnd Hm%mapM_Some_1.
  induction Hm as [|p r paths records Hp Hm IH]; [constructor|].
  apply NoDup_cons in Hnd as [Hnp Hnd]. cbn.
  apply NoDup_cons. split; [|by apply IH].
  intros (r' & Heq & Hr')%list_elem_of_fmap.
  apply list_elem_of_lookup in Hr' as [i Hi].
  destruct (Forall2_lookup_r _ _ _ _ _ Hm Hi) as (q & Hq & Hrq).
  apply Hwn in Hp, Hrq. apply Hnp.
  rewrite Hp, Heq, <- Hrq. by apply list_elem_of_lookup_2 in Hq.
Qed.

Lemma NoDup_filter_fmap {A B} (f : A → B) (g : A → bool) (l : list A) :
  NoDup (f <$> l) → NoDup (f <$> List.filter g l).
Proof.
  induction l as [|x l IH]; [done|]. cbn. intros [Hx Hl]%NoDup_cons.
  destruct (g x); [|by apply IH]. cbn. apply NoDup_cons.
  split; [|by apply IH].
  intros (y & Hy & Hin)%list_elem_of_fmap. apply Hx.
  apply list_elem_of_fmap. exists y. split; [done|].
  apply list_elem_of_In. apply list_elem_of_In, filter_In in Hin as [Hin _].
  done.
Qed.
End IndexFailures.

(** X11. One call file that does not load stops the index build: when a
    file of [data/calls] is not a valid record, [build_calls_index] raises
    the validation error and the collection is as it was; nothing is
    indexed, not even the records listed before the bad file. *)
Theorem index_build_stops_at_bad_file `{PyLib} (embed : embedder)
    (fs : gmap string json) (coll : gmap string index_document)
    (p : string) :
  is_Some (fs !! p) → record_at fs p = None →
  build_calls_index embed fs coll = (Raise ValidationError, coll).
Proof.
  intros Hp Hn. unfold build_calls_index.
  assert (p ∈ call_files fs) as Hin by by apply elem_of_call_files.
  case_bool_decide as Hl.
  { rewrite Hl in Hin. by apply elem_of_nil in Hin. }
  rewrite collect_documents_bad_file; [done | | by exists p].
  intros q. apply elem_of_call_files.
Qed.

Section BadFileWitness.
#[local] Existing Instance Sample.time.
#[local] Existing Instance Sample.lib.

Lemma index_build_stops_at_bad_file_witness :
  build_calls_index Sample.embed (<["b.json" := JNull]> Sample.fs_abc) ∅
  = (Raise ValidationError, ∅).
Proof.
  apply (index_build_stops_at_bad_file Sample.embed
           (<["b.json" := JNull]> Sample.fs_abc) ∅ "b.json").
  - vm_compute. eauto.
  - vm_compute. reflexivity.
Defined.
End BadFileWitness.

(** X12. Whatever [build_calls_index] does and however it ends, it removes
    no document from the collection; when it does not end normally the
    collection is as it was; and each id of the collection is as it was, or
    holds the transcript and the metadata of a record of [data/calls] with
    that [call_id] and a transcript that is not blank. *)
Theorem index_build_keeps_documents `{PyLib} (embed : embedder)
    (fs : gmap string json) (coll : gmap string index_document) :
  dom coll ⊆ dom (build_calls_index embed fs coll).2 ∧
  ((build_calls_index embed fs coll).1 ≠ Ok tt →
   (build_calls_index embed fs coll).2 = coll) ∧
  ∀ id,
    (build_calls_index embed fs coll).2 !! id = coll !! id ∨
    ∃ p c v,
      record_at fs p = Some c ∧ call_id (metadata c) = id ∧
      is_blank (transcript c) = false ∧
      (build_calls_index embed fs coll).2 !! id
      = Some {| document := transcript c;
                doc_metadata := index_metadata c; embedding := v |}.
Proof.
  unfold build_calls_index.
  case_bool_decide as Hl; [by split_and!; [| |left]|].
  destruct (collect_documents_cases (call_files fs) fs [] [] [])
    as [(e & -> & _)|[records Hm]]; [by split_and!; [| |left]|].
  rewrite (collect_documents_eq _ _ records) by done. cbn [app].
  case_bool_decide as Hids; [by split_and!; [| |left]|].
  unfold upsert. case_bool_decide as Hnd; [|by split_and!; [| |left]].
  destruct (embed _) as [vectors|]; [|by split_and!; [| |left]].
  cbn [fst snd]. rewrite entries_of_docs. split_and!.
  - rewrite store_dom. set_solver.
  - done.
  - intros id.
    destruct (store_lookup coll
                (entry_of <$> zip (indexable records) vectors) id)
      as [Heq|(d & m & v & Hin & Heq)]; [by left|].
    right. apply list_elem_of_fmap in Hin as ([c v'] & Hcv & Hin).
    injection Hcv as -> -> -> ->.
    apply elem_of_zip_l in Hin. unfold indexable in Hin.
    apply list_elem_of_In, filter_In in Hin as [Hin Hb].
    apply list_elem_of_In in Hin.
    destruct (mapM_record_elem _ _ _ _ Hm Hin) as (p & _ & Hp).
    exists p, c, v'. split_and!; [done | done | | done].
    by apply negb_true_iff.
Qed.

(** X13. A store in which every record is in the file named after its
    [call_id] (as ingestion writes the files and the stage runs keep them)
    never makes the index build fail on repeated ids: the build ends
    normally, or with the validation error of a file that does not load, or
    with the failure of the embedding function. *)
Theorem index_build_no_repeated_ids `{PyLib} (embed : embedder)
    (fs : gmap string json) (coll : gmap string index_document) :
  well_named fs →
  (build_calls_index embed fs coll).1 = Ok tt ∨
  (build_calls_index embed fs coll).1 = Raise ValidationError ∨
  (build_calls_index embed fs coll).1 = Raise EmbeddingError.
Proof.
  intros Hwn. unfold build_calls_index.
  case_bool_decide as Hl; [by left|].
  destruct (collect_documents_cases (call_files fs) fs [] [] [])
    as [(e & He & q & Hq & Hn)|[records Hm]].
  { rewrite collect_documents_bad_file; [by right; left | | by exists q].
    intros p. apply elem_of_call_files. }
  rewrite (collect_documents_eq _ _ records) by done. cbn [app].
  case_bool_decide as Hids; [by left|].
  unfold upsert. rewrite bool_decide_eq_true_2.
  { destruct (embed _); [by left | by right; right]. }
  apply NoDup_filter_fmap.
  by apply (well_named_NoDup fs (call_files fs));
    [| apply call_files_NoDup |].
Qed.

Section NoRepeatWitness.
#[local] Existing Instance Sample.time.
#[local] Existing Instance Sample.lib.

Lemma index_build_no_repeated_ids_witness :
  (build_calls_index Sample.embed Sample.fs_ab ∅).1 = Ok tt ∨
  (build_calls_index Sample.embed Sample.fs_ab ∅).1
  = Raise ValidationError ∨
  (build_calls_index Sample.embed Sample.fs_ab ∅).1 = Raise EmbeddingError.
Proof.
  apply (index_build_no_repeated_ids Sample.embed Sample.fs_ab ∅).
  intros p c. unfold record_at, Sample.fs_ab.
  destruct (decide (p = "a.json")) as [->|Ha].
  { vm_compute. by intros [= <-]. }
  rewrite lookup_insert_ne by done.
  destruct (decide (p = "b.json")) as [->|Hb].
  { vm_compute. by intros [= <-]. }
  rewrite lookup_singleton_ne by done. done.
Defined.
End NoRepeatWitness.

(** ** The dashboard: loading and statistics *)

Section DashboardTheory.
Context `{PyLib}.

Lemma load_loop_eq fs paths calls warnings :
  Dashboard.load_loop fs paths calls warnings
  = (calls ++ omap (record_at fs) paths,
     warnings ++
     List.filter (λ p, bool_decide (record_at fs p = None)) paths).
Proof.
  revert calls warnings.
  induction paths as [|p paths IH]; intros calls warnings.
  { cbn. by rewrite !app_nil_r. }
  cbn [Dashboard.load_loop omap list_omap List.filter].
  destruct (record_at fs p) as [c|] eqn:Hr.
  - rewrite (load_call_from_json_record _ _ _ Hr), IH.
    rewrite (bool_decide_eq_false_2 (Some c = None)) by done.
    by rewrite <- app_assoc.
  - destruct (load_call_from_json p fs) as [c|e] eqn:Hl.
    { apply load_call_from_json_Ok in Hl. congruence. }
    rewrite IH. rewrite (bool_decide_eq_true_2 (None = None)) by done.
    by rewrite <- app_assoc.
Qed.











End DashboardTheory.

(** X14. The dashboard's [load_calls] never raises: it returns the records
    of the files of [data/calls] that load, in listing order, and reports
    each file that does not load; every file is either loaded or reported,
    and a record is returned exactly when some file holds it. *)
Theorem dashboard_load_skips_bad_files `{PyLib} (fs : gmap string json) :
  (Dashboard.load_calls fs).1 = omap (record_at fs) (call_files fs) ∧
  (Dashboard.load_calls fs).2
  = List.filter (λ p, bool_decide (record_at fs p = None)) (call_files fs) ∧
  (length (Dashboard.load_calls fs).1 + length (Dashboard.load_calls fs).2)%nat
  = size fs ∧
  (∀ c, c ∈ (Dashboard.load_calls fs).1 ↔ ∃ p, record_at fs p = Some c).
Proof.
  unfold Dashboard.load_calls. rewrite load_loop_eq. cbn [fst snd app].
  split_and!; [done | done | |].
  - rewrite omap_filter_length, call_files_Permutation.
    by rewrite <- size_dom.
  - intros c. rewrite list_elem_of_omap. split.
    + intros (p & _ & Hp). by exists p.
    + intros (p & Hp). exists p. split; [|done].
      apply elem_of_call_files. unfold record_at in Hp.
      destruct (fs !! p); [eauto | done].
Qed.


(** ** The matches of a search *)

Lemma build_matches_from r :
  build_matches r = matches_from r 0 (length (qr_ids r)).
Proof.
  unfold build_matches. generalize 0%nat (length (qr_ids r)).
  intros i n. revert i. induction n as [|n IH]; intros i; [done|].
  cbn. by rewrite IH.
Qed.

Lemma matches_from_Ok r i n ms :
  matches_from r i n = Ok ms →
  length ms = n ∧
  ∀ k m, ms !! k = Some m →
    qr_ids r !! (i + k)%nat = Some (match_id m) ∧
    qr_documents r !! (i + k)%nat = Some (match_document m) ∧
    qr_metadatas r !! (i + k)%nat = Some (match_metadata m) ∧
    qr_distances r !! (i + k)%nat = Some (match_distance m).
Proof.
  revert i ms. induction n as [|n IH]; intros i ms.
  { cbn. intros [= <-]. split; [done|]. by intros k m ?. }
  cbn [matches_from].
  destruct (qr_ids r !! i) as [a|] eqn:Ha; [|done].
  destruct (qr_documents r !! i) as [b|] eqn:Hb; [|done].
  destruct (qr_metadatas r !! i) as [c|] eqn:Hc; [|done].
  destruct (qr_distances r !! i) as [d|] eqn:Hd; [|done].
  destruct (matches_from r (S i) n) as [ms'|e] eqn:Hrec; [|done].
  intros [= <-]. destruct (IH (S i) ms' Hrec) as [Hlen Hall].
  split; [cbn; by rewrite Hlen|].
  intros [|k] m Hm.
  - injection Hm as <-. rewrite Nat.add_0_r. by split_and!.
  - cbn in Hm. replace (i + S k)%nat with (S i + k)%nat by lia.
    by apply Hall.
Qed.

Lemma matches_from_Raise r i n e :
  matches_from r i n = Raise e →
  e = IndexError ∧
  ((length (qr_documents r) < i + n)%nat ∨
   (length (qr_metadatas r) < i + n)%nat ∨
   (length (qr_distances r) < i + n)%nat ∨
   (length (qr_ids r) < i + n)%nat).
Proof.
  revert i. induction n as [|n IH]; intros i; [done|].
  cbn [matches_from].
  destruct (qr_ids r !! i) as [a|] eqn:Ha.
  2:{ intros [= <-]. split; [done|]. apply lookup_ge_None in Ha.
      right. right. right. lia. }
  destruct (qr_documents r !! i) as [b|] eqn:Hb.
  2:{ intros [= <-]. split; [done|]. apply lookup_ge_None in Hb.
      left. lia. }
  destruct (qr_metadatas r !! i) as [c|] eqn:Hc.
  2:{ intros [= <-]. split; [done|]. apply lookup_ge_None in Hc.
      right. left. lia. }
  destruct (qr_distances r !! i) as [d|] eqn:Hd.
  2:{ intros [= <-]. split; [done|]. apply lookup_ge_None in Hd.
      right. right. left. lia. }
  destruct (matches_from r (S i) n) as [ms'|e'] eqn:Hrec; [done|].
  intros [= <-]. destruct (IH (S i) Hrec) as [-> Hlt].
  split; [done|]. replace (i + S n)%nat with (S i + n)%nat by lia. done.
Qed.

(** X16. [semantic_search_calls] sends the query once, as it is, with the
    number of results asked for.  When the index answers, the search returns
    one match per id of the answer, in the order of the ids, and the i-th
    match holds the i-th id, document, metadata and distance; it raises
    [IndexError] exactly when the answer has fewer documents, metadatas or
    distances than ids.  When the index raises, so does the search. *)
Theorem search_matches_aligned (idx : index) (query : string)
    (n_results : Z) :
  dispatched (semantic_search_calls idx query n_results)
  = [(query, n_results)] ∧
  (idx query n_results = None ↔
   outcome (semantic_search_calls idx query n_results)
   = Raise EmbeddingError) ∧
  ∀ r, idx query n_results = Some r →
    (∀ ms, outcome (semantic_search_calls idx query n_results) = Ok ms →
       length ms = length (qr_ids r) ∧
       ∀ k m, ms !! k = Some m →
         qr_ids r !! k = Some (match_id m) ∧
         qr_documents r !! k = Some (match_document m) ∧
         qr_metadatas r !! k = Some (match_metadata m) ∧
         qr_distances r !! k = Some (match_distance m)) ∧
    (∀ e, outcome (semantic_search_calls idx query n_results) = Raise e →
       e = IndexError) ∧
    ((∃ ms, outcome (semantic_search_calls idx query n_results) = Ok ms)
     ↔ (length (qr_ids r) ≤ length (qr_documents r) ∧
        length (qr_ids r) ≤ length (qr_metadatas r) ∧
        length (qr_ids r) ≤ length (qr_distances r))%nat).
Proof.
  unfold semantic_search_calls. cbn [dispatched outcome].
  split; [done|]. split.
  { destruct (idx query n_results) as [r|] eqn:Hr; [|done].
    split; [done|]. rewrite build_matches_from. intros He.
    by apply matches_from_Raise in He as [? _]. }
  intros r ->. rewrite build_matches_from.
  split_and!.
  - intros ms Hms. by apply matches_from_Ok in Hms.
  - intros e He. by apply matches_from_Raise in He as [? _].
  - destruct (matches_from r 0 (length (qr_ids r))) as [ms|e] eqn:Hm.
    + split; [intros _|by eauto].
      apply matches_from_Ok in Hm as [Hlen Hall].
      assert (∀ k, (k < length (qr_ids r))%nat →
                (k < length (qr_documents r))%nat ∧
                (k < length (qr_metadatas r))%nat ∧
                (k < length (qr_distances r))%nat) as Hk.
      { intros k Hlt. rewrite <- Hlen in Hlt.
        apply lookup_lt_is_Some in Hlt as [m Hm].
        destruct (Hall k m Hm) as (_ & H1 & H2 & H3). cbn in *.
        apply lookup_lt_Some in H1, H2, H3. done. }
      destruct (length (qr_ids r)) as [|n]; [lia|].
      destruct (Hk n) as (? & ? & ?); lia.
    + split; [by intros [? ?]|]. intros (H1 & H2 & H3).
      apply matches_from_Raise in Hm as [_ Hlt]. lia.
Qed.

(** ** Null values and empty payloads *)

Section NullValues.
Context `{PyLib}.

#[local] Arguments validate_list : simpl never.
#[local] Arguments SentimentLabel.validate : simpl never.
#[local] Arguments RiskLevel.validate : simpl never.
#[local] Arguments ResolutionStatus.validate : simpl never.
#[local] Arguments CallQualityScores_model_validate : simpl never.

Lemma defaulted_null_list {A} (v : json → option A) dflt d k :
  dict_get k d = Some JNull → defaulted (validate_list v) dflt d k = None.
Proof. intros Hk. unfold defaulted. by rewrite Hk. Qed.

Lemma optional_field_null {A} (v : json → option A) d k :
  dict_get k d = Some JNull → optional_field v d k = Some None.
Proof. intros Hk. unfold optional_field, defaulted. by rewrite Hk. Qed.

Lemma optional_field_absent {A} (v : json → option A) d k :
  dict_get k d = None → optional_field v d k = Some None.
Proof. intros Hk. unfold optional_field, defaulted. by rewrite Hk. Qed.

Lemma defaulted_absent {A} (v : json → option A) dflt d k :
  dict_get k d = None → defaulted v dflt d k = Some dflt.
Proof. intros Hk. unfold defaulted. by rewrite Hk. Qed.

(** [null] under a key that is not declared [Optional] fails the facet. *)
Lemma not_nullable_rejects cfg st k d :
  k ∈ not_nullable st → dict_get k d = Some JNull →
  ops_validate (ops_of cfg st) (JObj d) = None.
Proof.
  intros Hk Hd.
  destruct st; cbn [ops_validate ops_of not_nullable] in *;
    unfold SentimentAnalysis_model_validate,
      IntentTopicsAnalysis_model_validate,
      CallQualityAnalysis_model_validate,
      ComplianceRiskAnalysis_model_validate,
      OutcomeFollowupAnalysis_model_validate;
    cbn [as_dict mbind option_bind];
    repeat (apply elem_of_cons in Hk as [->|Hk]);
    try (by apply elem_of_nil in Hk);
    unfold required, optional_field, defaulted; rewrite Hd;
    cbv beta iota delta [validate_list SentimentLabel.validate
      RiskLevel.validate ResolutionStatus.validate
      CallQualityScores_model_validate validate_bool as_dict];
    cbn [mbind option_bind]; field_fails.
Qed.

(** [null] under a key declared [Optional] is read as the key being absent. *)
Lemma nullable_null_absent cfg st k d d' :
  k ∈ facet_fields st → k ∉ not_nullable st →
  dict_get k d = Some JNull → dict_get k d' = None →
  (∀ k', k' ≠ k → dict_get k' d' = dict_get k' d) →
  ops_validate (ops_of cfg st) (JObj d)
  = ops_validate (ops_of cfg st) (JObj d').
Proof.
  intros Hk Hn Hd Hd' Ho.
  destruct st; cbn [ops_validate ops_of not_nullable facet_fields] in *;
    unfold SentimentAnalysis_model_validate,
      IntentTopicsAnalysis_model_validate,
      CallQualityAnalysis_model_validate,
      ComplianceRiskAnalysis_model_validate,
      OutcomeFollowupAnalysis_model_validate;
    cbn [as_dict mbind option_bind];
    repeat (apply elem_of_cons in Hk as [->|Hk]);
    try (by apply elem_of_nil in Hk);
    try (exfalso; apply Hn;
         repeat first [apply list_elem_of_here
                      | apply list_elem_of_further]; fail);
    unfold required, optional_field, defaulted;
    rewrite Hd, Hd', !Ho by done; done.
Qed.

(** A payload with none of the keys of the facet. *)
Lemma empty_payload_defaults d :
  (∀ st k, k ∈ facet_fields st → dict_get k d = None) →
  SentimentAnalysis_model_validate (JObj d) = None ∧
  IntentTopicsAnalysis_model_validate (JObj d)
  = Some IntentTopicsAnalysis_default ∧
  CallQualityAnalysis_model_validate (JObj d)
  = Some CallQualityAnalysis_default ∧
  ComplianceRiskAnalysis_model_validate (JObj d)
  = Some ComplianceRiskAnalysis_default ∧
  OutcomeFollowupAnalysis_model_validate (JObj d)
  = Some OutcomeFollowupAnalysis_default.
Proof.
  intros Hk.
  unfold SentimentAnalysis_model_validate,
    IntentTopicsAnalysis_model_validate,
    CallQualityAnalysis_model_validate,
    ComplianceRiskAnalysis_model_validate,
    OutcomeFollowupAnalysis_model_validate,
    required, optional_field, defaulted.
  cbn [as_dict mbind option_bind].
  split_and!.
  - rewrite (Hk Sentiment "overall") by apply list_elem_of_here. done.
  - rewrite !(Hk IntentTopics)
      by (repeat first [apply list_elem_of_here
                       | apply list_elem_of_further]). done.
  - rewrite !(Hk Quality)
      by (repeat first [apply list_elem_of_here
                       | apply list_elem_of_further]). done.
  - rewrite !(Hk Compliance)
      by (repeat first [apply list_elem_of_here
                       | apply list_elem_of_further]). done.
  - rewrite !(Hk Outcome)
      by (repeat first [apply list_elem_of_here
                       | apply list_elem_of_further]). done.
Qed.
End NullValues.

(** X17. In a facet payload [null] is not an absent key.  Under a key that
    the schema does not declare [Optional] (the lists, the enumerations,
    [escalation_required] and [scores]) a [null] makes the validation of the
    whole facet fail, also where the field has a default; under every other
    key of the facet a [null] is read exactly as an absent key. *)
Theorem null_is_not_absent `{PyLib} (cfg : run_config) (st : stage)
    (k : string) (d : dict) :
  k ∈ facet_fields st → dict_get k d = Some JNull →
  (k ∈ not_nullable st → ops_validate (ops_of cfg st) (JObj d) = None) ∧
  (k ∉ not_nullable st →
   ∀ d', dict_get k d' = None →
         (∀ k', k' ≠ k → dict_get k' d' = dict_get k' d) →
         ops_validate (ops_of cfg st) (JObj d)
         = ops_validate (ops_of cfg st) (JObj d')).
Proof.
  intros Hk Hd. split.
  - intros Hn. by apply not_nullable_rejects with (k := k).
  - intros Hn d' Hd' Ho. by apply nullable_null_absent with (k := k).
Qed.

Section NullWitness.
#[local] Existing Instance Sample.time.
#[local] Existing Instance Sample.lib.

Lemma null_is_not_absent_witness :
  ("emotion_tags" ∈ not_nullable Sentiment →
   ops_validate (ops_of Sample.cfg Sentiment)
     (JObj [("overall", JStr "neutral"); ("emotion_tags", JNull)]) = None) ∧
  ("emotion_tags" ∉ not_nullable Sentiment →
   ∀ d', dict_get "emotion_tags" d' = None →
         (∀ k', k' ≠ "emotion_tags" →
                dict_get k' d'
                = dict_get k'
                    [("overall", JStr "neutral"); ("emotion_tags", JNull)]) →
         ops_validate (ops_of Sample.cfg Sentiment)
           (JObj [("overall", JStr "neutral"); ("emotion_tags", JNull)])
         = ops_validate (ops_of Sample.cfg Sentiment) (JObj d')).
Proof.
  apply (null_is_not_absent Sample.cfg Sentiment "emotion_tags"
           [("overall", JStr "neutral"); ("emotion_tags", JNull)]).
  - cbn [facet_fields]. apply list_elem_of_further, list_elem_of_further,
      list_elem_of_here.
  - vm_compute. reflexivity.
Defined.
End NullWitness.

(** X18. A payload that is not a JSON object fails every facet.  A JSON
    object with none of the keys of the facet, such as [{}], fails the
    sentiment facet but is a valid intent, quality, compliance and outcome
    facet: it validates to the facet whose fields all hold their defaults
    (no intent, no scores, risk level low, resolution status unresolved, no
    escalation). *)
Theorem empty_payload_is_a_facet `{PyLib} (cfg : run_config) :
  (∀ st j, as_dict j = None → ops_validate (ops_of cfg st) j = None) ∧
  ∀ d, (∀ st k, k ∈ facet_fields st → dict_get k d = None) →
    SentimentAnalysis_model_validate (JObj d) = None ∧
    IntentTopicsAnalysis_model_validate (JObj d)
    = Some IntentTopicsAnalysis_default ∧
    CallQualityAnalysis_model_validate (JObj d)
    = Some CallQualityAnalysis_default ∧
    ComplianceRiskAnalysis_model_validate (JObj d)
    = Some ComplianceRiskAnalysis_default ∧
    OutcomeFollowupAnalysis_model_validate (JObj d)
    = Some OutcomeFollowupAnalysis_default.
Proof.
  split; [|apply empty_payload_defaults].
  intros st j Hj.
  destruct st; cbn [ops_validate ops_of];
    unfold SentimentAnalysis_model_validate,
      IntentTopicsAnalysis_model_validate,
      CallQualityAnalysis_model_validate,
      ComplianceRiskAnalysis_model_validate,
      OutcomeFollowupAnalysis_model_validate; by rewrite Hj.
Qed.

(** ** The filters of the dashboard *)

Section FilterTheory.
Context `{PyLib}.

(** A call passes the three filters. *)
Lemma filter_loop_eq sf rf mq calls acc :
  DashboardFilter.filter_loop sf rf mq calls acc
  = acc ++
    List.filter
      (λ c, str_in (DashboardFilter.s_label c) sf &&
            str_in (DashboardFilter.r_label c) rf &&
            match DashboardFilter.q_score c with
            | Some q => negb (q <? mq)
            | None => true
            end) calls.
Proof.
  revert acc. induction calls as [|c calls IH]; intros acc.
  { cbn. by rewrite app_nil_r. }
  cbn [DashboardFilter.filter_loop List.filter].
  destruct (str_in (DashboardFilter.s_label c) sf); cbn [negb andb];
    [|by apply IH].
  destruct (str_in (DashboardFilter.r_label c) rf); cbn [negb andb];
    [|by apply IH].
  destruct (DashboardFilter.q_score c) as [q|].
  - destruct (q <? mq); cbn [negb]; [by apply IH|].
    rewrite IH. by rewrite <- app_assoc.
  - rewrite IH. by rewrite <- app_assoc.
Qed.

Lemma s_label_option c :
  str_in (DashboardFilter.s_label c) DashboardFilter.sentiment_options = true.
Proof.
  unfold DashboardFilter.s_label.
  destruct (sentiment c) as [s|]; [destruct (overall s)|]; done.
Qed.

Lemma r_label_option c :
  str_in (DashboardFilter.r_label c) DashboardFilter.risk_options = true.
Proof.
  unfold DashboardFilter.r_label.
  destruct (compliance_and_risk c) as [r|]; [destruct (risk_level r)|]; done.
Qed.
End FilterTheory.

(** X19. The calls that the dashboard lists are the loaded calls that pass
    the three filters, in their order.  A call without an overall quality
    score passes the quality slider at every position.  With every
    sentiment and every risk level selected, as by default, the list holds
    exactly the calls whose score is absent or at least the minimum: at the
    default minimum 0 the calls with a negative score are hidden and no
    other. *)
Theorem dashboard_filter_shows `{PyLib} (sentiment_filter risk_filter : list string)
    (min_quality : Z) (calls : list CallAnalysis) :
  DashboardFilter.filter_calls sentiment_filter risk_filter min_quality calls
    `sublist_of` calls ∧
  (∀ c, c ∈ DashboardFilter.filter_calls sentiment_filter risk_filter
              min_quality calls ↔
        c ∈ calls ∧
        str_in (DashboardFilter.s_label c) sentiment_filter = true ∧
        str_in (DashboardFilter.r_label c) risk_filter = true ∧
        ∀ q, DashboardFilter.q_score c = Some q → min_quality ≤ q) ∧
  DashboardFilter.filter_calls DashboardFilter.sentiment_options
    DashboardFilter.risk_options min_quality calls
  = List.filter
      (λ c, match DashboardFilter.q_score c with
            | Some q => min_quality <=? q
            | None => true
            end) calls.
Proof.
  unfold DashboardFilter.filter_calls. rewrite !filter_loop_eq.
  cbn [app]. split_and!.
  - induction calls as [|c calls IH]; [done|]. cbn [List.filter].
    match goal with |- context [if ?b then _ else _] => destruct b end;
      by constructor.
  - intros c. rewrite list_elem_of_In, filter_In, <- list_elem_of_In.
    rewrite !andb_true_iff.
    destruct (DashboardFilter.q_score c) as [q|].
    + rewrite negb_true_iff, Z.ltb_ge. split.
      * intros (? & (? & ?) & ?). split_and!; try done. by intros ? [= <-].
      * intros (? & ? & ? & Hq). split_and!; try done. by apply Hq.
    + split.
      * intros (? & (? & ?) & _). by split_and!.
      * intros (? & ? & ? & _). by split_and!.
  - induction calls as [|c calls IH]; [done|]. cbn [List.filter].
    rewrite s_label_option, r_label_option, IH. cbn [andb].
    destruct (DashboardFilter.q_score c) as [q|]; [|done].
    by rewrite Z.leb_antisym.
Qed.

(** ** Previews *)

Lemma replace_newlines_length s :
  String.length (replace_newlines s) = String.length s.
Proof. induction s as [|c s IH]; [done|]. cbn. by rewrite IH. Qed.

Lemma substring_length_le n s :
  (String.length (String.substring 0 n s) ≤ n)%nat.
Proof.
  revert n. induction s as [|c s IH]; intros [|n]; cbn; try lia.
  specialize (IH n). lia.
Qed.

Lemma substring_whole n s :
  (String.length s ≤ n)%nat → String.substring 0 n s = s.
Proof.
  revert n. induction s as [|c s IH]; intros [|n]; cbn; try done; try lia.
  intros Hn. rewrite IH; [done | lia].
Qed.

Lemma append_length a b :
  String.length (a +:+ b) = (String.length a + String.length b)%nat.
Proof. induction a as [|c a IH]; [done|]. simpl. by rewrite IH. Qed.

Lemma replace_newlines_none s :
  "010"%char ∉ list_ascii_of_string (replace_newlines s).
Proof.
  induction s as [|c s IH]; cbn [replace_newlines list_ascii_of_string].
  { apply not_elem_of_nil. }
  apply not_elem_of_cons. split; [|done].
  by destruct (Ascii.eqb_spec c "010") as [->|Hc].
Qed.

(** X20. The preview of a text, on a call card and in a search result, has
    at most [n + 3] characters and no line feed; a text of at most [n]
    characters is shown whole, with its line feeds turned into spaces, and a
    longer one is cut after [n] characters and followed by three dots. *)
Theorem preview_bounded (n : nat) (s : string) :
  (String.length (preview n s) ≤ n + 3)%nat ∧
  ("010"%char ∉ list_ascii_of_string (preview n s)) ∧
  ((String.length s ≤ n)%nat → preview n s = replace_newlines s) ∧
  ((n < String.length s)%nat →
   preview n s = replace_newlines (String.substring 0 n s) +:+ "..." ∧
   String.length (preview n s) = (n + 3)%nat).
Proof.
  unfold preview.
  pose proof (substring_length_le n s) as Hle.
  split_and!.
  - destruct (n <? String.length s)%nat;
      rewrite ?append_length, replace_newlines_length; cbn; lia.
  - destruct (n <? String.length s)%nat.
    + rewrite list_ascii_of_append. apply not_elem_of_app.
      split; [apply replace_newlines_none|].
      cbn. rewrite !not_elem_of_cons. split_and!; try done.
      apply not_elem_of_nil.
    + apply replace_newlines_none.
  - intros Hn. rewrite (proj2 (Nat.ltb_ge _ _)) by done.
    by rewrite substring_whole.
  - intros Hn. rewrite (proj2 (Nat.ltb_lt _ _)) by done.
    split; [done|].
    rewrite append_length, replace_newlines_length. cbn.
    assert (String.length (String.substring 0 n s) = n) as ->; [|done].
    clear Hle. revert n Hn.
    induction s as [|c s IH]; intros [|n] Hn; cbn in *; try lia.
    rewrite IH; [done | lia].
Qed.
